(** * SENTINEL trust/safety core: triple-check verification and freeze protocol

    A shallow embedding of
      - [sentinel/protocols/triple_check.py]   (module [TripleCheck]),
      - [sentinel/protocols/freeze_protocol.py] (module [Freeze]),
      - [sentinel/agents/brain/westminster_watch.py] (module [Brain]),
    together with the Python built-ins they rely on (module [Py]).

    Conventions of the embedding.
      - Python [float]s are exact rationals [Q]; Python [int]s are [Z].
      - A Python [str] is held as the bytes of its UTF-8 encoding, which is
        what [str.encode()] hands to the hash.
      - A Python [dict] is an association list in insertion order with
        pairwise distinct keys; assignment to an existing key keeps its
        position, as in CPython.
      - [datetime.now()] is an oracle: the n-th reading of the clock in a
        run is [clock n]; the number of readings made so far is part of the
        state.
      - Calls to [logger] are not modelled.
      - Registered components, the brain callback and the arms are external
        collaborators: their methods act on an abstract collaborator state
        of type [X] and either return or raise; they do not reach back into
        the protocol object that calls them. *)

From Stdlib Require Import ZArith QArith Qminmax Qabs Qround String Ascii List Bool.
From Stdlib Require Import Lia Lqa.
From Stdlib Require Import Permutation Sorted DecimalString OrderedTypeEx.
From stdpp Require Import base list strings.
Import ListNotations.

Local Set Warnings "-register-all".
Local Close Scope Q_scope.
Local Open Scope string_scope.

(** ** Python built-ins *)

Module Py.

(** The result of calling into code that may raise. *)
Inductive Outcome (A : Type) : Type :=
| Returned (a : A)
| Raised (msg : string).
Arguments Returned {A} a.
Arguments Raised {A} msg.

(** *** dict *)

Definition dict (V : Type) : Type := list (string * V).

Section Dict.
Context {V : Type}.

(** [d.get(k)] *)
Fixpoint dict_get (k : string) (d : dict V) : option V :=
  match d with
  | [] => None
  | (k', v) :: d' => if String.eqb k k' then Some v else dict_get k d'
  end.

(** [k in d] *)
Definition dict_contains (k : string) (d : dict V) : bool :=
  match dict_get k d with Some _ => true | None => false end.

(** [d[k] = v]: an existing key keeps its place, a new one goes last. *)
Fixpoint dict_set (k : string) (v : V) (d : dict V) : dict V :=
  match d with
  | [] => [(k, v)]
  | (k', v') :: d' =>
      if String.eqb k k' then (k', v) :: d' else (k', v') :: dict_set k v d'
  end.

(** [del d[k]] for a key that is present. *)
Fixpoint dict_del (k : string) (d : dict V) : dict V :=
  match d with
  | [] => []
  | (k', v') :: d' =>
      if String.eqb k k' then d' else (k', v') :: dict_del k d'
  end.

Definition dict_keys (d : dict V) : list string := map fst d.
Definition dict_values (d : dict V) : list V := map snd d.

(** The invariant of every Python dict: no key occurs twice. *)
Definition dict_wf (d : dict V) : Prop := NoDup (dict_keys d).
End Dict.

(** *** Numbers *)

(** Comparisons [x < y] and [x >= y] on rationals. *)
Definition Qltb (x y : Q) : bool := negb (Qle_bool y x).
Definition Qgeb (x y : Q) : bool := Qle_bool y x.

(** [min(a, b)]: the first argument unless the second is strictly smaller. *)
Definition py_min (a b : Q) : Q := if Qltb b a then b else a.

(** [sum(xs)] *)
Definition py_sum (xs : list Q) : Q := fold_left Qplus xs 0%Q.

(** *** Decimal and hexadecimal rendering *)

Definition str_nat (n : nat) : string := NilEmpty.string_of_uint (Nat.to_uint n).
Definition str_int (z : Z) : string := NilZero.string_of_int (Z.to_int z).

Fixpoint zeros (n : nat) : string :=
  match n with O => "" | S n' => String "0" (zeros n') end.

(** ['%0<w>d' % n] *)
Definition zfill (w : nat) (n : nat) : string :=
  let s := str_nat n in zeros (w - String.length s) ++ s.

Definition hex_digit (n : Z) : ascii :=
  match String.get (Z.to_nat n) "0123456789abcdef" with
  | Some c => c
  | None => "0"%char
  end.

(** *** datetime *)

Record datetime : Type := mkDatetime {
  year : nat; month : nat; day : nat;
  hour : nat; minute : nat; second : nat;
  microsecond : nat
}.

(** [dt.strftime('%Y%m%d_%H%M%S')] *)
Definition strftime_Ymd_HMS (dt : datetime) : string :=
  zfill 4 (year dt) ++ zfill 2 (month dt) ++ zfill 2 (day dt) ++ "_" ++
  zfill 2 (hour dt) ++ zfill 2 (minute dt) ++ zfill 2 (second dt).

(** [dt.isoformat()] *)
Definition isoformat (dt : datetime) : string :=
  zfill 4 (year dt) ++ "-" ++ zfill 2 (month dt) ++ "-" ++ zfill 2 (day dt) ++
  "T" ++ zfill 2 (hour dt) ++ ":" ++ zfill 2 (minute dt) ++ ":" ++
  zfill 2 (second dt) ++
  (if Nat.eqb (microsecond dt) 0 then "" else "." ++ zfill 6 (microsecond dt)).

(** The clock oracle: the value of the n-th call of [datetime.now()]. *)
Definition Clock : Type := nat -> datetime.

(** *** Values and [repr] *)

(** Payload values ([Any]) as far as they are rendered here: [None],
    booleans, integers, strings, lists and nested dicts. *)
Inductive PyVal : Type :=
| VNone
| VBool (b : bool)
| VInt (z : Z)
| VStr (s : string)
| VList (l : list PyVal)
| VDict (d : list (string * PyVal)).

Fixpoint str_contains (c : ascii) (s : string) : bool :=
  match s with
  | EmptyString => false
  | String c' s' => Ascii.eqb c c' || str_contains c s'
  end.

Definition repr_char (quote : ascii) (c : ascii) : string :=
  let n := Z.of_N (N_of_ascii c) in
  if Ascii.eqb c quote || Ascii.eqb c "\"%char then String "\" (String c "")
  else if (n =? 9)%Z then "\t"
  else if (n =? 10)%Z then "\n"
  else if (n =? 13)%Z then "\r"
  else if (n <? 32)%Z || (n =? 127)%Z then
    String "\" (String "x" (String (hex_digit (n / 16)) (String (hex_digit (n mod 16)) "")))
  else String c "".

(** A [str] is held as its UTF-8 bytes. The characters U+0080 to U+00A0
    and U+00AD, which are not printable, are the byte 194 followed by a
    byte from 128 to 160 or by 173; [repr] writes them as an escape with
    the code of the character, which is the second byte. *)
Definition latin1_unprintable (c d : ascii) : bool :=
  let n := Z.of_N (N_of_ascii d) in
  (Z.of_N (N_of_ascii c) =? 194)%Z
  && (((128 <=? n)%Z && (n <=? 160)%Z) || (n =? 173)%Z).

Definition hex_escape (c : ascii) : string :=
  let n := Z.of_N (N_of_ascii c) in
  String "\" (String "x" (String (hex_digit (n / 16)) (String (hex_digit (n mod 16)) ""))).

Fixpoint repr_chars (quote : ascii) (s : string) : string :=
  match s with
  | EmptyString => ""
  | String c s' =>
      match s' with
      | String d s'' =>
          if latin1_unprintable c d then hex_escape d ++ repr_chars quote s''
          else repr_char quote c ++ repr_chars quote s'
      | EmptyString => repr_char quote c
      end
  end.

(** The double quote character (code 34). *)
Definition double_quote : ascii := "034"%char.

(** [repr(s)] for a [str]: single quotes unless the text has a single and
    no double quote. Exact on text whose characters above U+00FF are
    printable: the bytes of all other characters are kept as they are. *)
Definition repr_str (s : string) : string :=
  let quote : ascii :=
    if str_contains "'" s && negb (str_contains double_quote s)
    then double_quote else "'"%char in
  String quote (repr_chars quote s ++ String quote "").

(** [sep.join(parts)] *)
Fixpoint join (sep : string) (parts : list string) : string :=
  match parts with
  | [] => ""
  | [p] => p
  | p :: rest => p ++ sep ++ join sep rest
  end.

Fixpoint repr (v : PyVal) : string :=
  match v with
  | VNone => "None"
  | VBool true => "True"
  | VBool false => "False"
  | VInt z => str_int z
  | VStr s => repr_str s
  | VList l => "[" ++ join ", " (map repr l) ++ "]"
  | VDict d =>
      "{" ++ join ", " (map (fun kv => repr_str (fst kv) ++ ": " ++ repr (snd kv)) d) ++ "}"
  end.

(** [a == b] on payload values: [None] equals itself, a bool equals
    the int 1 or 0, strings are compared by their text and lists element by
    element, and two dicts are equal when they have the same number of
    keys and every key of the first is in the second with an equal value,
    in whatever order the keys were inserted. *)
Fixpoint py_eq (a b : PyVal) : bool :=
  match a, b with
  | VNone, VNone => true
  | VBool x, VBool y => Bool.eqb x y
  | VBool x, VInt z | VInt z, VBool x => (z =? (if x then 1 else 0))%Z
  | VInt x, VInt y => (x =? y)%Z
  | VStr x, VStr y => String.eqb x y
  | VList l, VList m =>
      (fix all2 (l m : list PyVal) : bool :=
         match l, m with
         | [], [] => true
         | x :: l', y :: m' => py_eq x y && all2 l' m'
         | _, _ => false
         end) l m
  | VDict d, VDict e =>
      Nat.eqb (length d) (length e)
      && (fix all (d : list (string * PyVal)) : bool :=
            match d with
            | [] => true
            | (k, v) :: d' =>
                match dict_get k e with
                | Some w => py_eq v w
                | None => false
                end && all d'
            end) d
  | _, _ => false
  end.

(** [repr] of a [(key, value)] tuple. *)
Definition repr_item (kv : string * PyVal) : string :=
  "(" ++ repr_str (fst kv) ++ ", " ++ repr (snd kv) ++ ")".

(** [str(l)] for a list of [(key, value)] tuples. *)
Definition str_items (l : list (string * PyVal)) : string :=
  "[" ++ join ", " (map repr_item l) ++ "]".

(** *** sorted *)

(** [sorted(d.items())]. The keys of a dict are pairwise distinct, so the
    tuple comparison is decided by the keys alone and the values are never
    compared. *)
Fixpoint insert_item (kv : string * PyVal) (l : list (string * PyVal))
  : list (string * PyVal) :=
  match l with
  | [] => [kv]
  | kv' :: l' =>
      if String.ltb (fst kv) (fst kv') then kv :: l else kv' :: insert_item kv l'
  end.

Fixpoint sorted_items (l : list (string * PyVal)) : list (string * PyVal) :=
  match l with
  | [] => []
  | kv :: l' => insert_item kv (sorted_items l')
  end.

(** The order of two items with different keys. *)
Definition key_lt (a b : string * PyVal) : Prop := String.ltb (fst a) (fst b) = true.

(** *** hashlib.sha256 *)

(** SHA-256 as in FIPS 180-4, on 32-bit words held in [Z] with the
    wrap-around written out. The round constants and the initial hash value
    are, as the standard defines them, the first 32 bits of the fractional
    parts of the cube roots of the first 64 primes and of the square roots
    of the first 8. *)
Module SHA256.

Definition w32 (x : Z) : Z := Z.land x (Z.ones 32).
Definition add32 (x y : Z) : Z := w32 (x + y).
Definition rotr (n x : Z) : Z :=
  Z.lor (Z.shiftr x n) (w32 (Z.shiftl x (32 - n))).

Definition Ch (x y z : Z) : Z := Z.lxor (Z.land x y) (Z.ldiff z x).
Definition Maj (x y z : Z) : Z :=
  Z.lxor (Z.lxor (Z.land x y) (Z.land x z)) (Z.land y z).
Definition Sigma0 (x : Z) : Z := Z.lxor (Z.lxor (rotr 2 x) (rotr 13 x)) (rotr 22 x).
Definition Sigma1 (x : Z) : Z := Z.lxor (Z.lxor (rotr 6 x) (rotr 11 x)) (rotr 25 x).
Definition sigma0 (x : Z) : Z := Z.lxor (Z.lxor (rotr 7 x) (rotr 18 x)) (Z.shiftr x 3).
Definition sigma1 (x : Z) : Z := Z.lxor (Z.lxor (rotr 17 x) (rotr 19 x)) (Z.shiftr x 10).

Definition is_prime (n : nat) : bool :=
  forallb (fun d => negb (Nat.eqb (Nat.modulo n d) 0)) (seq 2 (n - 2)).
Definition primes64 : list nat := List.filter is_prime (seq 2 310).

(** Starting from [r = 0]: the largest [r] below [2 ^ bits] with
    [r ^ k <= n], found bit by bit from the top. *)
Fixpoint iroot (k : Z) (n : Z) (bits : nat) (r : Z) : Z :=
  match bits with
  | O => r
  | S b =>
      let c := (r + 2 ^ Z.of_nat b)%Z in
      iroot k n b (if (c ^ k <=? n)%Z then c else r)
  end.

Definition frac_root (k : Z) (p : nat) : Z :=
  w32 (iroot k (Z.of_nat p * 2 ^ (32 * k))%Z 35 0).

Definition K : list Z := map (frac_root 3) primes64.
Definition H0 : list Z := map (frac_root 2) (firstn 8 primes64).

Definition bytes_of_string (s : string) : list Z :=
  map (fun c => Z.of_N (N_of_ascii c)) (list_ascii_of_string s).

Fixpoint be_bytes (n : nat) (x : Z) : list Z :=
  match n with
  | O => []
  | S n' => (Z.shiftr x (8 * Z.of_nat n') mod 256)%Z :: be_bytes n' x
  end.

Definition pad (msg : list Z) : list Z :=
  let len := Z.of_nat (length msg) in
  (msg ++ [128%Z] ++ repeat 0%Z (Z.to_nat ((55 - len) mod 64)) ++
   be_bytes 8 (8 * len))%list.

Fixpoint blocks (fuel : nat) (l : list Z) : list (list Z) :=
  match fuel, l with
  | S f, _ :: _ => firstn 64 l :: blocks f (skipn 64 l)
  | _, _ => []
  end.

Fixpoint words (n : nat) (l : list Z) : list Z :=
  match n, l with
  | S n', a :: b :: c :: d :: rest =>
      (((a * 256 + b) * 256 + c) * 256 + d)%Z :: words n' rest
  | _, _ => []
  end.

(** The message schedule: [n] further words after those in [w]. *)
Fixpoint schedule (n : nat) (w : list Z) : list Z :=
  match n with
  | O => w
  | S n' =>
      let t := length w in
      let at_ i := nth (t - i) w 0%Z in
      schedule n'
        (w ++ [add32 (add32 (sigma1 (at_ 2)) (at_ 7))
                     (add32 (sigma0 (at_ 15)) (at_ 16))])%list
  end.

Definition round (st : list Z) (kw : Z * Z) : list Z :=
  match st with
  | [a; b; c; d; e; f; g; h] =>
      let t1 := add32 (add32 (add32 h (Sigma1 e)) (Ch e f g))
                      (add32 (fst kw) (snd kw)) in
      let t2 := add32 (Sigma0 a) (Maj a b c) in
      [add32 t1 t2; a; b; c; add32 d t1; e; f; g]
  | _ => st
  end.

Definition compress (h : list Z) (block : list Z) : list Z :=
  let w := schedule 48 (words 16 block) in
  map (fun p => add32 (fst p) (snd p))
      (combine h (fold_left round (combine K w) h)).

Definition digest (s : string) : list Z :=
  let m := pad (bytes_of_string s) in
  fold_left compress (blocks (length m) m) H0.

Fixpoint hex (n : nat) (x : Z) : string :=
  match n with
  | O => ""
  | S n' => String (hex_digit (Z.shiftr x (4 * Z.of_nat n') mod 16)%Z) (hex n' x)
  end.

(** [hashlib.sha256(s.encode()).hexdigest()]; a [string] here is the
    sequence of its UTF-8 bytes, so [encode] is the identity. *)
Definition hexdigest (s : string) : string :=
  String.concat "" (map (hex 8) (digest s)).

End SHA256.

End Py.

(** ** The triple-check protocol ([protocols/triple_check.py]) *)

Module TripleCheck.
Import Py.

Inductive CheckType : Type := PRIMARY | SECONDARY | PATTERN.

Inductive VerificationStatus : Type :=
| VERIFIED     (* All 3 checks passed *)
| PARTIAL      (* 1-2 checks passed *)
| FAILED       (* All checks failed *)
| PENDING      (* Awaiting verification *)
| ESCALATED.   (* Sent to human review *)

Definition VerificationStatus_value (s : VerificationStatus) : string :=
  match s with
  | VERIFIED => "VERIFIED" | PARTIAL => "PARTIAL" | FAILED => "FAILED"
  | PENDING => "PENDING" | ESCALATED => "ESCALATED"
  end.

Definition VerificationStatus_eqb (a b : VerificationStatus) : bool :=
  match a, b with
  | VERIFIED, VERIFIED | PARTIAL, PARTIAL | FAILED, FAILED
  | PENDING, PENDING | ESCALATED, ESCALATED => true
  | _, _ => false
  end.

Record SourceReference : Type := mkSourceReference {
  name : string;
  url : string;
  type : string;                 (* official, independent, historical *)
  reliability_score : Q;         (* 0-1 *)
  last_verified : option datetime
}.

Record CheckResult : Type := mkCheckResult {
  check_type : CheckType;
  passed : bool;
  confidence : Q;
  sources_used : list SourceReference;
  evidence : string;
  check_timestamp : datetime;
  error : option string
}.

(** [data.get("id", f"auto_{datetime.now().timestamp()}")]: the payload's own
    id, or one made from the clock reading. *)
Inductive DataId : Type :=
| Id_of (v : PyVal)
| Id_auto (now : datetime).

Record TripleCheckResult : Type := mkTripleCheckResult {
  data_id : DataId;
  data_hash : string;
  original_data : dict PyVal;
  primary_check : CheckResult;
  secondary_check : CheckResult;
  pattern_check : CheckResult;
  overall_status : VerificationStatus;
  overall_confidence : Q;
  verification_chain : list string;   (* Audit trail *)
  timestamp : datetime;
  human_reviewed : bool
}.

Definition is_verified (r : TripleCheckResult) : bool :=
  VerificationStatus_eqb (overall_status r) VERIFIED.

Record TripleCheckProtocol : Type := mkTripleCheckProtocol {
  config : dict PyVal;
  primary_sources : dict SourceReference;
  secondary_sources : dict SourceReference;
  historical_db : dict PyVal;
  confidence_threshold : Q;
  min_sources_required : Z;
  total_verifications : Z;
  successful_verifications : Z;
  escalations : Z
}.

Definition default_primary_sources : dict SourceReference :=
  [ ("hansard", mkSourceReference "UK Hansard" "https://hansard.parliament.uk/" "official" 0.99 None);
    ("parliament", mkSourceReference "UK Parliament" "https://www.parliament.uk/" "official" 0.99 None);
    ("legislation", mkSourceReference "Legislation.gov.uk" "https://www.legislation.gov.uk/" "official" 0.99 None);
    ("ons", mkSourceReference "Office for National Statistics" "https://www.ons.gov.uk/" "official" 0.98 None) ].

Definition default_secondary_sources : dict SourceReference :=
  [ ("theyworkforyou", mkSourceReference "TheyWorkForYou" "https://www.theyworkforyou.com/" "independent" 0.92 None);
    ("publicwhip", mkSourceReference "Public Whip" "https://www.publicwhip.org.uk/" "independent" 0.90 None);
    ("fullfact", mkSourceReference "Full Fact" "https://fullfact.org/" "independent" 0.95 None) ].

(** [TripleCheckProtocol(config)], [_init_default_sources] included. *)
Definition init (cfg : option (dict PyVal)) : TripleCheckProtocol :=
  {| config := match cfg with Some ((_ :: _) as c) => c | _ => [] end;
     primary_sources := default_primary_sources;
     secondary_sources := default_secondary_sources;
     historical_db := [];
     confidence_threshold := 0.7;
     min_sources_required := 2;
     total_verifications := 0;
     successful_verifications := 0;
     escalations := 0 |}.

(** *** Helper methods *)

Definition _hash_data (data : dict PyVal) : string :=
  let data_str := str_items (sorted_items data) in
  substring 0 16 (SHA256.hexdigest data_str).

Definition _select_sources (sources : dict SourceReference) (data_type : string)
  : dict SourceReference := sources.

Definition _verify_against_source (data : dict PyVal) (source : SourceReference)
  : bool * string := (true, "Confirmed by " ++ name source).

Record Features : Type := mkFeatures {
  feat_type : string;
  feat_keys : list string
}.

Definition _extract_features (data : dict PyVal) (data_type : string) : Features :=
  {| feat_type := data_type; feat_keys := dict_keys data |}.

Definition _match_historical (features : Features) : list string * list string :=
  (["similar_pattern_001"], []).

(** *** Individual checks *)

(** The loop shared by [_check_primary] and [_check_secondary]:
    [for source_id, source in relevant_sources.items(): ...]. *)
Fixpoint consult (data : dict PyVal) (items : list (string * SourceReference))
    (sources_used : list SourceReference) (evidence_parts : list string)
  : list SourceReference * list string :=
  match items with
  | [] => (sources_used, evidence_parts)
  | (source_id, source) :: rest =>
      let '(verified, evidence) := _verify_against_source data source in
      consult data rest (sources_used ++ [source])%list
        (if String.eqb evidence "" then evidence_parts
         else (evidence_parts ++ [evidence])%list)
  end.

(** [mean reliability if sources_used else 0] *)
Definition mean_reliability (sources_used : list SourceReference) : Q :=
  match sources_used with
  | [] => 0%Q
  | _ => (py_sum (map reliability_score sources_used)
          / inject_Z (Z.of_nat (length sources_used)))%Q
  end.

(** [s or default] on strings *)
Definition str_or (s default : string) : string :=
  if String.eqb s "" then default else s.

Definition _check_primary (self : TripleCheckProtocol) (data : dict PyVal)
    (data_type : string) (now : datetime) : CheckResult :=
  let relevant_sources := _select_sources (primary_sources self) data_type in
  let '(sources_used, evidence_parts) := consult data relevant_sources [] [] in
  let passed := (min_sources_required self <=? Z.of_nat (length sources_used))%Z in
  let confidence := py_min (mean_reliability sources_used) 1.0%Q in
  {| check_type := PRIMARY;
     passed := passed;
     confidence := confidence;
     sources_used := sources_used;
     evidence := str_or (join "; " evidence_parts) "Primary sources confirmed";
     check_timestamp := now;
     error := None |}.

Definition _check_secondary (self : TripleCheckProtocol) (data : dict PyVal)
    (data_type : string) (now : datetime) : CheckResult :=
  let relevant_sources := _select_sources (secondary_sources self) data_type in
  let '(sources_used, evidence_parts) := consult data relevant_sources [] [] in
  let passed := (1 <=? Z.of_nat (length sources_used))%Z in
  let confidence := mean_reliability sources_used in
  {| check_type := SECONDARY;
     passed := passed;
     confidence := confidence;
     sources_used := sources_used;
     evidence := str_or (join "; " evidence_parts) "Secondary sources confirmed";
     check_timestamp := now;
     error := None |}.

Definition _check_pattern (self : TripleCheckProtocol) (data : dict PyVal)
    (data_type : string) (now : datetime) : CheckResult :=
  let features := _extract_features data data_type in
  let '(matches, anomalies) := _match_historical features in
  let passed := Nat.eqb (length anomalies) 0 && Nat.ltb 0 (length matches) in
  let confidence := if passed then 0.8%Q else 0.4%Q in
  let evidence := "Pattern matches: " ++ str_nat (length matches) ++
                  ", Anomalies: " ++ str_nat (length anomalies) in
  {| check_type := PATTERN;
     passed := passed;
     confidence := confidence;
     sources_used := [];
     evidence := evidence;
     check_timestamp := now;
     error := None |}.

(** *** Main verification flow *)

Definition pass_fail (b : bool) : string := if b then "PASS" else "FAIL".

(** [sum(checks)] on a list of booleans *)
Definition count_true (checks : list bool) : Z :=
  fold_left (fun n (b : bool) => if b then (n + 1)%Z else n) checks 0%Z.

(** The second half of [verify] ("Calculate overall status" to the end),
    given the three check results, the identifiers, the audit trail so far
    and the clock reading that stamps the result. *)
Definition verify_aggregate (self : TripleCheckProtocol)
    (data_id : DataId) (data_hash : string) (data : dict PyVal)
    (verification_chain : list string)
    (primary_result secondary_result pattern_result : CheckResult)
    (now : datetime) : TripleCheckResult * TripleCheckProtocol :=
  let checks := [passed primary_result; passed secondary_result; passed pattern_result] in
  let confidences :=
    [confidence primary_result; confidence secondary_result; confidence pattern_result] in
  let passed_count := count_true checks in
  let overall_confidence := (py_sum confidences / 3)%Q in
  let status :=
    if (passed_count =? 3)%Z then VERIFIED
    else if (1 <=? passed_count)%Z then PARTIAL
    else FAILED in
  (* Check if escalation needed *)
  let escalate := VerificationStatus_eqb status PARTIAL && Qltb overall_confidence 0.5%Q in
  let status := if escalate then ESCALATED else status in
  let escalations' := if escalate then (escalations self + 1)%Z else escalations self in
  let verification_chain :=
    if escalate then (verification_chain ++ ["ESCALATED: Requires human review"])%list
    else verification_chain in
  (* Update metrics *)
  let total' := (total_verifications self + 1)%Z in
  let successful' :=
    if VerificationStatus_eqb status VERIFIED
    then (successful_verifications self + 1)%Z else successful_verifications self in
  let verification_chain :=
    (verification_chain ++ [("Final status: " ++ VerificationStatus_value status)%string])%list in
  ({| data_id := data_id;
      data_hash := data_hash;
      original_data := data;
      primary_check := primary_result;
      secondary_check := secondary_result;
      pattern_check := pattern_result;
      overall_status := status;
      overall_confidence := overall_confidence;
      verification_chain := verification_chain;
      timestamp := now;
      human_reviewed := false |},
   {| config := config self;
      primary_sources := primary_sources self;
      secondary_sources := secondary_sources self;
      historical_db := historical_db self;
      confidence_threshold := confidence_threshold self;
      min_sources_required := min_sources_required self;
      total_verifications := total';
      successful_verifications := successful';
      escalations := escalations' |}).

(** [verify(data, data_type)]. [reads] is the number of clock readings made
    before the call; the call makes six (the default id, the start of the
    audit trail, the three check results and the final result). *)
Definition verify (clock : Clock) (self : TripleCheckProtocol) (reads : nat)
    (data : dict PyVal) (data_type : string)
  : TripleCheckResult * TripleCheckProtocol * nat :=
  let auto_id := Id_auto (clock reads) in
  let data_id := match dict_get "id" data with Some v => Id_of v | None => auto_id end in
  let data_hash := _hash_data data in
  let verification_chain := ["Verification started: " ++ isoformat (clock (reads + 1))] in
  (* Check 1: Primary Source Verification *)
  let primary_result := _check_primary self data data_type (clock (reads + 2)) in
  let verification_chain :=
    (verification_chain ++ [("Primary check: " ++ pass_fail (passed primary_result))%string])%list in
  (* Check 2: Secondary Source Confirmation *)
  let secondary_result := _check_secondary self data data_type (clock (reads + 3)) in
  let verification_chain :=
    (verification_chain ++ [("Secondary check: " ++ pass_fail (passed secondary_result))%string])%list in
  (* Check 3: Pattern Match Historical *)
  let pattern_result := _check_pattern self data data_type (clock (reads + 4)) in
  let verification_chain :=
    (verification_chain ++ [("Pattern check: " ++ pass_fail (passed pattern_result))%string])%list in
  (verify_aggregate self data_id data_hash data verification_chain
     primary_result secondary_result pattern_result (clock (reads + 5)),
   reads + 6).

(** [get_metrics()["success_rate"]] *)
Definition success_rate (self : TripleCheckProtocol) : Q :=
  if (0 <? total_verifications self)%Z
  then (inject_Z (successful_verifications self) / inject_Z (total_verifications self))%Q
  else 0%Q.

(** Re-assignment of the two registries ([protocol.primary_sources = ...],
    [protocol.secondary_sources = ...]). *)
Definition with_sources (primary secondary : dict SourceReference)
    (self : TripleCheckProtocol) : TripleCheckProtocol :=
  {| config := config self;
     primary_sources := primary;
     secondary_sources := secondary;
     historical_db := historical_db self;
     confidence_threshold := confidence_threshold self;
     min_sources_required := min_sources_required self;
     total_verifications := total_verifications self;
     successful_verifications := successful_verifications self;
     escalations := escalations self |}.

(** The number of checks of a result that passed. *)
Definition passed_count (r : TripleCheckResult) : Z :=
  count_true [passed (primary_check r); passed (secondary_check r);
              passed (pattern_check r)].

(** The registries of the spec's scenario A: [hansard] and [parliament] as
    primary, [theyworkforyou] as secondary, on a fresh protocol. *)
Definition scenario_A_protocol : TripleCheckProtocol :=
  with_sources (firstn 2 default_primary_sources)
               (firstn 1 default_secondary_sources) (init None).

(** The payload verified in the demos. *)
Definition demo_data : dict PyVal :=
  [ ("id", VStr "vote_finance_2025_001");
    ("type", VStr "parliamentary_vote");
    ("bill", VStr "Finance Bill 2025");
    ("result", VStr "passed");
    ("votes_for", VInt 312);
    ("votes_against", VInt 287);
    ("date", VStr "2025-11-20") ].

(** A clock that starts on 20 November 2025 at noon and advances by 100
    microseconds between readings. *)
Definition demo_clock : Clock :=
  fun n => mkDatetime 2025 11 20 12 0 0 (100 * n).

(** *** Vocabulary of further properties *)

(** The counters agree with one another: no count is negative, and the
    successes and the escalations together do not exceed the total. *)
Definition counters_consistent (self : TripleCheckProtocol) : Prop :=
  (0 <= successful_verifications self)%Z /\
  (0 <= escalations self)%Z /\
  (successful_verifications self + escalations self <= total_verifications self)%Z.

(** Every reliability score of a registry lies between 0 and 1. *)
Definition reliabilities_in_unit (sources : dict SourceReference) : Prop :=
  Forall (fun kv => (0 <= reliability_score (snd kv) <= 1)%Q) sources.

(** The line of evidence a consulted source contributes. *)
Definition confirmation (source : SourceReference) : string :=
  "Confirmed by " ++ name source.

End TripleCheck.

(** ** The freeze protocol ([protocols/freeze_protocol.py]) *)

Module Freeze.
Import Py.

Inductive SystemState : Type := ACTIVE | FROZEN | RECOVERING | MAINTENANCE.

Definition SystemState_eqb (a b : SystemState) : bool :=
  match a, b with
  | ACTIVE, ACTIVE | FROZEN, FROZEN | RECOVERING, RECOVERING
  | MAINTENANCE, MAINTENANCE => true
  | _, _ => false
  end.

Inductive FreezeReason : Type :=
| ARM_FAILURE
| VERIFICATION_FAILURE
| DATA_INTEGRITY
| API_ERROR
| ANOMALY_DETECTED
| HUMAN_TRIGGERED
| SECURITY_CONCERN.

Inductive RecoveryAction : Type :=
| RESTART_ARM
| CLEAR_CACHE
| ROLLBACK_DATA
| HUMAN_REVIEW
| FULL_DIAGNOSTIC.

Record FreezeEvent : Type := mkFreezeEvent {
  event_id : string;
  timestamp : datetime;
  reason : FreezeReason;
  trigger_source : string;
  details : string;
  affected_components : list string;
  resolved : bool;
  resolution_time : option datetime;
  resolution_action : option string
}.

(** A [FreezeEvent] is a mutable object shared by [current_freeze], by
    [freeze_history], by diagnostic reports and by the caller of
    [trigger_freeze]: it lives in a store and is named by its index. *)
Definition EventRef : Type := nat.

Record DiagnosticReport : Type := mkDiagnosticReport {
  diag_timestamp : datetime;
  system_state : SystemState;
  freeze_event : option EventRef;
  diag_component_status : dict string;
  data_integrity_score : Q;
  recent_verifications : Z;
  verification_success_rate : Q;
  recommended_actions : list RecoveryAction;
  estimated_recovery_time : string;
  human_intervention_required : bool
}.

(** The calls made into collaborators, in the order made. This trace is
    not a variable of the program; it records what the program did. *)
Inductive Call : Type :=
| Call_pause (name : string)
| Call_resume (name : string)
| Call_health_check (name : string)
| Call_clear_cache (name : string)
| Call_brain (kind : string).

Section Protocol.

(** The joint state of the collaborators, and the clock. *)
Variable X : Type.
Variable clock : Clock.

(** A registered component: each capability is present or not
    ([hasattr]), and a call to it returns or raises. [health_check]
    yields [health.get('status')]: [Some s] for a dict with a status,
    [None] for one without; anything [health.get] cannot be called on
    counts as raising. *)
Record Component : Type := mkComponent {
  pause : option (X -> Outcome unit * X);
  resume : option (X -> Outcome unit * X);
  health_check : option (X -> Outcome (option string) * X);
  clear_cache : option (X -> Outcome unit * X)
}.

(** [brain_callback(kind, event)] *)
Definition Callback : Type := string -> option FreezeEvent -> X -> Outcome unit * X.

Record FreezeProtocol : Type := mkFreezeProtocol {
  brain_callback : option Callback;
  (* State *)
  state : SystemState;
  current_freeze : option EventRef;
  (* Component registry *)
  components : dict Component;
  component_status : dict string;
  (* History *)
  freeze_history : list EventRef;
  (* Configuration *)
  auto_recovery_enabled : bool;
  max_auto_recovery_attempts : Z;
  recovery_attempts : Z
}.

Record World : Type := mkWorld {
  ext : X;                    (* the collaborators *)
  reads : nat;                (* clock readings made so far *)
  calls : list Call;          (* collaborator calls made so far *)
  heap : list FreezeEvent     (* the FreezeEvent objects created so far *)
}.

(** [FreezeProtocol(brain_callback)] *)
Definition init (cb : option Callback) : FreezeProtocol :=
  {| brain_callback := cb;
     state := ACTIVE;
     current_freeze := None;
     components := [];
     component_status := [];
     freeze_history := [];
     auto_recovery_enabled := true;
     max_auto_recovery_attempts := 3;
     recovery_attempts := 0 |}.

(** *** Attribute assignment *)

Definition set_state (v : SystemState) (self : FreezeProtocol) : FreezeProtocol :=
  mkFreezeProtocol (brain_callback self) v (current_freeze self) (components self)
    (component_status self) (freeze_history self) (auto_recovery_enabled self)
    (max_auto_recovery_attempts self) (recovery_attempts self).

Definition set_current_freeze (v : option EventRef) (self : FreezeProtocol)
  : FreezeProtocol :=
  mkFreezeProtocol (brain_callback self) (state self) v (components self)
    (component_status self) (freeze_history self) (auto_recovery_enabled self)
    (max_auto_recovery_attempts self) (recovery_attempts self).

Definition set_components (v : dict Component) (self : FreezeProtocol)
  : FreezeProtocol :=
  mkFreezeProtocol (brain_callback self) (state self) (current_freeze self) v
    (component_status self) (freeze_history self) (auto_recovery_enabled self)
    (max_auto_recovery_attempts self) (recovery_attempts self).

Definition set_component_status (v : dict string) (self : FreezeProtocol)
  : FreezeProtocol :=
  mkFreezeProtocol (brain_callback self) (state self) (current_freeze self)
    (components self) v (freeze_history self) (auto_recovery_enabled self)
    (max_auto_recovery_attempts self) (recovery_attempts self).

Definition set_freeze_history (v : list EventRef) (self : FreezeProtocol)
  : FreezeProtocol :=
  mkFreezeProtocol (brain_callback self) (state self) (current_freeze self)
    (components self) (component_status self) v (auto_recovery_enabled self)
    (max_auto_recovery_attempts self) (recovery_attempts self).

Definition set_recovery_attempts (v : Z) (self : FreezeProtocol) : FreezeProtocol :=
  mkFreezeProtocol (brain_callback self) (state self) (current_freeze self)
    (components self) (component_status self) (freeze_history self)
    (auto_recovery_enabled self) (max_auto_recovery_attempts self) v.

(** *** The monad of the methods: state, and exceptions that keep it *)

Definition St : Type := (FreezeProtocol * World)%type.
Definition M (A : Type) : Type := St -> Outcome A * St.

Definition ret {A} (a : A) : M A := fun s => (Returned a, s).

Definition bind {A B} (m : M A) (k : A -> M B) : M B :=
  fun s =>
    match m s with
    | (Returned a, s') => k a s'
    | (Raised e, s') => (Raised e, s')
    end.

Notation "'let*' x ':=' m 'in' k" := (bind m (fun x => k))
  (at level 10, x pattern, m at level 100, k at level 200).
Notation "m ';;' k" := (bind m (fun _ => k))
  (at level 100, k at level 200, right associativity).

(** [self.<attribute>] *)
Definition get {A} (f : FreezeProtocol -> A) : M A :=
  fun s => (Returned (f (fst s)), s).

(** [self.<attribute> = v] *)
Definition assign (f : FreezeProtocol -> FreezeProtocol) : M unit :=
  fun s => (Returned tt, (f (fst s), snd s)).

(** [datetime.now()] *)
Definition now : M datetime :=
  fun s =>
    let w := snd s in
    (Returned (clock (reads w)),
     (fst s, mkWorld (ext w) (S (reads w)) (calls w) (heap w))).

(** [await collaborator.method()], with what it returned or raised
    handed to the caller as a value. *)
Definition call {A} (c : Call) (method : X -> Outcome A * X) : M (Outcome A) :=
  fun s =>
    let w := snd s in
    let '(r, x') := method (ext w) in
    (Returned r, (fst s, mkWorld x' (reads w) (calls w ++ [c]) (heap w))).

(** The same outside any [try]: an exception propagates. *)
Definition call_raising {A} (c : Call) (method : X -> Outcome A * X) : M A :=
  fun s =>
    match call c method s with
    | (Returned r, s') => (r, s')
    | (Raised e, s') => (Raised e, s')
    end.

(** [try: body except Exception as e: handler(e)] *)
Definition try_except {A} (body : M A) (handler : string -> M A) : M A :=
  fun s =>
    match body s with
    | (Returned a, s') => (Returned a, s')
    | (Raised e, s') => handler e s'
    end.

(** [for x in xs: body(x)] *)
Fixpoint for_each {A} (xs : list A) (body : A -> M unit) : M unit :=
  match xs with
  | [] => ret tt
  | x :: rest => body x ;; for_each rest body
  end.

(** The store of events. *)
Definition new_event (ev : FreezeEvent) : M EventRef :=
  fun s =>
    let w := snd s in
    (Returned (length (heap w)),
     (fst s, mkWorld (ext w) (reads w) (calls w) (heap w ++ [ev]))).

Definition read_event (r : EventRef) : M (option FreezeEvent) :=
  fun s => (Returned (heap (snd s) !! r), s).

Definition update_event (r : EventRef) (f : FreezeEvent -> FreezeEvent) : M unit :=
  fun s =>
    let w := snd s in
    (Returned tt,
     (fst s, mkWorld (ext w) (reads w) (calls w) (alter f r (heap w)))).

(** The event [self.current_freeze] refers to, if any. *)
Definition current_event (s : St) : option FreezeEvent :=
  match current_freeze (fst s) with
  | Some r => heap (snd s) !! r
  | None => None
  end.

(** *** Registration *)

Definition register_component (name : string) (component : Component)
    (self : FreezeProtocol) : FreezeProtocol :=
  let self := set_components (dict_set name component (components self)) self in
  set_component_status (dict_set name "ACTIVE" (component_status self)) self.

(** Both registries hold the same names, so the second [del] finds its
    key whenever the first does. *)
Definition unregister_component (name : string) (self : FreezeProtocol)
  : FreezeProtocol :=
  if dict_contains name (components self) then
    let self := set_components (dict_del name (components self)) self in
    set_component_status (dict_del name (component_status self)) self
  else self.

(** [self.component_status[name] = status] *)
Definition set_status (name status : string) : M unit :=
  assign (fun self =>
    set_component_status (dict_set name status (component_status self)) self).

(** *** Freeze operations *)

Definition _halt_components : M unit :=
  let* comps := get components in
  for_each comps (fun '(name, component) =>
    match pause component with
    | Some method =>
        let* r := call (Call_pause name) method in
        match r with
        | Returned _ => set_status name "PAUSED"
        | Raised e => set_status name "ERROR"
        end
    | None => set_status name "PAUSED"
    end).

(** *** Diagnostics *)

Definition _calculate_integrity_score (self : FreezeProtocol) : Q :=
  match component_status self with
  | [] => 0.0%Q
  | _ =>
      let active :=
        length (List.filter (fun s => String.eqb s "ACTIVE")
                  (dict_values (component_status self))) in
      (inject_Z (Z.of_nat active)
       / inject_Z (Z.of_nat (length (component_status self))))%Q
  end.

Definition _determine_recovery_actions (s : St) : list RecoveryAction :=
  match current_event s with
  | None => []
  | Some ev =>
      match reason ev with
      | ARM_FAILURE => [RESTART_ARM]
      | DATA_INTEGRITY => [ROLLBACK_DATA; HUMAN_REVIEW]
      | API_ERROR => [CLEAR_CACHE; RESTART_ARM]
      | SECURITY_CONCERN => [FULL_DIAGNOSTIC; HUMAN_REVIEW]
      | _ => [FULL_DIAGNOSTIC]
      end
  end.

(** [human_needed], as a truth value. *)
Definition human_needed (s : St) : bool :=
  (max_auto_recovery_attempts (fst s) <=? recovery_attempts (fst s))%Z
  || match current_event s with
     | Some ev =>
         match reason ev with
         | SECURITY_CONCERN | DATA_INTEGRITY => true
         | _ => false
         end
     | None => false
     end.

Definition run_diagnostics : M DiagnosticReport :=
  (* Check each component *)
  let* comps := get components in
  for_each comps (fun '(name, component) =>
    match health_check component with
    | Some method =>
        let* r := call (Call_health_check name) method in
        match r with
        | Returned (Some status) => set_status name status
        | Returned None => set_status name "UNKNOWN"
        | Raised e => set_status name ("ERROR: " ++ e)
        end
    | None => set_status name "NO_HEALTH_CHECK"
    end) ;;
  let* integrity_score := get _calculate_integrity_score in
  let* actions := (fun s => (Returned (_determine_recovery_actions s), s)) in
  let* human := (fun s => (Returned (human_needed s), s)) in
  let* t := now in
  let* self := get id in
  ret {| diag_timestamp := t;
         system_state := state self;
         freeze_event := current_freeze self;
         diag_component_status := component_status self;
         data_integrity_score := integrity_score;
         recent_verifications := 0;
         verification_success_rate := 0.0%Q;
         recommended_actions := actions;
         estimated_recovery_time := "5-10 minutes";
         human_intervention_required := human |}.

(** *** Recovery *)

Definition _execute_recovery_action (action : RecoveryAction) : M bool :=
  try_except
    match action with
    | RESTART_ARM =>
        (* Restart affected components *)
        let* cur := (fun s => (Returned (current_event s), s)) in
        match cur with
        | Some ev =>
            for_each (affected_components ev) (fun comp_name =>
              let* comps := get components in
              match dict_get comp_name comps with
              | Some comp =>
                  match resume comp with
                  | Some method => call_raising (Call_resume comp_name) method
                  | None => ret tt
                  end
              | None => ret tt
              end)
        | None => ret tt
        end ;;
        ret true
    | CLEAR_CACHE =>
        (* Clear component caches *)
        let* comps := get components in
        for_each comps (fun '(name, comp) =>
          match clear_cache comp with
          | Some method => call_raising (Call_clear_cache name) method
          | None => ret tt
          end) ;;
        ret true
    | ROLLBACK_DATA => ret true
    | FULL_DIAGNOSTIC => ret true
    | HUMAN_REVIEW => ret false
    end
    (fun e => ret false).

Definition unfreeze (authorization : option string) : M bool :=
  let* st := get state in
  if negb (SystemState_eqb st FROZEN) then ret true
  else
    match authorization with
    | None | Some "" => ret false
    | Some auth =>
        (* Resume all components *)
        assign (set_state RECOVERING) ;;
        let* comps := get components in
        for_each comps (fun '(name, component) =>
          match resume component with
          | Some method =>
              let* r := call (Call_resume name) method in
              match r with
              | Returned _ => set_status name "ACTIVE"
              | Raised e => set_status name "ERROR"
              end
          | None => set_status name "ACTIVE"
          end) ;;
        (* Update freeze event *)
        let* cur := get current_freeze in
        match cur with
        | Some r =>
            let* t := now in
            update_event r (fun ev =>
              mkFreezeEvent (event_id ev) (timestamp ev) (reason ev)
                (trigger_source ev) (details ev) (affected_components ev)
                true (Some t) (Some auth))
        | None => ret tt
        end ;;
        (* Reset state *)
        assign (set_state ACTIVE) ;;
        assign (set_current_freeze None) ;;
        assign (set_recovery_attempts 0) ;;
        (* Notify brain *)
        let* cb := get brain_callback in
        match cb with
        | Some f => call_raising (Call_brain "unfreeze") (f "unfreeze" None)
        | None => ret tt
        end ;;
        ret true
    end.

(** [for action in actions: if not execute(action): return False], with
    [true] for a loop that ran to its end. *)
Fixpoint recovery_loop (actions : list RecoveryAction) : M bool :=
  match actions with
  | [] => ret true
  | action :: rest =>
      let* success := _execute_recovery_action action in
      if success then recovery_loop rest else ret false
  end.

Definition _attempt_auto_recovery (diagnostics : DiagnosticReport) : M bool :=
  if human_intervention_required diagnostics then ret false
  else
    let* attempts := get recovery_attempts in
    let* max_attempts := get max_auto_recovery_attempts in
    if (max_attempts <=? attempts)%Z then ret false
    else
      assign (set_recovery_attempts (attempts + 1)) ;;
      (* Execute recommended actions *)
      let* all_succeeded := recovery_loop (recommended_actions diagnostics) in
      if negb all_succeeded then ret false
      else
        (* Verify recovery *)
        let* post_diagnostics := run_diagnostics in
        if Qgeb (data_integrity_score post_diagnostics) 0.8%Q then
          unfreeze (Some "auto_recovery") ;;
          ret true
        else ret false.

Definition trigger_freeze (reason : FreezeReason) (trigger_source details : string)
    (affected_components : option (list string)) : M (option EventRef) :=
  let* st := get state in
  if SystemState_eqb st FROZEN then get current_freeze
  else
    let* t_id := now in
    let event_id := "freeze_" ++ strftime_Ymd_HMS t_id in
    let* comps := get components in
    let affected :=
      match affected_components with
      | Some ((_ :: _) as l) => l
      | _ => dict_keys comps
      end in
    let* t := now in
    let* freeze_event :=
      new_event (mkFreezeEvent event_id t reason trigger_source details affected
                   false None None) in
    (* Update state *)
    assign (set_state FROZEN) ;;
    assign (set_current_freeze (Some freeze_event)) ;;
    assign (fun self =>
      set_freeze_history (freeze_history self ++ [freeze_event]) self) ;;
    (* Halt all components *)
    _halt_components ;;
    (* Notify brain if callback registered *)
    let* cb := get brain_callback in
    let* ev := read_event freeze_event in
    match cb with
    | Some f => call_raising (Call_brain "freeze") (f "freeze" ev)
    | None => ret tt
    end ;;
    (* Run diagnostics *)
    let* diagnostics := run_diagnostics in
    (* Attempt auto-recovery if enabled *)
    let* enabled := get auto_recovery_enabled in
    (if enabled then _attempt_auto_recovery diagnostics ;; ret tt else ret tt) ;;
    ret (Some freeze_event).

End Protocol.

Arguments mkComponent {X} _ _ _ _.
Arguments pause {X} _.
Arguments resume {X} _.
Arguments health_check {X} _.
Arguments clear_cache {X} _.
Arguments mkFreezeProtocol {X} _ _ _ _ _ _ _ _ _.
Arguments brain_callback {X} _.
Arguments state {X} _.
Arguments current_freeze {X} _.
Arguments components {X} _.
Arguments component_status {X} _.
Arguments freeze_history {X} _.
Arguments auto_recovery_enabled {X} _.
Arguments max_auto_recovery_attempts {X} _.
Arguments recovery_attempts {X} _.
Arguments mkWorld {X} _ _ _ _.
Arguments ext {X} _.
Arguments reads {X} _.
Arguments calls {X} _.
Arguments heap {X} _.
Arguments init {X} _.
Arguments set_state {X} _ _.
Arguments set_current_freeze {X} _ _.
Arguments set_components {X} _ _.
Arguments set_component_status {X} _ _.
Arguments set_freeze_history {X} _ _.
Arguments set_recovery_attempts {X} _ _.
Arguments ret {X A} _ _.
Arguments bind {X A B} _ _ _.
Arguments get {X A} _ _.
Arguments assign {X} _ _.
Arguments now {X} _ _.
Arguments call {X A} _ _ _.
Arguments call_raising {X A} _ _ _.
Arguments try_except {X A} _ _ _.
Arguments for_each {X A} _ _ _.
Arguments new_event {X} _ _.
Arguments read_event {X} _ _.
Arguments update_event {X} _ _ _.
Arguments current_event {X} _.
Arguments register_component {X} _ _ _.
Arguments unregister_component {X} _ _.
Arguments set_status {X} _ _ _.
Arguments _halt_components {X} _.
Arguments _calculate_integrity_score {X} _.
Arguments _determine_recovery_actions {X} _.
Arguments human_needed {X} _.
Arguments run_diagnostics {X} _ _.
Arguments _execute_recovery_action {X} _ _.
Arguments unfreeze {X} _ _ _.
Arguments recovery_loop {X} _ _.
Arguments _attempt_auto_recovery {X} _ _ _.
Arguments trigger_freeze {X} _ _ _ _ _ _.

(** *** What the claims speak of *)

(** The reason of the current freeze, if there is one. *)
Definition current_reason {X} (s : St X) : option FreezeReason :=
  match current_event s with Some ev => Some (reason ev) | None => None end.

(** The attempt counter after [self.recovery_attempts += 1]. *)
Definition count_attempt {X} (s : St X) : St X :=
  (set_recovery_attempts (recovery_attempts (fst s) + 1)%Z (fst s), snd s).

(** "Executes the actions in sequence, stopping at the first action that
    reports failure": [RunsInOrder actions s ok s'] holds when doing so
    from [s] ends in [s'], with [ok] telling whether every action
    succeeded. *)
Inductive RunsInOrder {X} : list RecoveryAction -> St X -> bool -> St X -> Prop :=
| Run_none s :
    RunsInOrder [] s true s
| Run_failed action rest s s' :
    _execute_recovery_action action s = (Returned false, s') ->
    RunsInOrder (action :: rest) s false s'
| Run_succeeded action rest s s' ok s'' :
    _execute_recovery_action action s = (Returned true, s') ->
    RunsInOrder rest s' ok s'' ->
    RunsInOrder (action :: rest) s ok s''.

(** What diagnostics and recovery actions leave alone: every attribute of
    the protocol but the component statuses, and the store of events. *)
Definition core {X} (s : St X) :=
  (brain_callback (fst s), state (fst s), current_freeze (fst s),
   components (fst s), freeze_history (fst s), auto_recovery_enabled (fst s),
   max_auto_recovery_attempts (fst s), recovery_attempts (fst s), heap (snd s)).

(** A computation that always returns (never raises), and one that leaves
    [core] as it found it. *)
Definition returns {X A} (m : M X A) : Prop :=
  forall s, exists a, fst (m s) = Returned a.

Definition preserves {X A} (m : M X A) : Prop :=
  forall s, core (snd (m s)) = core s.

(** The ids of the events created so far, oldest first, and a computation
    that leaves them as they are. *)
Definition ids {X} (s : St X) : list string := map event_id (heap (snd s)).

Definition keeps_ids {X A} (m : M X A) : Prop :=
  forall s, ids (snd (m s)) = ids s.

(** *** The components of the demos *)

(** [MockArm]: an [active] flag per arm, cleared by [pause], set by
    [resume] and reported by [health_check]. The collaborator state maps
    the name of each arm to its flag. *)
Definition MockArm (name : string) : Component (dict bool) :=
  {| pause := Some (fun x => (Returned tt, dict_set name false x));
     resume := Some (fun x => (Returned tt, dict_set name true x));
     health_check := Some (fun x =>
       (Returned (Some (match dict_get name x with
                        | Some true => "ACTIVE"
                        | _ => "PAUSED"
                        end)), x));
     clear_cache := None |}.

(** The demo's protocol with its two arms registered, before any freeze. *)
Definition demo_start : St (dict bool) :=
  (register_component "veritas" (MockArm "veritas")
     (register_component "hansard" (MockArm "hansard") (init None)),
   mkWorld [("hansard", true); ("veritas", true)] 0 [] []).

(** A clock on which every reading falls in the same second. *)
Definition same_second_clock : Clock :=
  fun n => mkDatetime 2025 11 20 12 0 0 (100 * n).

(** The demo's freeze: an API error of [hansard]. Restarting [hansard]
    alone leaves half of the components paused, so the system stays
    frozen. *)
Definition demo_freeze :=
  trigger_freeze same_second_clock API_ERROR "hansard"
    "Parliament API returned 503 - Service Unavailable" (Some ["hansard"])
    demo_start.

Definition demo_frozen := snd demo_freeze.

(** Two freezes within one second: the first, with every component
    affected, recovers by itself at once; the second follows. *)
Definition first_freeze :=
  trigger_freeze same_second_clock ARM_FAILURE "hansard" "timeout" None demo_start.

Definition second_freeze :=
  trigger_freeze same_second_clock ARM_FAILURE "veritas" "timeout" None
    (snd first_freeze).

(** *** Vocabulary of further properties *)

(** [get_status()] *)
Definition SystemState_value (st : SystemState) : string :=
  match st with
  | ACTIVE => "ACTIVE"
  | FROZEN => "FROZEN"
  | RECOVERING => "RECOVERING"
  | MAINTENANCE => "MAINTENANCE"
  end.

Definition FreezeReason_value (r : FreezeReason) : string :=
  match r with
  | ARM_FAILURE => "arm_failure"
  | VERIFICATION_FAILURE => "verification_failure"
  | DATA_INTEGRITY => "data_integrity"
  | API_ERROR => "api_error"
  | ANOMALY_DETECTED => "anomaly_detected"
  | HUMAN_TRIGGERED => "human_triggered"
  | SECURITY_CONCERN => "security_concern"
  end.

Record FreezeSummary : Type := mkFreezeSummary {
  summary_event_id : string;
  summary_reason : string;
  summary_timestamp : string;
  summary_details : string
}.

Record StatusReport : Type := mkStatusReport {
  status_system_state : string;
  is_frozen : bool;
  status_current_freeze : option FreezeSummary;
  status_component_status : dict string;
  freeze_history_count : Z;
  status_recovery_attempts : Z
}.

Definition get_status {X} (s : St X) : StatusReport :=
  {| status_system_state := SystemState_value (state (fst s));
     is_frozen := SystemState_eqb (state (fst s)) FROZEN;
     status_current_freeze :=
       match current_event s with
       | Some ev =>
           Some (mkFreezeSummary (event_id ev) (FreezeReason_value (reason ev))
                   (isoformat (timestamp ev)) (details ev))
       | None => None
       end;
     status_component_status := component_status (fst s);
     freeze_history_count := Z.of_nat (length (freeze_history (fst s)));
     status_recovery_attempts := recovery_attempts (fst s) |}.

(** The two registries agree: they hold the same names in the same
    order, each once. With this, the second [del] of
    [unregister_component] finds its key. *)
Definition registry_ok {X} (self : FreezeProtocol X) : Prop :=
  dict_keys (components self) = dict_keys (component_status self) /\
  dict_wf (components self).

(** The statuses [cs] list the components [comps], name by name in the
    same order, each with a value that [V] allows for the component. *)
Definition statuses_by {X} (V : Component X -> string -> Prop)
    (comps : dict (Component X)) (cs : dict string) : Prop :=
  Forall2 (fun kc kv => fst kv = fst kc /\ V (snd kc) (snd kv)) comps cs.

(** The status of a component after [_halt_components], after the loop
    of [unfreeze], and after the loop of [run_diagnostics]. *)
Definition halted {X} (c : Component X) (v : string) : Prop :=
  v = "PAUSED" \/ (v = "ERROR" /\ pause c <> None).

Definition resumed {X} (c : Component X) (v : string) : Prop :=
  v = "ACTIVE" \/ (v = "ERROR" /\ resume c <> None).

Definition probed {X} (c : Component X) (v : string) : Prop :=
  health_check c = None -> v = "NO_HEALTH_CHECK".

(** One call of a method per component that has it, in the order of the
    registry. *)
Definition calls_of {X A} (method : Component X -> option A) (mk : string -> Call)
    (comps : dict (Component X)) : list Call :=
  flat_map (fun kc => match method (snd kc) with
                      | Some _ => [mk (fst kc)]
                      | None => []
                      end) comps.

(** A loop body that calls into the collaborators as [calls_of] says and
    then sets the status of its component to a value that [V] allows,
    whatever the collaborators do, and does nothing else. *)
Definition sets_status {X A} (V : Component X -> string -> Prop)
    (method : Component X -> option A) (mk : string -> Call)
    (body : string * Component X -> M X unit) : Prop :=
  forall name component s, exists v x',
    V component v /\
    body (name, component) s
    = (Returned tt,
       (set_component_status (dict_set name v (component_status (fst s))) (fst s),
        mkWorld x' (reads (snd s))
          (calls (snd s) ++ calls_of method mk [(name, component)])
          (heap (snd s)))).

(** A computation that only calls into collaborators, with calls that
    satisfy [P]: it leaves the protocol, the clock and the events alone. *)
Definition only_calls {X A} (P : Call -> Prop) (m : M X A) : Prop :=
  forall s, exists r x' tr,
    Forall P tr /\
    m s = (r, (fst s, mkWorld x' (reads (snd s)) (calls (snd s) ++ tr) (heap (snd s)))).

(** [current_freeze.resolved = True], with the time and the
    authorization, as [unfreeze] sets them. *)
Definition resolve (t : datetime) (auth : string) (ev : FreezeEvent) : FreezeEvent :=
  mkFreezeEvent (event_id ev) (timestamp ev) (reason ev) (trigger_source ev)
    (details ev) (affected_components ev) true (Some t) (Some auth).

(** The calls a recovery action can make. *)
Definition recovery_call (c : Call) : Prop :=
  match c with
  | Call_resume _ | Call_clear_cache _ => True
  | _ => False
  end.

(** The calls a recovery action makes when none of them raises. *)
Definition recovery_calls {X} (action : RecoveryAction) (s : St X) : list Call :=
  match action with
  | RESTART_ARM =>
      match current_event s with
      | Some ev =>
          flat_map (fun name =>
            match dict_get name (components (fst s)) with
            | Some c => match resume c with Some _ => [Call_resume name] | None => [] end
            | None => []
            end) (affected_components ev)
      | None => []
      end
  | CLEAR_CACHE => calls_of clear_cache Call_clear_cache (components (fst s))
  | _ => []
  end.

(** [affected_components or list(self.components.keys())] *)
Definition affected_or_all {X} (affected : option (list string))
    (self : FreezeProtocol X) : list string :=
  match affected with
  | Some ((_ :: _) as l) => l
  | _ => dict_keys (components self)
  end.

(** The number of statuses that read "ACTIVE". *)
Definition active_count (cs : dict string) : nat :=
  length (List.filter (fun s => String.eqb s "ACTIVE") (dict_values cs)).

(** An event that is closed: marked resolved, with the time and a
    non-empty authorization; and one that is still open. *)
Definition closed (ev : FreezeEvent) : Prop :=
  resolved ev = true /\
  resolution_time ev <> None /\
  exists c rest, resolution_action ev = Some (String c rest).

Definition open (ev : FreezeEvent) : Prop :=
  resolved ev = false /\ resolution_time ev = None /\ resolution_action ev = None.

(** What holds between any two calls of the public methods. *)
Definition consistent {X} (s : St X) : Prop :=
  registry_ok (fst s) /\
  freeze_history (fst s) = seq 0 (length (heap (snd s))) /\
  match current_freeze (fst s) with
  | None =>
      state (fst s) = ACTIVE /\ recovery_attempts (fst s) = 0%Z
  | Some r =>
      state (fst s) = FROZEN /\ S r = length (heap (snd s)) /\
      (recovery_attempts (fst s) = 0%Z \/ recovery_attempts (fst s) = 1%Z)
  end /\
  forall i ev, heap (snd s) !! i = Some ev ->
    if bool_decide (current_freeze (fst s) = Some i) then open ev else closed ev.

(** The states a protocol created with callback [cb] can be in between
    calls: those reached from a new protocol by calls of the public
    methods, returning or raising, while the collaborators and the clock
    move on by themselves. *)
Inductive Reachable {X} (clock : Clock) (cb : option (Callback X)) : St X -> Prop :=
| Reach_init w :
    heap w = [] ->
    Reachable clock cb (init cb, w)
| Reach_register name component s :
    Reachable clock cb s ->
    Reachable clock cb (register_component name component (fst s), snd s)
| Reach_unregister name s :
    Reachable clock cb s ->
    Reachable clock cb (unregister_component name (fst s), snd s)
| Reach_trigger_freeze reason trigger_source details affected s :
    Reachable clock cb s ->
    Reachable clock cb
      (snd (trigger_freeze clock reason trigger_source details affected s))
| Reach_unfreeze authorization s :
    Reachable clock cb s ->
    Reachable clock cb (snd (unfreeze clock authorization s))
| Reach_run_diagnostics s :
    Reachable clock cb s ->
    Reachable clock cb (snd (run_diagnostics clock s))
| Reach_world x n s :
    Reachable clock cb s ->
    Reachable clock cb (fst s, mkWorld x n (calls (snd s)) (heap (snd s))).

(** *** The demo's arms, any number of them *)

(** A registry of the demo's arms, one per name, and the flag of an arm
    in the collaborator state. *)
Definition mock_arms (names : list string) : dict (Component (dict bool)) :=
  map (fun n => (n, MockArm n)) names.

Definition flag (x : dict bool) (n : string) : bool :=
  match dict_get n x with
  | Some true => true
  | _ => false
  end.

(** [for n in names: d[n] = f(n)] *)
Definition set_all {V} (names : list string) (f : string -> V) (d : dict V) : dict V :=
  fold_left (fun d n => dict_set n (f n) d) names d.

(** The reasons whose recovery actions restart the affected arms. *)
Definition restarts (reason : FreezeReason) : bool :=
  match reason with
  | ARM_FAILURE | API_ERROR => true
  | _ => false
  end.

(** Whether a freeze for [reason] restarts the arm [n]: the reason has
    a restart among its actions and the arm is among the affected ones. *)
Definition restarted (reason : FreezeReason) (affected : list string) (n : string)
  : bool :=
  restarts reason && existsb (String.eqb n) affected.

(** *** Calls and what they do *)

(** The methods a loop over named items calls: one per item that has the
    method, in the order of the items, each with the call it is traced
    as. *)
Definition methods_of {A X} (method : A -> option (X -> Outcome unit * X))
    (mk : string -> Call) (items : list (string * A))
  : list (Call * (X -> Outcome unit * X)) :=
  flat_map (fun kv => match method (snd kv) with
                      | Some f => [(mk (fst kv), f)]
                      | None => []
                      end) items.

(** Methods called one after the other outside any [try], the first on
    the collaborators [x], each on what the one before left:
    [runs_until_raise ms x tr r x'] says that the calls made are [tr],
    that [r] is [Returned tt] when every method returned and the exception
    of the first method that raised otherwise, the methods after it not
    being called, and that the collaborators are left as [x']. *)
Inductive runs_until_raise {X}
  : list (Call * (X -> Outcome unit * X)) -> X -> list Call -> Outcome unit -> X
    -> Prop :=
| runs_nil x :
    runs_until_raise [] x [] (Returned tt) x
| runs_returned c f ms x x1 tr r x' :
    f x = (Returned tt, x1) ->
    runs_until_raise ms x1 tr r x' ->
    runs_until_raise ((c, f) :: ms) x (c :: tr) r x'
| runs_raised c f ms x e x1 :
    f x = (Raised e, x1) ->
    runs_until_raise ((c, f) :: ms) x [c] (Raised e) x1.

(** A loop over the registry that calls a method of every component
    inside a [try] and records how it went: [swept method ok err comps x
    cs x'] says that, starting with the collaborators [x], each component
    in turn is called on what the calls before it left, that [cs] lists
    the components by name in the same order, a component with [ok] when it
    has no such method or its call returned and with [err] when its call
    raised, and that the collaborators are left as [x']. *)
Inductive swept {X} (method : Component X -> option (X -> Outcome unit * X))
    (ok err : string)
  : dict (Component X) -> X -> dict string -> X -> Prop :=
| swept_nil x :
    swept method ok err [] x [] x
| swept_without name c comps x cs x' :
    method c = None ->
    swept method ok err comps x cs x' ->
    swept method ok err ((name, c) :: comps) x ((name, ok) :: cs) x'
| swept_returned name c f comps x x1 cs x' :
    method c = Some f ->
    f x = (Returned tt, x1) ->
    swept method ok err comps x1 cs x' ->
    swept method ok err ((name, c) :: comps) x ((name, ok) :: cs) x'
| swept_raised name c f e comps x x1 cs x' :
    method c = Some f ->
    f x = (Raised e, x1) ->
    swept method ok err comps x1 cs x' ->
    swept method ok err ((name, c) :: comps) x ((name, err) :: cs) x'.

(** The methods a recovery action calls, in order, as long as none
    raises: [resume] of the affected components of the current event that
    are registered and have it, [clear_cache] of every component that has
    it, and none for the other actions. *)
Definition recovery_methods {X} (action : RecoveryAction) (s : St X)
  : list (Call * (X -> Outcome unit * X)) :=
  match action with
  | RESTART_ARM =>
      match current_event s with
      | Some ev =>
          flat_map (fun name =>
            match dict_get name (components (fst s)) with
            | Some c =>
                match resume c with
                | Some f => [(Call_resume name, f)]
                | None => []
                end
            | None => []
            end) (affected_components ev)
      | None => []
      end
  | CLEAR_CACHE => methods_of clear_cache Call_clear_cache (components (fst s))
  | _ => []
  end.

End Freeze.

(** ** The brain orchestrator ([agents/brain/westminster_watch.py]) *)

Module Brain.
Import Py.

Module ArmStatus.
Inductive t : Type := ACTIVE | PAUSED | FAILED | INITIALIZING.
End ArmStatus.

Module VerificationStatus.
Inductive t : Type := VERIFIED | PARTIAL | FAILED | PENDING.
End VerificationStatus.

Record ConstitutionalLaw : Type := mkConstitutionalLaw {
  law_name : string;
  application : string;
  active : bool
}.

Record TripleCheckResult : Type := mkTripleCheckResult {
  data_id : PyVal;
  primary_check : bool;
  secondary_check : bool;
  pattern_check : bool;
  confidence : Q;
  sources : list string;
  timestamp : datetime
}.

(** The [status] property of a result. *)
Definition status (r : TripleCheckResult) : VerificationStatus.t :=
  if primary_check r && secondary_check r && pattern_check r
  then VerificationStatus.VERIFIED
  else if primary_check r || secondary_check r || pattern_check r
  then VerificationStatus.PARTIAL
  else VerificationStatus.FAILED.

Definition _init_constitutional_laws : list ConstitutionalLaw :=
  [ mkConstitutionalLaw "Emotional Consent" "No citizen manipulated without awareness" true;
    mkConstitutionalLaw "Honest Reflection" "Facts named truthfully before interpretation" true;
    mkConstitutionalLaw "Distributed Safety" "Truth verification is collective, not centralized" true;
    mkConstitutionalLaw "Empathic Sovereignty" "Report WITH citizens, not FOR them" true;
    mkConstitutionalLaw "Signal Diversity" "Multiple perspectives protected and presented" true ].

Section Orchestrator.

(** The joint state of the arms, the clock, and the built-in [hash] on
    strings (salted per process, hence a parameter). *)
Variable X : Type.
Variable clock : Clock.
Variable py_hash : string -> Z.

(** An arm, as far as [freeze] and [unfreeze] use it. *)
Record Arm : Type := mkArm {
  pause : option (X -> Outcome unit * X);
  resume : option (X -> Outcome unit * X)
}.

Record WestminsterWatch : Type := mkWestminsterWatch {
  designation : string;
  registry : string;
  laws : list ConstitutionalLaw;
  (* Arms registry *)
  arms : dict Arm;
  arm_status : dict ArmStatus.t;
  (* System state *)
  frozen : bool;
  freeze_reason : option string;
  (* Metrics *)
  verifications_total : Z;
  verifications_passed : Z
}.

Record World : Type := mkWorld {
  ext : X;                        (* the arms *)
  reads : nat;                    (* clock readings made so far *)
  calls : list Freeze.Call        (* calls into arms made so far *)
}.

(** [WestminsterWatch()] *)
Definition init : WestminsterWatch :=
  {| designation := "SENTINEL_BRAIN_001";
     registry := "OMNIPLEX_HEARTFIELD_SYSTEMS";
     laws := _init_constitutional_laws;
     arms := [];
     arm_status := [];
     frozen := false;
     freeze_reason := None;
     verifications_total := 0;
     verifications_passed := 0 |}.

Definition set_arms (v : dict Arm) (self : WestminsterWatch) : WestminsterWatch :=
  mkWestminsterWatch (designation self) (registry self) (laws self) v (arm_status self)
    (frozen self) (freeze_reason self) (verifications_total self)
    (verifications_passed self).

Definition set_arm_status (v : dict ArmStatus.t) (self : WestminsterWatch)
  : WestminsterWatch :=
  mkWestminsterWatch (designation self) (registry self) (laws self) (arms self) v
    (frozen self) (freeze_reason self) (verifications_total self)
    (verifications_passed self).

Definition set_frozen (v : bool) (r : option string) (self : WestminsterWatch)
  : WestminsterWatch :=
  mkWestminsterWatch (designation self) (registry self) (laws self) (arms self)
    (arm_status self) v r (verifications_total self) (verifications_passed self).

Definition set_metrics (total passed : Z) (self : WestminsterWatch)
  : WestminsterWatch :=
  mkWestminsterWatch (designation self) (registry self) (laws self) (arms self)
    (arm_status self) (frozen self) (freeze_reason self) total passed.

(** *** Arm management *)

Definition register_arm (arm_name : string) (arm_instance : Arm)
    (self : WestminsterWatch) : WestminsterWatch :=
  let self := set_arms (dict_set arm_name arm_instance (arms self)) self in
  set_arm_status (dict_set arm_name ArmStatus.INITIALIZING (arm_status self)) self.

Definition get_arm_status (self : WestminsterWatch) : dict ArmStatus.t :=
  arm_status self.

(** *** Triple-check protocol *)

Definition _verify_primary (data : dict PyVal) (sources : list string) : bool := true.
Definition _verify_secondary (data : dict PyVal) (sources : list string) : bool := true.
Definition _verify_pattern (data : dict PyVal) : bool := true.

Definition St : Type := (WestminsterWatch * World)%type.

Definition triple_check (data : dict PyVal)
    (primary_sources secondary_sources : list string) (s : St)
  : Outcome TripleCheckResult * St :=
  let '(self, w) := s in
  if frozen self then (Raised "System is frozen - cannot verify", s)
  else
    let data_id :=
      match dict_get "id" data with
      | Some v => v
      | None => VStr (str_int (py_hash (repr (VDict data))))
      end in
    (* Check 1: Primary source verification *)
    let primary_check := _verify_primary data primary_sources in
    (* Check 2: Secondary source confirmation *)
    let secondary_check := _verify_secondary data secondary_sources in
    (* Check 3: Historical pattern matching *)
    let pattern_check := _verify_pattern data in
    (* Calculate confidence *)
    let checks := [primary_check; secondary_check; pattern_check] in
    let confidence := (inject_Z (TripleCheck.count_true checks) / 3.0)%Q in
    let result :=
      mkTripleCheckResult data_id primary_check secondary_check pattern_check
        confidence (primary_sources ++ secondary_sources)%list (clock (reads w)) in
    (* Update metrics *)
    let total := (verifications_total self + 1)%Z in
    let passed :=
      match status result with
      | VerificationStatus.VERIFIED => (verifications_passed self + 1)%Z
      | _ => verifications_passed self
      end in
    (Returned result,
     (set_metrics total passed self, mkWorld (ext w) (S (reads w)) (calls w))).

(** *** Freeze protocol *)

(** [for arm_name, arm in self.arms.items(): ...] of [freeze] and
    [unfreeze]: the call is outside any [try], so the first arm that
    raises ends the loop and the exception propagates. *)
Fixpoint for_arms (items : list (string * Arm))
    (method : Arm -> option (X -> Outcome unit * X))
    (mk_call : string -> Freeze.Call) (st : ArmStatus.t) (s : St)
  : Outcome unit * St :=
  match items with
  | [] => (Returned tt, s)
  | (arm_name, arm) :: rest =>
      let '(self, w) := s in
      let '(r, w) :=
        match method arm with
        | Some f =>
            let '(r, x') := f (ext w) in
            (r, mkWorld x' (reads w) (calls w ++ [mk_call arm_name])%list)
        | None => (Returned tt, w)
        end in
      match r with
      | Returned _ =>
          for_arms rest method mk_call st
            (set_arm_status (dict_set arm_name st (arm_status self)) self, w)
      | Raised e => (Raised e, (self, w))
      end
  end.

Definition freeze (reason : string) (s : St) : Outcome unit * St :=
  let '(self, w) := s in
  if frozen self then (Returned tt, s)
  else
    let self := set_frozen true (Some reason) self in
    (* Pause all arms *)
    match for_arms (arms self) pause Freeze.Call_pause ArmStatus.PAUSED (self, w) with
    | (Returned _, (self, w)) =>
        (* Run diagnostics: reads the clock for [freeze_time] *)
        (Returned tt, (self, mkWorld (ext w) (S (reads w)) (calls w)))
    | (Raised e, s') => (Raised e, s')
    end.

Definition unfreeze (authorization : option string) (s : St) : Outcome bool * St :=
  let '(self, w) := s in
  match authorization with
  | None | Some "" => (Returned false, s)
  | Some _ =>
      let self := set_frozen false None self in
      (* Resume arms *)
      match for_arms (arms self) resume Freeze.Call_resume ArmStatus.ACTIVE (self, w) with
      | (Returned _, s') => (Returned true, s')
      | (Raised e, s') => (Raised e, s')
      end
  end.

End Orchestrator.

Arguments mkArm {X} _ _.
Arguments pause {X} _.
Arguments resume {X} _.
Arguments mkWestminsterWatch {X} _ _ _ _ _ _ _ _ _.
Arguments designation {X} _.
Arguments registry {X} _.
Arguments laws {X} _.
Arguments arms {X} _.
Arguments arm_status {X} _.
Arguments frozen {X} _.
Arguments freeze_reason {X} _.
Arguments verifications_total {X} _.
Arguments verifications_passed {X} _.
Arguments mkWorld {X} _ _ _.
Arguments ext {X} _.
Arguments reads {X} _.
Arguments calls {X} _.
Arguments init {X}.
Arguments set_arms {X} _ _.
Arguments set_arm_status {X} _ _.
Arguments set_frozen {X} _ _ _.
Arguments set_metrics {X} _ _ _.
Arguments register_arm {X} _ _ _.
Arguments get_arm_status {X} _.
Arguments triple_check {X} _ _ _ _ _ _.
Arguments for_arms {X} _ _ _ _ _.
Arguments freeze {X} _ _.
Arguments unfreeze {X} _ _.

(** *** The arms of the demos *)

(** An arm with an [active] flag that [pause] clears and [resume] sets;
    the collaborator state maps the name of each arm to its flag. *)
Definition MockArm (name : string) : Arm (dict bool) :=
  {| pause := Some (fun x => (Returned tt, dict_set name false x));
     resume := Some (fun x => (Returned tt, dict_set name true x)) |}.

(** The brain with [hansard] and [veritas] registered. *)
Definition demo_start : St (dict bool) :=
  (register_arm "veritas" (MockArm "veritas")
     (register_arm "hansard" (MockArm "hansard") init),
   mkWorld [("hansard", true); ("veritas", true)] 0 []).

(** The same after [freeze("Arm hansard health check failed")]. *)
Definition demo_freeze := freeze "Arm hansard health check failed" demo_start.

Definition demo_frozen := snd demo_freeze.

(** *** Vocabulary of further properties *)

(** The statuses after [self.arm_status[name] = st] for the arms [done],
    in order. *)
Definition mark {X} (done : list (string * Arm X)) (st : ArmStatus.t)
    (statuses : dict ArmStatus.t) : dict ArmStatus.t :=
  fold_left (fun cs kv => dict_set (fst kv) st cs) done statuses.

(** One call of a method per arm that has it, in the order given. *)
Definition arm_calls {X} (method : Arm X -> option (X -> Outcome unit * X))
    (mk_call : string -> Freeze.Call) (items : list (string * Arm X))
  : list Freeze.Call :=
  flat_map (fun kv => match method (snd kv) with
                      | Some _ => [mk_call (fst kv)]
                      | None => []
                      end) items.

(** *** Metrics and reporting *)

(** [round(x)]: to the nearest integer, a tie to the even one. The
    argument is the exact value of the expression. The code rounds its
    binary64 value, which for some ratios lies just off a tie that the
    exact value hits: with 23 of 40 arms active it computes
    57.49999999999999 and rounds to 57, where the exact 57.5 rounds to
    58. *)
Definition py_round (x : Q) : Z :=
  let f := Qfloor x in
  match (x - inject_Z f ?= 1 # 2)%Q with
  | Lt => f
  | Gt => (f + 1)%Z
  | Eq => if Z.even f then f else (f + 1)%Z
  end.

Definition ArmStatus_value (st : ArmStatus.t) : string :=
  match st with
  | ArmStatus.ACTIVE => "ACTIVE"
  | ArmStatus.PAUSED => "PAUSED"
  | ArmStatus.FAILED => "FAILED"
  | ArmStatus.INITIALIZING => "INITIALIZING"
  end.

Definition ArmStatus_eqb (a b : ArmStatus.t) : bool :=
  match a, b with
  | ArmStatus.ACTIVE, ArmStatus.ACTIVE | ArmStatus.PAUSED, ArmStatus.PAUSED
  | ArmStatus.FAILED, ArmStatus.FAILED
  | ArmStatus.INITIALIZING, ArmStatus.INITIALIZING => true
  | _, _ => false
  end.

(** The dict that [get_democracy_health_score] returns, as a record. *)
Record HealthScore : Type := mkHealthScore {
  score_value : Z;
  score_max : Z;
  system_health_score : Z;
  verification_rate_score : Z;
  status_brain : string;
  status_frozen : bool;
  status_freeze_reason : option string;
  status_arms : dict string;
  metrics_verifications_total : Z;
  metrics_verifications_passed : Z
}.

Definition get_democracy_health_score {X} (self : WestminsterWatch X) : HealthScore :=
  (* Calculate component scores *)
  let active_arms :=
    Z.of_nat (length (List.filter (fun s => ArmStatus_eqb s ArmStatus.ACTIVE)
                        (dict_values (arm_status self)))) in
  let total_arms :=
    match length (arm_status self) with
    | O => 1%Z
    | n => Z.of_nat n
    end in
  let system_health := (inject_Z active_arms / inject_Z total_arms * 100)%Q in
  let verification_rate :=
    if (0 <? verifications_total self)%Z
    then (inject_Z (verifications_passed self) / inject_Z (verifications_total self)
          * 100)%Q
    else 0%Q in
  (* Composite score *)
  let overall := ((system_health + verification_rate) / 2)%Q in
  {| score_value := py_round overall;
     score_max := 100;
     system_health_score := py_round system_health;
     verification_rate_score := py_round verification_rate;
     status_brain := if frozen self then "FROZEN" else "ACTIVE";
     status_frozen := frozen self;
     status_freeze_reason := freeze_reason self;
     status_arms :=
       map (fun kv => (fst kv, ArmStatus_value (snd kv))) (arm_status self);
     metrics_verifications_total := verifications_total self;
     metrics_verifications_passed := verifications_passed self |}.

(** *** Health checks *)

(** What [arm.health_check()] hands back, as far as [health_check_all]
    looks at it: an object whose [status] attribute is an [ArmStatus], or
    an object without that attribute (a dict, say), for which
    [report.status] raises an AttributeError with the text [error]. *)
Inductive HealthResult : Type :=
| HasStatus (st : ArmStatus.t)
| NoStatus (error : string).

Record ArmHealthReport : Type := mkArmHealthReport {
  arm_name : string;
  report_status : ArmStatus.t;
  last_heartbeat : datetime;
  error_message : option string;
  data_integrity : Q
}.

(** An entry of the result: the object an arm returned, or a report the
    brain made itself. *)
Inductive Report : Type :=
| ArmReport (r : HealthResult)
| BrainReport (r : ArmHealthReport).

(** The [health_check] method of the arm registered under each name,
    where it has one ([hasattr]). *)
Definition HealthChecks (X : Type) : Type :=
  string -> option (X -> Outcome HealthResult * X).

(** [report.status] *)
Definition report_status_of (report : Report) : Outcome ArmStatus.t :=
  match report with
  | ArmReport (HasStatus st) => Returned st
  | ArmReport (NoStatus error) => Raised error
  | BrainReport r => Returned (report_status r)
  end.

(** The [try] block of one round of the loop: the reports and the state
    it leaves, and whether it raised. *)
Definition health_check_try {X} (clock : Clock) (health : HealthChecks X)
    (arm_name : string) (reports : dict Report) (s : St X)
  : Outcome unit * dict Report * St X :=
  let '(self, w) := s in
  let '(got, s) :=
    match health arm_name with
    | Some f =>
        let '(r, x') := f (ext w) in
        (match r with
         | Returned h => Returned (ArmReport h)
         | Raised e => Raised e
         end,
         (self, mkWorld x' (reads w)
                  (calls w ++ [Freeze.Call_health_check arm_name])%list))
    | None =>
        (Returned
           (BrainReport
              (mkArmHealthReport arm_name
                 (match dict_get arm_name (arm_status self) with
                  | Some st => st
                  | None => ArmStatus.INITIALIZING
                  end)
                 (clock (reads w)) None 1.0%Q)),
         (self, mkWorld (ext w) (S (reads w)) (calls w)))
    end in
  match got with
  | Raised e => (Raised e, reports, s)
  | Returned report =>
      let reports := dict_set arm_name report reports in
      (* Update status *)
      match report_status_of report with
      | Raised e => (Raised e, reports, s)
      | Returned st =>
          let s := (set_arm_status (dict_set arm_name st (arm_status (fst s))) (fst s),
                    snd s) in
          (* Trigger freeze if failed *)
          match st with
          | ArmStatus.FAILED =>
              let '(r, s) := freeze ("Arm " ++ arm_name ++ " health check failed") s in
              (r, reports, s)
          | _ => (Returned tt, reports, s)
          end
      end
  end.

(** [for arm_name, arm in self.arms.items(): try: ... except Exception
    as e: ...]; an exception of the [freeze] in the handler leaves the
    method. *)
Fixpoint health_check_loop {X} (clock : Clock) (health : HealthChecks X)
    (items : list (string * Arm X)) (reports : dict Report) (s : St X)
  : Outcome (dict Report) * St X :=
  match items with
  | [] => (Returned reports, s)
  | (arm_name, arm) :: rest =>
      match health_check_try clock health arm_name reports s with
      | (Returned _, reports, s) => health_check_loop clock health rest reports s
      | (Raised e, reports, (self, w)) =>
          let reports :=
            dict_set arm_name
              (BrainReport
                 (mkArmHealthReport arm_name ArmStatus.FAILED (clock (reads w))
                    (Some e) 1.0%Q))
              reports in
          match freeze ("Arm " ++ arm_name ++ " error: " ++ e)
                  (self, mkWorld (ext w) (S (reads w)) (calls w)) with
          | (Returned _, s) => health_check_loop clock health rest reports s
          | (Raised e', s) => (Raised e', s)
          end
      end
  end.

Definition health_check_all {X} (clock : Clock) (health : HealthChecks X) (s : St X)
  : Outcome (dict Report) * St X :=
  health_check_loop clock health (arms (fst s)) [] s.



(** Every arm of the brain is well: its health check returns a status
    other than FAILED, or it has no health check and its recorded status
    is not FAILED. *)
Definition all_well {X} (health : HealthChecks X) (items : list (string * Arm X))
    (statuses : dict ArmStatus.t) : Prop :=
  forall name arm, In (name, arm) items ->
    match health name with
    | Some f => forall x, exists st, fst (f x) = Returned (HasStatus st) /\
                                     st <> ArmStatus.FAILED
    | None => dict_get name statuses <> Some ArmStatus.FAILED
    end.

(** One health check per arm that has one, in the order given. *)
Definition health_calls {X} (health : HealthChecks X) (items : list (string * Arm X))
  : list Freeze.Call :=
  flat_map (fun kv => match health (fst kv) with
                      | Some _ => [Freeze.Call_health_check (fst kv)]
                      | None => []
                      end) items.



End Brain.

(** * Properties *)

(** ** Python built-ins *)

Module PyFacts.
Import Py.

(** The model of [hashlib.sha256] on the standard test vectors. *)
Example sha256_abc :
  SHA256.hexdigest "abc"
  = "ba7816bf8f01cfea414140de5dae2223b00361a396177a9cb410ff61f20015ad".
Proof. vm_compute. reflexivity. Qed.

Example sha256_empty :
  SHA256.hexdigest ""
  = "e3b0c44298fc1c149afbf4c8996fb92427ae41e4649b934ca495991b7852b855".
Proof. vm_compute. reflexivity. Qed.

(** A message that fills one block exactly and so pads into a second. *)
Example sha256_two_blocks :
  SHA256.hexdigest "0123456789012345678901234567890123456789012345678901234567890123"
  = "9674d9e078535b7cec43284387a6ee39956188e735a85452b0050b55341cda56".
Proof. vm_compute. reflexivity. Qed.

(** No proof below depends on what the digest of a string is. *)
#[global] Opaque SHA256.hexdigest.

(** [str(sorted(d.items()))] on a small payload. *)
Example str_sorted_items :
  str_items (sorted_items
    [("votes_for", VInt 312); ("bill", VStr "Finance's Bill");
     ("tags", VList [VNone; VBool true; VDict [("a", VInt (-1))]])])
  = "[('bill', " ++ String double_quote "Finance's Bill" ++ String double_quote
    "), ('tags', [None, True, {'a': -1}]), ('votes_for', 312)]".
Proof. vm_compute. reflexivity. Qed.

(** *** dict: assignment replaces or appends *)

Section DictFacts.
Context {V : Type}.
Implicit Types (d : dict V) (k : string) (v : V).

Lemma dict_get_set_eq k v d : dict_get k (dict_set k v d) = Some v.
Proof.
  induction d as [|[k' v'] d IH]; simpl.
  - now rewrite String.eqb_refl.
  - destruct (String.eqb k k') eqn:E; simpl; rewrite E; auto.
Qed.

Lemma dict_get_set_ne k k' v d :
  k <> k' -> dict_get k' (dict_set k v d) = dict_get k' d.
Proof.
  intros Hne. induction d as [|[k0 v0] d IH]; simpl.
  - apply String.eqb_neq in Hne. rewrite String.eqb_sym. now rewrite Hne.
  - destruct (String.eqb_spec k k0) as [->|E]; simpl; [|now rewrite IH].
    destruct (String.eqb_spec k' k0); [congruence|reflexivity].
Qed.

Lemma dict_contains_keys k d : dict_contains k d = true <-> In k (dict_keys d).
Proof.
  unfold dict_contains.
  induction d as [|[k' v'] d IH]; simpl; [intuition discriminate|].
  destruct (String.eqb_spec k k') as [->|Hne]; [intuition|].
  rewrite IH. intuition congruence.
Qed.

(** Assigning to a key that is present changes no key and adds none;
    assigning to a new key adds it at the end. *)
Lemma dict_keys_set k v d :
  dict_keys (dict_set k v d)
  = if dict_contains k d then dict_keys d else (dict_keys d ++ [k])%list.
Proof.
  unfold dict_contains.
  induction d as [|[k' v'] d IH]; simpl; [reflexivity|].
  destruct (String.eqb k k') eqn:E; simpl; [reflexivity|].
  rewrite IH. now destruct (dict_get k d).
Qed.

Lemma dict_set_wf k v d : dict_wf d -> dict_wf (dict_set k v d).
Proof.
  unfold dict_wf. intros Hwf. rewrite dict_keys_set.
  destruct (dict_contains k d) eqn:E; [assumption|].
  apply NoDup_app; repeat split; auto.
  - intros x Hx [->|[]]%list_elem_of_In. revert Hx.
    rewrite list_elem_of_In, <- dict_contains_keys. congruence.
  - apply NoDup_singleton.
Qed.

End DictFacts.

(** *** sorted: the result depends on the set of items only *)

Lemma ltb_lt a b : String.ltb a b = true <-> String_as_OT.lt a b.
Proof.
  unfold String.ltb. rewrite <- String_as_OT.cmp_lt. unfold String_as_OT.cmp.
  destruct (String.compare a b); intuition discriminate.
Qed.

Lemma ltb_trans a b c :
  String.ltb a b = true -> String.ltb b c = true -> String.ltb a c = true.
Proof. rewrite !ltb_lt. apply String_as_OT.lt_trans. Qed.

Lemma ltb_asym a b : String.ltb a b = true -> String.ltb b a = true -> False.
Proof.
  intros H1 H2. pose proof (ltb_trans _ _ _ H1 H2) as H.
  apply ltb_lt in H. apply String_as_OT.lt_not_eq in H. now apply H.
Qed.

Lemma ltb_total a b : String.ltb a b = false -> a <> b -> String.ltb b a = true.
Proof.
  unfold String.ltb. intros H Hne. rewrite String.compare_antisym.
  destruct (String.compare a b) eqn:E; simpl; try reflexivity; try discriminate.
  apply String.compare_eq_iff in E. contradiction.
Qed.

Lemma insert_item_perm kv l : Permutation (insert_item kv l) (kv :: l).
Proof.
  induction l as [|kv' l IH]; simpl; [apply Permutation_refl|].
  destruct (String.ltb (fst kv) (fst kv')); [apply Permutation_refl|].
  eapply perm_trans; [apply perm_skip, IH | apply perm_swap].
Qed.

Lemma sorted_items_perm l : Permutation (sorted_items l) l.
Proof.
  induction l as [|kv l IH]; simpl; [constructor|].
  eapply perm_trans; [apply insert_item_perm | now apply perm_skip].
Qed.

Lemma insert_item_sorted kv l :
  StronglySorted key_lt l -> ~ In (fst kv) (map fst l) ->
  StronglySorted key_lt (insert_item kv l).
Proof.
  induction 1 as [|kv' l Hs IH Hall]; intros Hnin; simpl.
  - constructor; constructor.
  - destruct (String.ltb (fst kv) (fst kv')) eqn:E.
    + constructor; [constructor; assumption|].
      constructor; [exact E|].
      eapply List.Forall_impl; [|exact Hall].
      intros c Hc. unfold key_lt in *. eapply ltb_trans; eassumption.
    + constructor.
      * apply IH. intros Hin. apply Hnin. now right.
      * assert (Hlt : key_lt kv' kv).
        { apply ltb_total; [exact E|]. intros Heq. apply Hnin. left. now symmetry. }
        eapply Permutation_Forall; [symmetry; apply insert_item_perm|].
        constructor; assumption.
Qed.

Lemma sorted_items_sorted l :
  NoDup (map fst l) -> StronglySorted key_lt (sorted_items l).
Proof.
  induction l as [|kv l IH]; simpl; intros Hnd; [constructor|].
  inversion Hnd as [|? ? Hnin Hnd']; subst.
  apply insert_item_sorted; [auto|].
  intros Hin. apply Hnin. apply list_elem_of_In.
  eapply Permutation_in; [|exact Hin].
  apply Permutation_map, sorted_items_perm.
Qed.

(** Two strictly sorted lists with the same items are the same list. *)
Lemma sorted_unique l1 l2 :
  StronglySorted key_lt l1 -> StronglySorted key_lt l2 ->
  Permutation l1 l2 -> l1 = l2.
Proof.
  intros H1. revert l2. induction H1 as [|a l1 Hs1 IH Hall1]; intros l2 H2 Hp.
  - now apply Permutation_nil in Hp.
  - destruct H2 as [|b l2 Hs2 Hall2].
    + symmetry in Hp. now apply Permutation_nil in Hp.
    + assert (a = b) as ->.
      { assert (Ha : In a (b :: l2)) by (eapply Permutation_in; [exact Hp|now left]).
        assert (Hb : In b (a :: l1))
          by (eapply Permutation_in; [symmetry; exact Hp|now left]).
        destruct Ha as [Ha|Ha]; [now symmetry|].
        destruct Hb as [Hb|Hb]; [assumption|].
        rewrite List.Forall_forall in Hall1, Hall2.
        exfalso. eapply ltb_asym; [apply (Hall1 _ Hb)|apply (Hall2 _ Ha)]. }
      f_equal. apply IH; [assumption|]. eapply Permutation_cons_inv, Hp.
Qed.

Lemma sorted_items_permutation (d1 d2 : dict PyVal) :
  dict_wf d1 -> Permutation d1 d2 -> sorted_items d1 = sorted_items d2.
Proof.
  unfold dict_wf, dict_keys. intros Hwf Hp.
  assert (Hwf2 : NoDup (map fst d2)).
  { pose proof (Permutation_map fst Hp) as Hm. now rewrite <- Hm. }
  apply sorted_unique; try now apply sorted_items_sorted.
  eapply perm_trans; [apply sorted_items_perm|].
  eapply perm_trans; [exact Hp|]. symmetry. apply sorted_items_perm.
Qed.

End PyFacts.

(** ** The triple-check protocol *)

Module TripleCheckFacts.
Import Py TripleCheck.

Lemma Qltb_lt (x y : Q) : Qltb x y = true <-> (x < y)%Q.
Proof.
  unfold Qltb. rewrite negb_true_iff, <- not_true_iff_false, Qle_bool_iff.
  split; [apply Qnot_le_lt | apply Qlt_not_le].
Qed.

Lemma Qltb_ge (x y : Q) : Qltb x y = false <-> (y <= x)%Q.
Proof. unfold Qltb. now rewrite negb_false_iff, Qle_bool_iff. Qed.

(** The status rule of [verify], for any three check results whatever. *)
Lemma verify_aggregate_status self id h data chain c1 c2 c3 t :
  let r := fst (verify_aggregate self id h data chain c1 c2 c3 t) in
  let self' := snd (verify_aggregate self id h data chain c1 c2 c3 t) in
  primary_check r = c1 /\ secondary_check r = c2 /\ pattern_check r = c3 /\
  (overall_status r = VERIFIED <->
     passed (primary_check r) = true /\ passed (secondary_check r) = true /\
     passed (pattern_check r) = true) /\
  (overall_status r = FAILED <->
     passed (primary_check r) = false /\ passed (secondary_check r) = false /\
     passed (pattern_check r) = false) /\
  (passed_count r = 1%Z \/ passed_count r = 2%Z ->
     ((0.5 <= overall_confidence r)%Q -> overall_status r = PARTIAL) /\
     ((overall_confidence r < 0.5)%Q -> overall_status r = ESCALATED)) /\
  (overall_status r = ESCALATED -> escalations self' = (escalations self + 1)%Z) /\
  (overall_status r <> ESCALATED -> escalations self' = escalations self).
Proof.
  unfold verify_aggregate, passed_count. cbn -[py_sum Qdiv].
  set (conf := (py_sum _ / 3)%Q).
  pose proof (Qltb_lt conf 0.5) as Hlt. pose proof (Qltb_ge conf 0.5) as Hge.
  repeat split; trivial;
    destruct (passed c1), (passed c2), (passed c3); cbn;
    destruct (Qltb conf 0.5) eqn:E; cbn;
    try tauto; try congruence; try lia; intros;
    repeat match goal with
           | H : _ \/ _ |- _ => destruct H
           | H : _ /\ _ |- _ => destruct H
           end;
    try discriminate; try reflexivity; try tauto; exfalso.
  all: try (apply (Qlt_irrefl conf); eapply Qlt_le_trans; [now apply Hlt|eassumption]).
  all: try (apply (Qlt_irrefl conf); eapply Qlt_le_trans; [eassumption|now apply Hge]).
Qed.

(** The demo: the default registries verify the demo payload. *)
Example demo_verify :
  let r := fst (fst (verify demo_clock (init None) 0 demo_data "parliamentary_vote")) in
  overall_status r = VERIFIED /\
  (overall_confidence r == 3253 # 3600)%Q /\
  data_hash r = "74eb0eff2940cf41" /\
  verification_chain r
  = [ "Verification started: 2025-11-20T12:00:00.000100";
      "Primary check: PASS"; "Secondary check: PASS"; "Pattern check: PASS";
      "Final status: VERIFIED" ].
Proof. vm_compute. repeat split. Qed.

(** With no source registered only the pattern check passes and the
    confidence is 0.8/3: the result is ESCALATED and counted. *)
Example verify_escalates_without_sources :
  let out := verify demo_clock (with_sources [] [] (init None)) 0 demo_data "generic" in
  overall_status (fst (fst out)) = ESCALATED /\
  passed_count (fst (fst out)) = 1%Z /\
  (overall_confidence (fst (fst out)) == 8 # 30)%Q /\
  escalations (snd (fst out)) = 1%Z /\
  total_verifications (snd (fst out)) = 1%Z /\
  successful_verifications (snd (fst out)) = 0%Z.
Proof. vm_compute. repeat split. Qed.

(** With one primary source (of the two required) and one secondary
    source two checks pass and the result is PARTIAL. *)
Example verify_partial_with_one_primary :
  let out := verify demo_clock
               (with_sources (firstn 1 default_primary_sources)
                             (firstn 1 default_secondary_sources) (init None))
               0 demo_data "generic" in
  overall_status (fst (fst out)) = PARTIAL /\
  passed_count (fst (fst out)) = 2%Z /\
  escalations (snd (fst out)) = 0%Z.
Proof. vm_compute. repeat split. Qed.

(** C1. For every call of [verify], the overall status follows from the
    three check results: VERIFIED exactly when all three passed, FAILED
    exactly when none did, and with one or two passed PARTIAL when the
    overall confidence is at least 0.5 and ESCALATED when it is below; the
    escalations counter goes up by one exactly when the result is
    ESCALATED. ([verify_aggregate_status] is the same rule for arbitrary
    check results.) *)
Theorem verify_status_resolution clock self reads data data_type :
  let r := fst (fst (verify clock self reads data data_type)) in
  let self' := snd (fst (verify clock self reads data data_type)) in
  (overall_status r = VERIFIED <->
     passed (primary_check r) = true /\ passed (secondary_check r) = true /\
     passed (pattern_check r) = true) /\
  (overall_status r = FAILED <->
     passed (primary_check r) = false /\ passed (secondary_check r) = false /\
     passed (pattern_check r) = false) /\
  (passed_count r = 1%Z \/ passed_count r = 2%Z ->
     ((0.5 <= overall_confidence r)%Q -> overall_status r = PARTIAL) /\
     ((overall_confidence r < 0.5)%Q -> overall_status r = ESCALATED)) /\
  (overall_status r = ESCALATED -> escalations self' = (escalations self + 1)%Z) /\
  (overall_status r <> ESCALATED -> escalations self' = escalations self).
Proof.
  unfold verify. cbn [fst snd].
  match goal with
  | |- context [verify_aggregate ?s ?i ?h ?d ?c ?c1 ?c2 ?c3 ?t] =>
      destruct (verify_aggregate_status s i h d c c1 c2 c3 t)
        as (_ & _ & _ & H)
  end.
  exact H.
Qed.

(** C6, as the code has it. [_hash_data] is deterministic and
    independent of the insertion order of the payload's own keys: two
    payloads with the same key/value pairs, the values being the same as
    written (a nested dict with its keys in the same order), hash alike,
    and so do the results of two [verify] calls on them, whatever the
    state of the protocol, the clock and the data type. *)
Theorem hash_data_order_independent (d1 d2 : dict PyVal) :
  dict_wf d1 -> Permutation d1 d2 ->
  _hash_data d1 = _hash_data d2 /\
  forall clock1 clock2 self1 self2 reads1 reads2 type1 type2,
    data_hash (fst (fst (verify clock1 self1 reads1 d1 type1)))
    = data_hash (fst (fst (verify clock2 self2 reads2 d2 type2))).
Proof.
  intros Hwf Hp.
  assert (H : _hash_data d1 = _hash_data d2).
  { unfold _hash_data. now rewrite (PyFacts.sorted_items_permutation d1 d2 Hwf Hp). }
  split; [exact H|]. intros. exact H.
Qed.

Lemma hash_data_order_independent_witness :
  _hash_data [("votes_for", VInt 312); ("bill", VStr "Finance Bill 2025")]
  = _hash_data [("bill", VStr "Finance Bill 2025"); ("votes_for", VInt 312)].
Proof.
  refine (proj1 (hash_data_order_independent
                   [("votes_for", VInt 312); ("bill", VStr "Finance Bill 2025")]
                   [("bill", VStr "Finance Bill 2025"); ("votes_for", VInt 312)]
                   _ _)).
  - unfold dict_wf. apply (bool_decide_unpack _). vm_compute. exact I.
  - apply perm_swap.
Defined.

(** The order-independence is that of the payload's own keys. A value is
    rendered by [repr] as it is: a nested dict enters the hash with its
    keys in the order they were inserted. *)
Example nested_dict_is_rendered_as_inserted :
  str_items (sorted_items [("a", VDict [("y", VInt 2); ("x", VInt 1)])])
  = "[('a', {'y': 2, 'x': 1})]" /\
  _hash_data [("a", VDict [("x", VInt 1); ("y", VInt 2)])]
  <> _hash_data [("a", VDict [("y", VInt 2); ("x", VInt 1)])].
Proof. split; vm_compute; [reflexivity|discriminate]. Qed.

(** C6 as stated fails. These two payloads hold the same key/value pairs
    and are equal as Python dicts; the dict under ["a"] has its two keys
    in a different order, and the hashes differ. *)
Example hash_data_depends_on_nested_key_order :
  py_eq (VDict [("a", VDict [("x", VInt 1); ("y", VInt 2)])])
        (VDict [("a", VDict [("y", VInt 2); ("x", VInt 1)])]) = true /\
  dict_wf [("a", VDict [("x", VInt 1); ("y", VInt 2)])] /\
  dict_wf [("a", VDict [("y", VInt 2); ("x", VInt 1)])] /\
  _hash_data [("a", VDict [("x", VInt 1); ("y", VInt 2)])]
  <> _hash_data [("a", VDict [("y", VInt 2); ("x", VInt 1)])].
Proof.
  split; [reflexivity|].
  split; [unfold dict_wf; apply (bool_decide_unpack _); vm_compute; exact I|].
  split; [unfold dict_wf; apply (bool_decide_unpack _); vm_compute; exact I|].
  vm_compute. discriminate.
Qed.

Lemma py_min_below_one (q : Q) : (q <= 1.0)%Q -> py_min q 1.0 = q.
Proof.
  intros H. unfold py_min. now rewrite (proj2 (Qltb_ge 1.0 q) H).
Qed.

(** C7, as the code has it. With [hansard] and [parliament] (0.99 each)
    as the primary sources and [theyworkforyou] (0.92) as the secondary
    one, [verify] returns VERIFIED, the three check confidences are 0.99,
    0.92 and 0.8, and the overall confidence is their arithmetic mean,
    271/300, which is 0.903 to three decimals. *)
Theorem scenario_A_verified clock self reads data data_type
    hansard parliament theyworkforyou :
  primary_sources self = [("hansard", hansard); ("parliament", parliament)] ->
  secondary_sources self = [("theyworkforyou", theyworkforyou)] ->
  (reliability_score hansard == 0.99)%Q ->
  (reliability_score parliament == 0.99)%Q ->
  (reliability_score theyworkforyou == 0.92)%Q ->
  (min_sources_required self <= 2)%Z ->
  let r := fst (fst (verify clock self reads data data_type)) in
  overall_status r = VERIFIED /\
  (confidence (primary_check r) == 0.99)%Q /\
  (confidence (secondary_check r) == 0.92)%Q /\
  (confidence (pattern_check r) == 0.8)%Q /\
  (overall_confidence r == (0.99 + 0.92 + 0.8) / 3)%Q /\
  (overall_confidence r == 271 # 300)%Q /\
  (Qabs (overall_confidence r - 0.903) <= 0.0005)%Q.
Proof.
  intros Hprim Hsec Hh Hp Ht Hmin r.
  assert (Hc1 : (confidence (primary_check r) == 0.99)%Q).
  { subst r. unfold verify, verify_aggregate, _check_primary, _select_sources.
    cbn [fst snd primary_check confidence]. rewrite Hprim.
    cbn [consult _verify_against_source fst snd app confidence String.eqb].
    assert (Hm : (mean_reliability [hansard; parliament] == 0.99)%Q).
    { unfold mean_reliability, py_sum. cbn [map fold_left length].
      rewrite Hh, Hp. reflexivity. }
    rewrite py_min_below_one; [exact Hm|].
    rewrite Hm. discriminate. }
  assert (Hc2 : (confidence (secondary_check r) == 0.92)%Q).
  { subst r. unfold verify, verify_aggregate, _check_secondary, _select_sources.
    cbn [fst snd secondary_check confidence]. rewrite Hsec.
    cbn [consult _verify_against_source fst snd app confidence String.eqb].
    unfold mean_reliability, py_sum. cbn [map fold_left length].
    rewrite Ht. reflexivity. }
  assert (Hc3 : (confidence (pattern_check r) == 0.8)%Q) by reflexivity.
  assert (Hs : overall_status r = VERIFIED).
  { subst r. unfold verify, verify_aggregate, _check_primary, _check_secondary,
      _select_sources.
    cbn [fst snd overall_status]. rewrite Hprim, Hsec.
    cbn [consult _verify_against_source fst snd app passed length String.eqb].
    replace (min_sources_required self <=? Z.of_nat 2)%Z with true
      by (symmetry; apply Z.leb_le; simpl; lia).
    reflexivity. }
  assert (Hoc : (overall_confidence r == (0.99 + 0.92 + 0.8) / 3)%Q).
  { assert (Hdef : (overall_confidence r
                    == (0 + confidence (primary_check r)
                        + confidence (secondary_check r)
                        + confidence (pattern_check r)) / 3)%Q) by reflexivity.
    rewrite Hdef, Hc1, Hc2, Hc3. reflexivity. }
  repeat split; trivial.
  - rewrite Hoc. reflexivity.
  - rewrite Hoc. discriminate.
Qed.

Lemma scenario_A_verified_witness :
  let r := fst (fst (verify demo_clock scenario_A_protocol 0 demo_data
                       "parliamentary_vote")) in
  overall_status r = VERIFIED /\ (overall_confidence r == 271 # 300)%Q.
Proof.
  pose proof (scenario_A_verified demo_clock scenario_A_protocol 0 demo_data
                "parliamentary_vote" _ _ _ eq_refl eq_refl
                (Qeq_refl _) (Qeq_refl _) (Qeq_refl _)) as H.
  destruct H as (Hs & _ & _ & _ & _ & Hc & _).
  - vm_compute. discriminate.
  - split; assumption.
Defined.

(** C7, as the spec words it, fails: in scenario A the overall confidence
    is not within a hundredth of 0.967. *)
Lemma scenario_A_confidence_not_0967 :
  let r := fst (fst (verify demo_clock scenario_A_protocol 0 demo_data
                       "parliamentary_vote")) in
  ~ (overall_status r = VERIFIED /\
     (Qabs (overall_confidence r - 0.967) <= 0.01)%Q).
Proof.
  intros r [_ H]. vm_compute in H. apply H. reflexivity.
Qed.

End TripleCheckFacts.

(** ** The freeze protocol *)

Module FreezeFacts.
Import Py Freeze.

Section WithCollaborators.
Variable X : Type.
Variable clock : Clock.
Implicit Types (s : St X) (auth : option string).

(** *** What the methods leave alone *)

Lemma returns_ret {A} (a : A) : returns (X:=X) (ret a).
Proof. intros s. now exists a. Qed.

Lemma preserves_ret {A} (a : A) : preserves (X:=X) (ret a).
Proof. now intros s. Qed.

Lemma returns_bind {A B} (m : M X A) (k : A -> M X B) :
  returns m -> (forall a, returns (k a)) -> returns (bind m k).
Proof.
  intros Hm Hk s. unfold bind. destruct (Hm s) as [a Ha].
  destruct (m s) as [r s']. cbn in Ha. subst r. apply Hk.
Qed.

Lemma preserves_bind {A B} (m : M X A) (k : A -> M X B) :
  preserves m -> (forall a, preserves (k a)) -> preserves (bind m k).
Proof.
  intros Hm Hk s. unfold bind. specialize (Hm s).
  destruct (m s) as [[a|e] s']; cbn in *; [|exact Hm].
  now rewrite Hk.
Qed.

Lemma returns_get {A} (f : FreezeProtocol X -> A) : returns (get f).
Proof. intros s. now eexists. Qed.

Lemma preserves_get {A} (f : FreezeProtocol X -> A) : preserves (get f).
Proof. now intros s. Qed.

Lemma returns_read {A} (f : St X -> A) : returns (fun s => (Returned (f s), s)).
Proof. intros s. now eexists. Qed.

Lemma preserves_read {A} (f : St X -> A) : preserves (fun s => (Returned (f s), s)).
Proof. now intros s. Qed.

Lemma returns_now : returns (X:=X) (now clock).
Proof. intros s. now eexists. Qed.

Lemma preserves_now : preserves (X:=X) (now clock).
Proof. now intros s. Qed.

Lemma returns_set_status name status : returns (X:=X) (set_status name status).
Proof. intros s. now eexists. Qed.

Lemma preserves_set_status name status : preserves (X:=X) (set_status name status).
Proof. now intros s. Qed.

Lemma returns_call {A} c (method : X -> Outcome A * X) : returns (call c method).
Proof. intros s. unfold call. destruct (method _). now eexists. Qed.

Lemma preserves_call {A} c (method : X -> Outcome A * X) : preserves (call c method).
Proof. intros s. unfold call. now destruct (method _). Qed.

Lemma preserves_call_raising {A} c (method : X -> Outcome A * X) :
  preserves (call_raising c method).
Proof.
  intros s. unfold call_raising, call. now destruct (method _) as [[a|e] x'].
Qed.

Lemma returns_try_except {A} (body : M X A) handler :
  (forall e, returns (handler e)) -> returns (try_except body handler).
Proof.
  intros Hh s. unfold try_except. destruct (body s) as [[a|e] s'].
  - now exists a.
  - apply Hh.
Qed.

Lemma preserves_try_except {A} (body : M X A) handler :
  preserves body -> (forall e, preserves (handler e)) ->
  preserves (try_except body handler).
Proof.
  intros Hb Hh s. unfold try_except. specialize (Hb s).
  destruct (body s) as [[a|e] s']; cbn in *; [exact Hb|].
  now rewrite Hh.
Qed.

Lemma returns_for_each {A} (xs : list A) (body : A -> M X unit) :
  (forall x, returns (body x)) -> returns (for_each xs body).
Proof.
  intros Hb. induction xs as [|x xs IH]; cbn.
  - apply returns_ret.
  - apply returns_bind; auto.
Qed.

Lemma preserves_for_each {A} (xs : list A) (body : A -> M X unit) :
  (forall x, preserves (body x)) -> preserves (for_each xs body).
Proof.
  intros Hb. induction xs as [|x xs IH]; cbn.
  - apply preserves_ret.
  - apply preserves_bind; auto.
Qed.

(** Both facts at once, by the shape of the computation. *)
Ltac frame :=
  repeat first
    [ progress intros
    | apply returns_ret | apply preserves_ret
    | apply returns_get | apply preserves_get
    | apply returns_read | apply preserves_read
    | apply returns_now | apply preserves_now
    | apply returns_set_status | apply preserves_set_status
    | apply returns_call | apply preserves_call
    | apply preserves_call_raising
    | apply returns_bind | apply preserves_bind
    | apply returns_for_each | apply preserves_for_each
    | apply returns_try_except | apply preserves_try_except
    | match goal with
      | |- returns (match ?x with _ => _ end) => destruct x
      | |- preserves (match ?x with _ => _ end) => destruct x
      | |- returns (let '(_, _) := ?x in _) => destruct x
      | |- preserves (let '(_, _) := ?x in _) => destruct x
      end ].

Lemma run_diagnostics_returns : returns (X:=X) (run_diagnostics clock).
Proof. unfold run_diagnostics. frame. Qed.

Lemma run_diagnostics_preserves : preserves (X:=X) (run_diagnostics clock).
Proof. unfold run_diagnostics. frame. Qed.

Lemma execute_recovery_action_returns action :
  returns (X:=X) (_execute_recovery_action action).
Proof. unfold _execute_recovery_action. frame. Qed.

Lemma execute_recovery_action_preserves action :
  preserves (X:=X) (_execute_recovery_action action).
Proof. unfold _execute_recovery_action. destruct action; frame. Qed.

Lemma core_current_event s s' : core s = core s' -> current_event s = current_event s'.
Proof.
  unfold core, current_event. intros H. injection H as _ _ Hc _ _ _ _ _ Hh.
  now rewrite Hc, Hh.
Qed.

Lemma core_human_needed s s' : core s = core s' -> human_needed s = human_needed s'.
Proof.
  intros H. unfold human_needed. rewrite (core_current_event _ _ H).
  unfold core in H. injection H as _ _ _ _ _ _ Hm Ha _. now rewrite Hm, Ha.
Qed.

Lemma core_state s s' : core s = core s' -> state (fst s) = state (fst s').
Proof. unfold core. intros H. now injection H. Qed.

Lemma core_recovery_attempts s s' :
  core s = core s' -> recovery_attempts (fst s) = recovery_attempts (fst s').
Proof. unfold core. intros H. now injection H. Qed.

(** [run_diagnostics] always returns a report, leaves [core] alone, and
    computes the human-intervention flag from the attempt counter and the
    reason of the current freeze. *)
Lemma run_diagnostics_report s :
  exists d s',
    run_diagnostics clock s = (Returned d, s') /\
    core s' = core s /\
    human_intervention_required d = human_needed s /\
    recommended_actions d = _determine_recovery_actions s /\
    data_integrity_score d = _calculate_integrity_score (fst s').
Proof.
  pose proof (run_diagnostics_preserves s) as Hp.
  unfold run_diagnostics in *. unfold bind at 1. unfold get at 1. cbn [fst].
  unfold bind at 1 in Hp. unfold get at 1 in Hp. cbn [fst] in Hp.
  unfold bind at 1. unfold bind at 1 in Hp.
  match goal with
  | |- context [for_each ?xs ?b s] =>
      assert (Hr : returns (for_each xs b)) by frame;
      assert (Hl : preserves (for_each xs b)) by frame;
      specialize (Hr s); specialize (Hl s);
      destruct (for_each xs b s) as [r s1]
  end.
  destruct Hr as [[] Hr]. cbn in Hr. subst r. cbn in Hl.
  unfold bind, get, now, ret in *. cbn in *.
  eexists _, _. split; [reflexivity|]. cbn.
  repeat split.
  - exact Hp.
  - now apply core_human_needed.
  - unfold _determine_recovery_actions. now rewrite (core_current_event _ _ Hl).
Qed.

(** The recovery loop executes the actions in order and stops at the first
    that fails. *)
Lemma recovery_loop_runs_in_order actions s :
  exists ok s',
    recovery_loop actions s = (Returned ok, s') /\
    RunsInOrder actions s ok s' /\
    core s' = core s.
Proof.
  revert s. induction actions as [|action rest IH]; intros s; cbn.
  - exists true, s. repeat split. constructor.
  - unfold bind.
    destruct (execute_recovery_action_returns action s) as [ok Hok].
    pose proof (execute_recovery_action_preserves action s) as Hp.
    destruct (_execute_recovery_action action s) as [r s1] eqn:E.
    cbn in Hok, Hp. subst r. destruct ok.
    + destruct (IH s1) as (ok & s2 & Hloop & Hrun & Hcore).
      exists ok, s2. repeat split; [exact Hloop| |congruence].
      eapply Run_succeeded; eassumption.
    + exists false, s1. repeat split; [|exact Hp].
      now apply Run_failed.
Qed.

(** An authorized [unfreeze] of a frozen system ends in state ACTIVE with
    no current event and the attempt counter reset, also when the brain
    callback raises. *)
Lemma unfreeze_authorized (c : ascii) (rest : string) s :
  state (fst s) = FROZEN ->
  exists r s',
    unfreeze clock (Some (String c rest)) s = (r, s') /\
    state (fst s') = ACTIVE /\
    current_freeze (fst s') = None /\
    recovery_attempts (fst s') = 0%Z.
Proof.
  intros Hfrozen. unfold unfreeze.
  unfold bind at 1. unfold get at 1. cbn [fst]. rewrite Hfrozen. cbn [SystemState_eqb negb].
  unfold bind at 1. unfold assign at 1. cbn [fst snd].
  unfold bind at 1. unfold get at 1. cbn [fst snd].
  unfold bind at 1.
  match goal with
  | |- context [for_each ?xs ?b ?s0] =>
      assert (Hr : returns (for_each xs b)) by frame;
      specialize (Hr s0);
      destruct (for_each xs b s0) as [r s1]
  end.
  destruct Hr as [[] Hr]. cbn in Hr. subst r.
  destruct s1 as [self1 w1].
  unfold bind, get, assign, now, update_event, ret, call_raising, call. cbn.
  destruct (current_freeze self1); cbn;
    destruct (brain_callback self1) as [f|]; cbn;
    try match goal with
        | |- context [f ?k ?ev ?x] => destruct (f k ev x) as [[[]|e'] x']; cbn
        end;
    eexists _, _; (split; [reflexivity|]); cbn; auto.
Qed.

(** C4. Auto-recovery on a frozen system, given the diagnostics just run.
    Human intervention is required exactly when the attempt counter has
    reached the maximum or the current freeze has reason SECURITY_CONCERN
    or DATA_INTEGRITY, and then the attempt is skipped entirely: it returns
    false and changes nothing. Otherwise the attempt counter goes up by
    one and the recommended actions run in order up to the first that
    fails. If one fails, the attempt ends there with the system FROZEN.
    If all succeed, diagnostics run again, and the system is unfrozen with
    authorization "auto_recovery" (ending ACTIVE) when the new integrity
    score is at least 0.8, and left FROZEN when it is below. *)
Theorem auto_recovery_after_diagnostics s0 :
  state (fst s0) = FROZEN ->
  exists diag s1,
    run_diagnostics clock s0 = (Returned diag, s1) /\
    (human_intervention_required diag = true <->
       (max_auto_recovery_attempts (fst s0) <= recovery_attempts (fst s0))%Z \/
       current_reason s0 = Some SECURITY_CONCERN \/
       current_reason s0 = Some DATA_INTEGRITY) /\
    (human_intervention_required diag = true ->
       _attempt_auto_recovery clock diag s1 = (Returned false, s1)) /\
    (human_intervention_required diag = false ->
       exists all_succeeded s2,
         recovery_attempts (fst (count_attempt s1))
         = (recovery_attempts (fst s0) + 1)%Z /\
         RunsInOrder (recommended_actions diag) (count_attempt s1) all_succeeded s2 /\
         (all_succeeded = false ->
            _attempt_auto_recovery clock diag s1 = (Returned false, s2) /\
            state (fst s2) = FROZEN /\
            recovery_attempts (fst s2) = (recovery_attempts (fst s0) + 1)%Z) /\
         (all_succeeded = true ->
            exists post s3,
              run_diagnostics clock s2 = (Returned post, s3) /\
              ((0.8 <= data_integrity_score post)%Q ->
                 exists r s4,
                   unfreeze clock (Some "auto_recovery") s3 = (r, s4) /\
                   _attempt_auto_recovery clock diag s1
                   = (match r with
                      | Returned _ => Returned true
                      | Raised e => Raised e
                      end, s4) /\
                   state (fst s4) = ACTIVE) /\
              ((data_integrity_score post < 0.8)%Q ->
                 _attempt_auto_recovery clock diag s1 = (Returned false, s3) /\
                 state (fst s3) = FROZEN /\
                 recovery_attempts (fst s3) = (recovery_attempts (fst s0) + 1)%Z))).
Proof.
  intros Hfrozen.
  destruct (run_diagnostics_report s0) as (d & s1 & Hrun & Hcore & Hhuman & _ & _).
  exists d, s1. split; [exact Hrun|]. split; [|split].
  - rewrite Hhuman. unfold human_needed, current_reason.
    rewrite orb_true_iff, Z.leb_le.
    destruct (current_event s0) as [ev|]; [destruct (reason ev)|];
      intuition (try discriminate; try congruence).
  - intros Ht. unfold _attempt_auto_recovery. now rewrite Ht.
  - intros Hf.
    assert (Hlt : (max_auto_recovery_attempts (fst s1) <=? recovery_attempts (fst s1))%Z
                  = false).
    { rewrite Hhuman, <- (core_human_needed _ _ Hcore) in Hf.
      unfold human_needed in Hf. now apply orb_false_iff in Hf. }
    assert (Hbump : core (count_attempt s1)
                    = core (set_recovery_attempts (recovery_attempts (fst s0) + 1)%Z
                              (fst s0), snd s0)).
    { unfold count_attempt, core in *. cbn.
      injection Hcore as -> -> -> -> -> -> -> -> ->. reflexivity. }
    destruct (recovery_loop_runs_in_order (recommended_actions d) (count_attempt s1))
      as (ok & s2 & Hloop & Hruns & Hcore2).
    assert (Hstate2 : state (fst s2) = FROZEN).
    { rewrite (core_state _ _ Hcore2), (core_state _ _ Hbump). exact Hfrozen. }
    assert (Hatt2 : recovery_attempts (fst s2) = (recovery_attempts (fst s0) + 1)%Z).
    { rewrite (core_recovery_attempts _ _ Hcore2), (core_recovery_attempts _ _ Hbump).
      reflexivity. }
    assert (Hunfold : _attempt_auto_recovery clock d s1
                      = if ok then
                          bind (run_diagnostics clock) (fun post =>
                            if Qgeb (data_integrity_score post) 0.8
                            then bind (unfreeze clock (Some "auto_recovery"))
                                   (fun _ => ret true)
                            else ret false) s2
                        else (Returned false, s2)).
    { unfold _attempt_auto_recovery. rewrite Hf.
      unfold bind at 1. unfold get at 1. unfold bind at 1. unfold get at 1.
      cbn [fst snd]. rewrite Hlt.
      unfold bind at 1. unfold assign at 1. cbn [fst snd].
      unfold bind at 1. fold (count_attempt s1). rewrite Hloop.
      now destruct ok. }
    exists ok, s2. split; [|split; [exact Hruns|split]].
    + now rewrite (core_recovery_attempts _ _ Hbump).
    + intros ->. now rewrite Hunfold.
    + intros ->.
      destruct (run_diagnostics_report s2) as (post & s3 & Hrun2 & Hcore3 & _).
      exists post, s3. split; [exact Hrun2|].
      assert (Hpost : _attempt_auto_recovery clock d s1
                      = if Qgeb (data_integrity_score post) 0.8
                        then bind (unfreeze clock (Some "auto_recovery"))
                               (fun _ => ret true) s3
                        else (Returned false, s3)).
      { rewrite Hunfold. unfold bind at 1. rewrite Hrun2.
        now destruct (Qgeb _ _). }
      assert (Hstate3 : state (fst s3) = FROZEN)
        by now rewrite (core_state _ _ Hcore3).
      split.
      * intros Hge. rewrite Hpost. unfold Qgeb.
        rewrite (proj2 (Qle_bool_iff _ _) Hge).
        destruct (unfreeze_authorized "a" "uto_recovery" s3 Hstate3)
          as (r & s4 & Hun & Hactive & _).
        exists r, s4. split; [exact Hun|]. split; [|exact Hactive].
        unfold bind. rewrite Hun. now destruct r.
      * intros Hlt'. rewrite Hpost. unfold Qgeb.
        replace (Qle_bool 0.8 (data_integrity_score post)) with false.
        -- repeat split; [exact Hstate3|].
           now rewrite (core_recovery_attempts _ _ Hcore3).
        -- symmetry. apply not_true_iff_false. rewrite Qle_bool_iff.
           now apply Qlt_not_le.
Qed.

(** *** The id of a new event *)

Lemma preserves_keeps_ids {A} (m : M X A) : preserves m -> keeps_ids m.
Proof.
  intros H s. specialize (H s). unfold core in H. unfold ids.
  injection H as _ _ _ _ _ _ _ _ ->. reflexivity.
Qed.

Lemma keeps_ids_bind {A B} (m : M X A) (k : A -> M X B) :
  keeps_ids m -> (forall a, keeps_ids (k a)) -> keeps_ids (bind m k).
Proof.
  intros Hm Hk s. unfold bind. specialize (Hm s).
  destruct (m s) as [[a|e] s']; cbn in *; [|exact Hm].
  now rewrite Hk.
Qed.

Lemma keeps_ids_assign f : keeps_ids (X:=X) (assign f).
Proof. now intros s. Qed.

Lemma keeps_ids_update_event r f :
  (forall ev, event_id (f ev) = event_id ev) -> keeps_ids (X:=X) (update_event r f).
Proof.
  intros Hf s. unfold ids, update_event. cbn.
  generalize (heap (snd s)). intros l. revert r.
  induction l as [|ev l IH]; intros [|r]; cbn; [reflexivity..| |].
  - now rewrite Hf.
  - f_equal. apply IH.
Qed.

Lemma recovery_loop_preserves actions : preserves (X:=X) (recovery_loop actions).
Proof.
  intros s. destruct (recovery_loop_runs_in_order actions s) as (ok & s' & H & _ & Hc).
  now rewrite H.
Qed.

Ltac ids_frame :=
  repeat first
    [ progress intros
    | apply keeps_ids_bind
    | apply keeps_ids_assign
    | apply keeps_ids_update_event; reflexivity
    | apply preserves_keeps_ids; solve [frame]
    | match goal with
      | |- keeps_ids (match ?x with _ => _ end) => destruct x
      | |- keeps_ids (if ?b then _ else _) => destruct b
      end ].

Lemma unfreeze_keeps_ids auth : keeps_ids (X:=X) (unfreeze clock auth).
Proof. unfold unfreeze. ids_frame. Qed.

Lemma attempt_auto_recovery_keeps_ids diag :
  keeps_ids (X:=X) (_attempt_auto_recovery clock diag).
Proof.
  unfold _attempt_auto_recovery.
  repeat first
    [ progress intros
    | apply unfreeze_keeps_ids
    | apply keeps_ids_bind
    | apply keeps_ids_assign
    | apply preserves_keeps_ids;
      first [ apply recovery_loop_preserves | apply run_diagnostics_preserves
            | solve [frame] ]
    | match goal with
      | |- keeps_ids (if ?b then _ else _) => destruct b
      end ].
Qed.

(** The id of the event a freeze creates is the first clock reading of the
    call, to the second; the ids of the earlier events stay as they are.
    Two freezes whose clock readings fall in the same second therefore
    create events with the same id. *)
Lemma trigger_freeze_event_id reason source details affected s :
  state (fst s) <> FROZEN ->
  ids (snd (trigger_freeze clock reason source details affected s))
  = (ids s ++ [("freeze_" ++ strftime_Ymd_HMS (clock (reads (snd s))))%string])%list.
Proof.
  intros Hstate. unfold trigger_freeze.
  unfold bind at 1. unfold get at 1. cbn [fst].
  replace (SystemState_eqb (state (fst s)) FROZEN) with false
    by (destruct (state (fst s)); cbn; congruence).
  unfold bind at 1. unfold now at 1. cbn [fst snd reads].
  unfold bind at 1. unfold get at 1. cbn [fst snd].
  unfold bind at 1. unfold now at 1. cbn [fst snd reads ext calls heap].
  unfold bind at 1. unfold new_event at 1. cbn [fst snd reads ext calls heap].
  match goal with
  | |- ids (snd (?tail ?s1)) = _ =>
      assert (H : keeps_ids tail);
      [|rewrite (H s1); unfold ids; cbn [snd heap]; now rewrite map_app]
  end.
  repeat first
    [ progress intros
    | apply attempt_auto_recovery_keeps_ids
    | apply keeps_ids_bind
    | apply keeps_ids_assign
    | apply preserves_keeps_ids;
      first [ apply run_diagnostics_preserves | solve [unfold _halt_components; frame] ]
    | match goal with
      | |- keeps_ids (match ?x with _ => _ end) => destruct x
      | |- keeps_ids (if ?b then _ else _) => destruct b
      end ].
Qed.

(** C2. [trigger_freeze] is idempotent: called while the state is FROZEN it
    returns the current event and changes nothing: not the protocol (so no
    event is added to the history), not the store of events, not the
    collaborators (no component is paused), not the clock; a second call
    returns the same event again. *)
Theorem trigger_freeze_idempotent reason source details affected
    reason' source' details' affected' s :
  state (fst s) = FROZEN ->
  trigger_freeze clock reason source details affected s
  = (Returned (current_freeze (fst s)), s) /\
  trigger_freeze clock reason' source' details' affected'
    (snd (trigger_freeze clock reason source details affected s))
  = (Returned (current_freeze (fst s)), s).
Proof.
  intros Hfrozen.
  assert (H : forall r src d a,
             trigger_freeze clock r src d a s
             = (Returned (current_freeze (fst s)), s)).
  { intros. unfold trigger_freeze, bind, get. cbn. rewrite Hfrozen. cbn.
    now destruct s. }
  split; [apply H|]. rewrite H. cbn [snd]. apply H.
Qed.

(** C3. [unfreeze] with an empty or absent authorization, called while the
    state is FROZEN, returns false and changes nothing: the state stays
    FROZEN, the current event stays as it is, no component is resumed and
    no status or counter changes. *)
Theorem unfreeze_without_authorization auth s :
  state (fst s) = FROZEN ->
  auth = None \/ auth = Some "" ->
  unfreeze clock auth s = (Returned false, s).
Proof.
  intros Hfrozen Hauth. unfold unfreeze, bind, get. cbn. rewrite Hfrozen. cbn.
  destruct s. now destruct Hauth as [-> | ->].
Qed.

(** C10. [unfreeze] called while the state is not FROZEN returns true at
    once, whatever the authorization, and changes nothing. *)
Theorem unfreeze_when_not_frozen auth s :
  state (fst s) <> FROZEN ->
  unfreeze clock auth s = (Returned true, s).
Proof.
  intros Hstate. unfold unfreeze, bind, get. cbn.
  destruct s as [self w]. cbn in *.
  now destruct (state self).
Qed.

End WithCollaborators.

(** The demo: after the API error of [hansard] both arms were paused and
    probed, [hansard] alone was restarted, and the second diagnostics found
    half of the components active: the system stays FROZEN after one
    attempt. *)
Example demo_freeze_outcome :
  fst demo_freeze = Returned (Some 0%nat) /\
  state (fst demo_frozen) = FROZEN /\
  component_status (fst demo_frozen) = [("hansard", "ACTIVE"); ("veritas", "PAUSED")] /\
  recovery_attempts (fst demo_frozen) = 1%Z /\
  calls (snd demo_frozen)
  = [ Call_pause "hansard"; Call_pause "veritas";
      Call_health_check "hansard"; Call_health_check "veritas";
      Call_resume "hansard";
      Call_health_check "hansard"; Call_health_check "veritas" ] /\
  ext (snd demo_frozen) = [("hansard", true); ("veritas", false)].
Proof. vm_compute. repeat split. Qed.

Lemma auto_recovery_after_diagnostics_witness :
  exists diag s1,
    run_diagnostics same_second_clock demo_frozen = (Returned diag, s1) /\
    human_intervention_required diag = false.
Proof.
  destruct (auto_recovery_after_diagnostics (dict bool) same_second_clock demo_frozen)
    as (diag & s1 & Hrun & Hhuman & _).
  - vm_compute. reflexivity.
  - exists diag, s1. split; [exact Hrun|].
    destruct (human_intervention_required diag); [|reflexivity].
    destruct (proj1 Hhuman eq_refl) as [H|[H|H]]; vm_compute in H;
      solve [discriminate H | exfalso; apply H; reflexivity].
Defined.

(** C8 fails on the code: the id of a freeze event is the clock reading to
    the second. Here two freezes happen within one second (the first
    recovers by itself, so the second is a new freeze): the history holds
    two distinct events, created at different times, with the same id. *)
Theorem event_ids_collide_within_one_second :
  fst first_freeze = Returned (Some 0%nat) /\
  state (fst (snd first_freeze)) = ACTIVE /\
  fst second_freeze = Returned (Some 1%nat) /\
  freeze_history (fst (snd second_freeze)) = [0%nat; 1%nat] /\
  event_id <$> heap (snd (snd second_freeze)) !! 0%nat
  = Some "freeze_20251120_120000" /\
  event_id <$> heap (snd (snd second_freeze)) !! 1%nat
  = Some "freeze_20251120_120000" /\
  timestamp <$> heap (snd (snd second_freeze)) !! 0%nat
  = Some (mkDatetime 2025 11 20 12 0 0 100) /\
  timestamp <$> heap (snd (snd second_freeze)) !! 1%nat
  = Some (mkDatetime 2025 11 20 12 0 0 600).
Proof. vm_compute. repeat split. Qed.

Lemma trigger_freeze_idempotent_witness :
  fst (trigger_freeze same_second_clock ARM_FAILURE "veritas" "timeout" None
         demo_frozen) = Returned (Some 0%nat) /\
  snd (trigger_freeze same_second_clock ARM_FAILURE "veritas" "timeout" None
         demo_frozen) = demo_frozen.
Proof.
  pose proof (trigger_freeze_idempotent (dict bool) same_second_clock
                ARM_FAILURE "veritas" "timeout" None
                ARM_FAILURE "veritas" "timeout" None demo_frozen) as H.
  destruct H as [H _]; [vm_compute; reflexivity|].
  rewrite H. split; reflexivity.
Defined.

Lemma unfreeze_without_authorization_witness :
  unfreeze same_second_clock (Some "") demo_frozen = (Returned false, demo_frozen).
Proof.
  apply (unfreeze_without_authorization (dict bool) same_second_clock
           (Some "") demo_frozen).
  - vm_compute. reflexivity.
  - right. reflexivity.
Defined.

Lemma unfreeze_when_not_frozen_witness :
  unfreeze same_second_clock (Some "") demo_start = (Returned true, demo_start).
Proof.
  apply (unfreeze_when_not_frozen (dict bool) same_second_clock
           (Some "") demo_start).
  vm_compute. discriminate.
Defined.

End FreezeFacts.

(** ** Registration, in the freeze protocol and in the brain *)

Module RegistryFacts.
Import Py.

(** C9, as the code has it. Registering under a name stores the component
    under that name and sets its status: to "ACTIVE" in the freeze
    protocol, to INITIALIZING in the brain. In both, a name that is
    already registered keeps its one entry (the keys of both registries are
    unchanged) and a new name is added last; the entries of other names
    are untouched. *)
Theorem register_replaces_entry X Y (name : string)
    (component : Freeze.Component X) (self : Freeze.FreezeProtocol X)
    (arm : Brain.Arm Y) (brain : Brain.WestminsterWatch Y) :
  let self' := Freeze.register_component name component self in
  let brain' := Brain.register_arm name arm brain in
  let keys_after {V} (d : dict V) :=
    if dict_contains name d then dict_keys d else (dict_keys d ++ [name])%list in
  (dict_get name (Freeze.components self') = Some component /\
   dict_get name (Freeze.component_status self') = Some "ACTIVE" /\
   dict_keys (Freeze.components self') = keys_after (Freeze.components self) /\
   dict_keys (Freeze.component_status self')
   = keys_after (Freeze.component_status self) /\
   forall other, other <> name ->
     dict_get other (Freeze.components self')
     = dict_get other (Freeze.components self) /\
     dict_get other (Freeze.component_status self')
     = dict_get other (Freeze.component_status self)) /\
  (dict_get name (Brain.arms brain') = Some arm /\
   dict_get name (Brain.arm_status brain') = Some Brain.ArmStatus.INITIALIZING /\
   dict_keys (Brain.arms brain') = keys_after (Brain.arms brain) /\
   dict_keys (Brain.arm_status brain') = keys_after (Brain.arm_status brain) /\
   forall other, other <> name ->
     dict_get other (Brain.arms brain') = dict_get other (Brain.arms brain) /\
     dict_get other (Brain.arm_status brain')
     = dict_get other (Brain.arm_status brain)).
Proof.
  cbn. repeat split;
    try apply PyFacts.dict_get_set_eq; try apply PyFacts.dict_keys_set;
    apply PyFacts.dict_get_set_ne; congruence.
Qed.

(** C9, as the spec words it, fails for the freeze protocol: a component
    registered there starts as "ACTIVE", not as INITIALIZING. *)
Lemma register_component_not_INITIALIZING :
  dict_get "hansard"
    (Freeze.component_status
       (Freeze.register_component "hansard" (Freeze.MockArm "hansard")
          (Freeze.init None)))
  <> Some "INITIALIZING".
Proof. vm_compute. discriminate. Qed.

End RegistryFacts.

(** ** The brain orchestrator *)

Module BrainFacts.
Import Py Brain.

(** C5. [triple_check] on a frozen brain is rejected at once, for every
    fact record and every list of sources: it raises, and nothing changes:
    not the verification counters, not any other attribute, not the arms,
    not the clock. *)
Theorem triple_check_rejected_when_frozen X clock py_hash
    (data : dict PyVal) (primary_sources secondary_sources : list string)
    (s : St X) :
  frozen (fst s) = true ->
  triple_check clock py_hash data primary_sources secondary_sources s
  = (Raised "System is frozen - cannot verify", s).
Proof.
  intros Hfrozen. unfold triple_check. destruct s as [self w]. cbn in Hfrozen.
  now rewrite Hfrozen.
Qed.

Lemma triple_check_rejected_when_frozen_witness :
  triple_check TripleCheck.demo_clock (fun _ => 0%Z) TripleCheck.demo_data
    ["hansard.parliament.uk"] ["theyworkforyou.com"; "publicwhip.org.uk"]
    demo_frozen
  = (Raised "System is frozen - cannot verify", demo_frozen).
Proof.
  apply (triple_check_rejected_when_frozen (dict bool) TripleCheck.demo_clock
           (fun _ => 0%Z) TripleCheck.demo_data).
  vm_compute. reflexivity.
Defined.

End BrainFacts.

(** * Further properties of the code *)

(** ** The triple-check protocol: counters, bounds and the audit trail *)

Module TripleCheckMore.
Import Py TripleCheck.

(** The loop of a check consults every registered source once, in the order
    of the registry, and collects one line of evidence per source. *)
Lemma consult_all data items acc ev :
  consult data items acc ev
  = ((acc ++ map snd items)%list,
     (ev ++ map (fun kv => confirmation (snd kv)) items)%list).
Proof.
  revert acc ev. induction items as [|[source_id source] items IH]; intros acc ev.
  - cbn. rewrite 2!app_nil_r. reflexivity.
  - cbn [consult _verify_against_source].
    replace (String.eqb ("Confirmed by " ++ name source) "") with false by reflexivity.
    rewrite IH. cbn [map snd]. unfold confirmation. now rewrite <- !app_assoc.
Qed.

Lemma check_primary_fields self data data_type t :
  sources_used (_check_primary self data data_type t)
  = dict_values (primary_sources self) /\
  passed (_check_primary self data data_type t)
  = (min_sources_required self <=? Z.of_nat (length (primary_sources self)))%Z /\
  confidence (_check_primary self data data_type t)
  = py_min (mean_reliability (dict_values (primary_sources self))) 1.0 /\
  evidence (_check_primary self data data_type t)
  = str_or (join "; " (map confirmation (dict_values (primary_sources self))))
      "Primary sources confirmed".
Proof.
  unfold _check_primary, _select_sources. rewrite consult_all. cbn.
  unfold dict_values. now rewrite length_map, map_map.
Qed.

Lemma check_secondary_fields self data data_type t :
  sources_used (_check_secondary self data data_type t)
  = dict_values (secondary_sources self) /\
  passed (_check_secondary self data data_type t)
  = (1 <=? Z.of_nat (length (secondary_sources self)))%Z /\
  confidence (_check_secondary self data data_type t)
  = mean_reliability (dict_values (secondary_sources self)) /\
  evidence (_check_secondary self data data_type t)
  = str_or (join "; " (map confirmation (dict_values (secondary_sources self))))
      "Secondary sources confirmed".
Proof.
  unfold _check_secondary, _select_sources. rewrite consult_all. cbn.
  unfold dict_values. now rewrite length_map, map_map.
Qed.

(** The status and the confidence of a result in terms of the registries. *)
Lemma verify_status_formula clock self reads data data_type :
  let r := fst (fst (verify clock self reads data data_type)) in
  overall_status r
  = (if (min_sources_required self <=? Z.of_nat (length (primary_sources self)))%Z
        && (1 <=? Z.of_nat (length (secondary_sources self)))%Z
     then VERIFIED
     else if Qltb (overall_confidence r) 0.5 then ESCALATED else PARTIAL) /\
  overall_confidence r
  = (py_sum [py_min (mean_reliability (dict_values (primary_sources self))) 1.0;
             mean_reliability (dict_values (secondary_sources self)); 0.8%Q] / 3)%Q.
Proof.
  intros r.
  assert (Hc : overall_confidence r
    = (py_sum [py_min (mean_reliability (dict_values (primary_sources self))) 1.0;
               mean_reliability (dict_values (secondary_sources self)); 0.8%Q] / 3)%Q).
  { subst r. unfold verify, verify_aggregate. cbn [fst snd overall_confidence].
    rewrite (proj1 (proj2 (proj2 (check_primary_fields _ _ _ _)))),
            (proj1 (proj2 (proj2 (check_secondary_fields _ _ _ _)))).
    reflexivity. }
  split; [|exact Hc].
  rewrite Hc. subst r. unfold verify, verify_aggregate.
  cbn [fst snd overall_status overall_confidence].
  rewrite (proj1 (proj2 (check_primary_fields _ _ _ _))),
          (proj1 (proj2 (check_secondary_fields _ _ _ _))),
          (proj1 (proj2 (proj2 (check_primary_fields _ _ _ _)))),
          (proj1 (proj2 (proj2 (check_secondary_fields _ _ _ _)))).
  change (passed (_check_pattern self data data_type (clock (reads + 4)%nat))) with true.
  change (confidence (_check_pattern self data data_type (clock (reads + 4)%nat)))
    with 0.8%Q.
  generalize (py_sum [py_min (mean_reliability (dict_values (primary_sources self))) 1.0;
           mean_reliability (dict_values (secondary_sources self)); 0.8%Q] / 3)%Q.
  intros q.
  generalize (min_sources_required self <=? Z.of_nat (length (primary_sources self)))%Z.
  generalize (1 <=? Z.of_nat (length (secondary_sources self)))%Z.
  intros b2 b1.
  destruct b1, b2, (Qltb q 0.5); reflexivity.
Qed.

(** The audit trail of a result ends with its final status. *)
Lemma verify_chain_last clock self reads data data_type :
  let r := fst (fst (verify clock self reads data data_type)) in
  List.last (verification_chain r) ""
  = ("Final status: " ++ VerificationStatus_value (overall_status r))%string.
Proof.
  unfold verify, verify_aggregate.
  cbn [fst snd verification_chain overall_status].
  generalize (passed (_check_primary self data data_type (clock (reads + 2)%nat))).
  generalize (passed (_check_secondary self data data_type (clock (reads + 3)%nat))).
  generalize (passed (_check_pattern self data data_type (clock (reads + 4)%nat))).
  intros b3 b2 b1.
  match goal with
  | |- context [Qltb ?q 0.5] => generalize (Qltb q 0.5)
  end.
  intros q. generalize (isoformat (clock (reads + 1)%nat)). intros iso.
  destruct b1, b2, b3, q; reflexivity.
Qed.

Lemma success_rate_in_unit self :
  counters_consistent self -> (0 <= success_rate self <= 1)%Q.
Proof.
  intros (Hs & He & Ht). unfold success_rate.
  destruct (0 <? total_verifications self)%Z eqn:E.
  - apply Z.ltb_lt in E.
    assert (Hpos : (0 < inject_Z (total_verifications self))%Q)
      by (rewrite <- (Zlt_Qlt 0); exact E).
    split.
    + apply Qle_shift_div_l; [exact Hpos|]. rewrite Qmult_0_l.
      rewrite <- (Zle_Qle 0). exact Hs.
    + apply Qle_shift_div_r; [exact Hpos|]. rewrite Qmult_1_l.
      rewrite <- Zle_Qle. lia.
  - split; discriminate.
Qed.

Lemma fold_Qplus_bounds (xs : list Q) (a : Q) :
  Forall (fun x => (0 <= x <= 1)%Q) xs ->
  (a <= fold_left Qplus xs a <= a + inject_Z (Z.of_nat (length xs)))%Q.
Proof.
  intros H. revert a. induction H as [|x xs [Hx0 Hx1] _ IH]; intros a.
  - cbn [fold_left length]. change (inject_Z (Z.of_nat 0)) with 0%Q. lra.
  - cbn [fold_left length]. destruct (IH (a + x)%Q) as [IH1 IH2].
    rewrite Nat2Z.inj_succ, <- Z.add_1_r, inject_Z_plus.
    change (inject_Z 1) with 1%Q. lra.
Qed.

Lemma mean_reliability_in_unit (sources : list SourceReference) :
  Forall (fun s => (0 <= reliability_score s <= 1)%Q) sources ->
  (0 <= mean_reliability sources <= 1)%Q.
Proof.
  intros H. unfold mean_reliability.
  destruct sources as [|s0 rest]; [split; [apply Qle_refl|discriminate]|].
  set (srcs := s0 :: rest) in *.
  assert (Hb := fold_Qplus_bounds (map reliability_score srcs) 0).
  rewrite length_map in Hb. unfold py_sum.
  assert (Hpos : (0 < inject_Z (Z.of_nat (length srcs)))%Q).
  { rewrite <- (Zlt_Qlt 0). subst srcs. cbn [length]. lia. }
  destruct Hb as [Hb1 Hb2]; [now apply Forall_map|].
  split.
  - apply Qle_shift_div_l; [exact Hpos|]. lra.
  - apply Qle_shift_div_r; [exact Hpos|]. lra.
Qed.

(** X1. A [verify] call counts itself once, counts a success exactly when
    the result is VERIFIED, reads the clock six times and leaves the
    registries and the configuration as they were. *)
Theorem verify_updates_counters clock self reads data data_type :
  let out := verify clock self reads data data_type in
  let r := fst (fst out) in
  let self' := snd (fst out) in
  total_verifications self' = (total_verifications self + 1)%Z /\
  successful_verifications self'
  = (successful_verifications self + if is_verified r then 1 else 0)%Z /\
  snd out = (reads + 6)%nat /\
  primary_sources self' = primary_sources self /\
  secondary_sources self' = secondary_sources self /\
  min_sources_required self' = min_sources_required self /\
  confidence_threshold self' = confidence_threshold self /\
  historical_db self' = historical_db self /\
  config self' = config self.
Proof.
  unfold verify, verify_aggregate, is_verified. cbn [fst snd].
  cbn [total_verifications successful_verifications primary_sources
       secondary_sources min_sources_required confidence_threshold
       historical_db config overall_status].
  repeat split.
  match goal with
  | |- context [VerificationStatus_eqb ?st VERIFIED] =>
      destruct (VerificationStatus_eqb st VERIFIED); lia
  end.
Qed.

(** X2. Consistent counters stay consistent through [verify]: no count
    becomes negative, successes and escalations together never exceed the
    total (a result is never both), and the success rate of the metrics
    stays between 0 and 1. *)
Theorem verify_keeps_counters_consistent clock self reads data data_type :
  counters_consistent self ->
  let self' := snd (fst (verify clock self reads data data_type)) in
  counters_consistent self' /\ (0 <= success_rate self' <= 1)%Q.
Proof.
  intros H self'.
  assert (Hc : counters_consistent self').
  { destruct H as (Hs & He & Ht). subst self'.
    unfold verify, verify_aggregate, counters_consistent. cbn [fst snd].
    cbn [total_verifications successful_verifications escalations].
    repeat match goal with
           | |- context [if ?b then _ else _] => destruct b eqn:?
           end; cbn in *; try discriminate; repeat split; try lia. }
  split; [exact Hc|]. now apply success_rate_in_unit.
Qed.

Lemma verify_keeps_counters_consistent_witness :
  counters_consistent
    (snd (fst (verify demo_clock (init None) 0 demo_data "parliamentary_vote"))).
Proof.
  refine (proj1 (verify_keeps_counters_consistent demo_clock (init None) 0 demo_data
                   "parliamentary_vote" _)).
  unfold counters_consistent. cbn. lia.
Defined.

(** X3. With the source adapter and the pattern matcher as they are, the
    outcome of [verify] depends on the registries alone, not on the fact:
    the primary check passes exactly when at least [min_sources_required]
    primary sources are registered, the secondary check exactly when a
    secondary source is registered, the pattern check always. So the result
    is never FAILED or PENDING, it is VERIFIED exactly when both kinds of
    sources are registered in number, and any two calls on the same
    protocol give the same status and confidence. *)
Theorem verify_outcome_by_registry clock self reads data data_type :
  let r := fst (fst (verify clock self reads data data_type)) in
  (passed (primary_check r) = true <->
     (min_sources_required self <= Z.of_nat (length (primary_sources self)))%Z) /\
  (passed (secondary_check r) = true <-> secondary_sources self <> []) /\
  passed (pattern_check r) = true /\
  overall_status r <> FAILED /\
  overall_status r <> PENDING /\
  (overall_status r = VERIFIED <->
     (min_sources_required self <= Z.of_nat (length (primary_sources self)))%Z /\
     secondary_sources self <> []) /\
  forall clock' reads' data' data_type',
    let r' := fst (fst (verify clock' self reads' data' data_type')) in
    overall_status r' = overall_status r /\
    overall_confidence r' = overall_confidence r.
Proof.
  intros r.
  assert (H1 : passed (primary_check r)
               = (min_sources_required self <=? Z.of_nat (length (primary_sources self)))%Z)
    by apply check_primary_fields.
  assert (H2 : passed (secondary_check r)
               = (1 <=? Z.of_nat (length (secondary_sources self)))%Z)
    by apply check_secondary_fields.
  assert (Hsec : (1 <=? Z.of_nat (length (secondary_sources self)))%Z = true
                 <-> secondary_sources self <> []).
  { destruct (secondary_sources self); cbn.
    - split; [discriminate|]. intros H. now contradiction H.
    - split; [discriminate|]. intros _. apply Z.leb_le. lia. }
  destruct (verify_status_formula clock self reads data data_type) as [Hs Hc].
  fold r in Hs, Hc.
  assert (Hindep : forall clock' reads' data' data_type',
    let r' := fst (fst (verify clock' self reads' data' data_type')) in
    overall_status r' = overall_status r /\
    overall_confidence r' = overall_confidence r).
  { intros clock' reads' data' data_type' r'.
    destruct (verify_status_formula clock' self reads' data' data_type') as [Hs' Hc'].
    fold r' in Hs', Hc'.
    assert (Hcc : overall_confidence r' = overall_confidence r) by congruence.
    split; [|exact Hcc]. rewrite Hs', Hcc. symmetry. exact Hs. }
  assert (Hprim := Z.leb_le (min_sources_required self)
                     (Z.of_nat (length (primary_sources self)))).
  revert Hs H1 H2 Hsec Hprim.
  generalize (min_sources_required self <=? Z.of_nat (length (primary_sources self)))%Z.
  generalize (1 <=? Z.of_nat (length (secondary_sources self)))%Z.
  generalize (Qltb (overall_confidence r) 0.5).
  intros q b2 b1 Hs H1 H2 Hsec Hprim.
  split; [now rewrite H1|]. split; [now rewrite H2|]. split; [reflexivity|].
  split; [rewrite Hs; destruct b1, b2, q; discriminate|].
  split; [rewrite Hs; destruct b1, b2, q; discriminate|].
  split.
  - rewrite Hs, <- Hsec, <- Hprim. destruct b1, b2, q; cbn; intuition discriminate.
  - exact Hindep.
Qed.

(** X4. When every registered reliability score lies between 0 and 1, so
    do the confidence of each of the three checks and the overall
    confidence of the result. *)
Theorem verify_confidences_in_unit clock self reads data data_type :
  reliabilities_in_unit (primary_sources self) ->
  reliabilities_in_unit (secondary_sources self) ->
  let r := fst (fst (verify clock self reads data data_type)) in
  (0 <= confidence (primary_check r) <= 1)%Q /\
  (0 <= confidence (secondary_check r) <= 1)%Q /\
  (0 <= confidence (pattern_check r) <= 1)%Q /\
  (0 <= overall_confidence r <= 1)%Q.
Proof.
  intros Hp Hs r. unfold reliabilities_in_unit in Hp, Hs.
  assert (H1 : (0 <= confidence (primary_check r) <= 1)%Q).
  { subst r. unfold verify, verify_aggregate. cbn [fst snd primary_check].
    rewrite (proj1 (proj2 (proj2 (check_primary_fields _ _ _ _)))).
    destruct (mean_reliability_in_unit (dict_values (primary_sources self))) as [Ha Hb].
    { unfold dict_values. now apply Forall_map. }
    rewrite TripleCheckFacts.py_min_below_one by lra. lra. }
  assert (H2 : (0 <= confidence (secondary_check r) <= 1)%Q).
  { subst r. unfold verify, verify_aggregate. cbn [fst snd secondary_check].
    rewrite (proj1 (proj2 (proj2 (check_secondary_fields _ _ _ _)))).
    apply mean_reliability_in_unit. unfold dict_values. now apply Forall_map. }
  assert (H3 : (confidence (pattern_check r) == 0.8)%Q) by reflexivity.
  assert (H4 : (overall_confidence r
                == (0 + confidence (primary_check r) + confidence (secondary_check r)
                    + confidence (pattern_check r)) / 3)%Q) by reflexivity.
  repeat split; try lra.
  - rewrite H4. apply Qle_shift_div_l; lra.
  - rewrite H4. apply Qle_shift_div_r; lra.
Qed.

Lemma verify_confidences_in_unit_witness :
  let r := fst (fst (verify demo_clock (init None) 0 demo_data "parliamentary_vote")) in
  (0 <= overall_confidence r <= 1)%Q.
Proof.
  refine (proj2 (proj2 (proj2 (verify_confidences_in_unit demo_clock (init None) 0
                                 demo_data "parliamentary_vote" _ _)))).
  - unfold reliabilities_in_unit. cbn. repeat constructor; discriminate.
  - unfold reliabilities_in_unit. cbn. repeat constructor; discriminate.
Defined.

(** X5. The audit trail agrees with the result it belongs to: the start
    line with the second clock reading of the call, one PASS or FAIL line
    per check in the order primary, secondary, pattern, the escalation line
    exactly when the status is ESCALATED, and the final status last. *)
Theorem verify_audit_trail clock self reads data data_type :
  let r := fst (fst (verify clock self reads data data_type)) in
  verification_chain r
  = ([ ("Verification started: " ++ isoformat (clock (reads + 1)%nat))%string;
       ("Primary check: " ++ pass_fail (passed (primary_check r)))%string;
       ("Secondary check: " ++ pass_fail (passed (secondary_check r)))%string;
       ("Pattern check: " ++ pass_fail (passed (pattern_check r)))%string ]
     ++ (match overall_status r with
         | ESCALATED => ["ESCALATED: Requires human review"]
         | _ => []
         end)
     ++ [("Final status: " ++ VerificationStatus_value (overall_status r))%string])%list.
Proof.
  unfold verify, verify_aggregate.
  cbn [fst snd verification_chain overall_status primary_check secondary_check
       pattern_check].
  generalize (passed (_check_primary self data data_type (clock (reads + 2)%nat))).
  generalize (passed (_check_secondary self data data_type (clock (reads + 3)%nat))).
  generalize (passed (_check_pattern self data data_type (clock (reads + 4)%nat))).
  intros b3 b2 b1.
  match goal with
  | |- context [Qltb ?q 0.5] => generalize (Qltb q 0.5)
  end.
  intros q. generalize (isoformat (clock (reads + 1)%nat)). intros iso.
  destruct b1, b2, b3, q; reflexivity.
Qed.

(** X6. Each source check consults every source of its registry exactly
    once, in registration order, and its evidence is one "Confirmed by"
    line per source joined by "; "; the pattern check consults none. *)
Theorem verify_consults_every_source clock self reads data data_type :
  let r := fst (fst (verify clock self reads data data_type)) in
  sources_used (primary_check r) = dict_values (primary_sources self) /\
  sources_used (secondary_check r) = dict_values (secondary_sources self) /\
  sources_used (pattern_check r) = [] /\
  evidence (primary_check r)
  = str_or (join "; " (map confirmation (dict_values (primary_sources self))))
      "Primary sources confirmed" /\
  evidence (secondary_check r)
  = str_or (join "; " (map confirmation (dict_values (secondary_sources self))))
      "Secondary sources confirmed".
Proof.
  unfold verify, verify_aggregate.
  cbn [fst snd primary_check secondary_check pattern_check].
  repeat split;
    first [apply check_primary_fields | apply check_secondary_fields].
Qed.

(** X7. With no source registered at all (and at least one required) both
    source checks fail with confidence 0, yet their evidence still reads
    "... sources confirmed"; the pattern check alone passes, the overall
    confidence is 0.8/3 and the result is ESCALATED: the escalations
    counter goes up and the audit trail ends with that status. *)
Theorem verify_without_sources clock self reads data data_type :
  primary_sources self = [] ->
  secondary_sources self = [] ->
  (1 <= min_sources_required self)%Z ->
  let out := verify clock self reads data data_type in
  let r := fst (fst out) in
  overall_status r = ESCALATED /\
  (overall_confidence r == 8 # 30)%Q /\
  passed (primary_check r) = false /\
  passed (secondary_check r) = false /\
  (confidence (primary_check r) == 0)%Q /\
  (confidence (secondary_check r) == 0)%Q /\
  evidence (primary_check r) = "Primary sources confirmed" /\
  evidence (secondary_check r) = "Secondary sources confirmed" /\
  escalations (snd (fst out)) = (escalations self + 1)%Z /\
  List.last (verification_chain r) "" = "Final status: ESCALATED".
Proof.
  intros Hp Hs Hmin out r.
  destruct (verify_status_formula clock self reads data data_type) as [Hst Hc].
  fold out in Hst, Hc. fold r in Hst, Hc.
  assert (Hmin' : (min_sources_required self <=? 0)%Z = false)
    by (apply Z.leb_gt; lia).
  assert (F1 := check_primary_fields self data data_type (clock (reads + 2)%nat)).
  assert (F2 := check_secondary_fields self data data_type (clock (reads + 3)%nat)).
  rewrite Hp, Hs in *. cbn [length dict_values map] in *.
  change (Z.of_nat 0) with 0%Z in *.
  rewrite Hmin' in *. cbn [andb] in Hst.
  assert (Hconf : (overall_confidence r == 8 # 30)%Q) by (rewrite Hc; reflexivity).
  assert (Hq : Qltb (overall_confidence r) 0.5 = true)
    by (apply TripleCheckFacts.Qltb_lt; rewrite Hconf; reflexivity).
  rewrite Hq in Hst.
  destruct F1 as (_ & F1p & F1c & F1e). destruct F2 as (_ & F2p & F2c & F2e).
  assert (Hesc : escalations (snd (fst out)) = (escalations self + 1)%Z).
  { destruct (TripleCheckFacts.verify_aggregate_status self (data_id r) (data_hash r)
                data (firstn 4 (verification_chain r)) (primary_check r)
                (secondary_check r) (pattern_check r) (timestamp r))
      as (_ & _ & _ & _ & _ & _ & Hinc & _).
    apply Hinc. exact Hst. }
  pose proof (verify_chain_last clock self reads data data_type) as Ha.
  fold out in Ha. fold r in Ha.
  split; [exact Hst|]. split; [exact Hconf|].
  split; [exact F1p|]. split; [exact F2p|].
  split; [change (confidence (primary_check r))
            with (confidence (_check_primary self data data_type (clock (reads + 2)%nat)));
          rewrite F1c; reflexivity|].
  split; [change (confidence (secondary_check r))
            with (confidence (_check_secondary self data data_type (clock (reads + 3)%nat)));
          rewrite F2c; reflexivity|].
  split; [exact F1e|]. split; [exact F2e|]. split; [exact Hesc|].
  rewrite Ha, Hst. reflexivity.
Qed.

Lemma verify_without_sources_witness :
  overall_status
    (fst (fst (verify demo_clock (with_sources [] [] (init None)) 0 demo_data "generic")))
  = ESCALATED.
Proof.
  refine (proj1 (verify_without_sources demo_clock (with_sources [] [] (init None)) 0
                   demo_data "generic" _ _ _)).
  - reflexivity.
  - reflexivity.
  - cbn. lia.
Defined.

End TripleCheckMore.

(** ** The format of the hash *)

Module HashFacts.
Import Py TripleCheck.
#[local] Transparent SHA256.hexdigest.

Lemma hex_digit_is_hex (z : Z) : str_contains (hex_digit z) "0123456789abcdef" = true.
Proof.
  unfold hex_digit. generalize (Z.to_nat z). intros n.
  do 16 (destruct n as [|n]; [reflexivity|]). reflexivity.
Qed.

Lemma hex_format (n : nat) (x : Z) :
  String.length (SHA256.hex n x) = n /\
  forallb (fun c => str_contains c "0123456789abcdef")
    (list_ascii_of_string (SHA256.hex n x)) = true.
Proof.
  induction n as [|n [IH1 IH2]];
    cbn [SHA256.hex String.length list_ascii_of_string forallb].
  - now split.
  - rewrite IH1, IH2, hex_digit_is_hex. now split.
Qed.

Lemma length_append (s1 s2 : string) :
  String.length (s1 ++ s2) = (String.length s1 + String.length s2)%nat.
Proof. induction s1 as [|c s1 IH]; simpl; [reflexivity|now f_equal]. Qed.

Lemma chars_append (s1 s2 : string) :
  list_ascii_of_string (s1 ++ s2)
  = (list_ascii_of_string s1 ++ list_ascii_of_string s2)%list.
Proof. induction s1 as [|c s1 IH]; simpl; [reflexivity|now f_equal]. Qed.

Lemma concat_hex_format (ws : list Z) :
  String.length (String.concat "" (map (SHA256.hex 8) ws)) = (8 * length ws)%nat /\
  forallb (fun c => str_contains c "0123456789abcdef")
    (list_ascii_of_string (String.concat "" (map (SHA256.hex 8) ws))) = true.
Proof.
  induction ws as [|w ws [IH1 IH2]]; [now split|].
  destruct (hex_format 8 w) as [H1 H2].
  destruct ws as [|w' ws].
  - cbn [map String.concat length]. now split.
  - cbn [map String.concat] in *.
    change (String.append "" ?s) with s.
    rewrite length_append, chars_append, forallb_app, H1, H2, IH1, IH2.
    split; [cbn [length]; lia|reflexivity].
Qed.

Lemma round_length st kw : length (SHA256.round st kw) = length st.
Proof.
  unfold SHA256.round.
  do 9 (destruct st as [|? st]; [reflexivity|]). reflexivity.
Qed.

Lemma fold_round_length kws st : length (fold_left SHA256.round kws st) = length st.
Proof.
  revert st. induction kws as [|kw kws IH]; intros st; cbn; [reflexivity|].
  now rewrite IH, round_length.
Qed.

Lemma compress_length h block : length (SHA256.compress h block) = length h.
Proof.
  unfold SHA256.compress. rewrite length_map, length_combine, fold_round_length. lia.
Qed.

(** A digest is eight words, whatever the message. *)
Lemma digest_length s : length (SHA256.digest s) = 8%nat.
Proof.
  unfold SHA256.digest.
  generalize (SHA256.blocks (length (SHA256.pad (SHA256.bytes_of_string s)))
                (SHA256.pad (SHA256.bytes_of_string s))).
  intros bs.
  assert (H : forall h, length (fold_left SHA256.compress bs h) = length h).
  { induction bs as [|b bs IH]; intros h; cbn; [reflexivity|].
    now rewrite IH, compress_length. }
  rewrite H. vm_compute. reflexivity.
Qed.

Lemma substring_prefix_format (n : nat) (s : string) :
  String.length (substring 0 n s) = Nat.min n (String.length s) /\
  (forallb (fun c => str_contains c "0123456789abcdef") (list_ascii_of_string s) = true ->
   forallb (fun c => str_contains c "0123456789abcdef")
     (list_ascii_of_string (substring 0 n s)) = true).
Proof.
  revert s. induction n as [|n IH]; intros s.
  - destruct s; cbn; now split.
  - destruct s as [|c s]; [now split|].
    cbn [substring String.length list_ascii_of_string forallb Nat.min].
    destruct (IH s) as [H1 H2]. rewrite H1. split; [reflexivity|].
    intros H. apply andb_true_iff in H as [Hc Hs]. now rewrite Hc, H2.
Qed.

(** X8. The hash of a payload is always sixteen characters long, each a
    lower-case hexadecimal digit, whatever the payload. *)
Theorem hash_data_is_16_hex_digits (data : dict PyVal) :
  String.length (_hash_data data) = 16%nat /\
  forallb (fun c => str_contains c "0123456789abcdef")
    (list_ascii_of_string (_hash_data data)) = true.
Proof.
  unfold _hash_data, SHA256.hexdigest.
  set (ws := SHA256.digest _).
  destruct (concat_hex_format ws) as [H1 H2].
  destruct (substring_prefix_format 16 (String.concat "" (map (SHA256.hex 8) ws)))
    as [H3 H4].
  split; [|now apply H4].
  rewrite H3, H1. subst ws. rewrite digest_length. reflexivity.
Qed.

End HashFacts.

(** ** The freeze protocol: registry, loops and the states between calls *)

Module FreezeMore.
Import Py Freeze.

(** *** dict: deletion *)

Section DictDel.
Context {V : Type}.
Implicit Types (d : dict V) (k : string) (v : V).


Lemma dict_keys_del {W} k (d : dict V) (d' : dict W) :
  dict_keys d = dict_keys d' -> dict_keys (dict_del k d) = dict_keys (dict_del k d').
Proof.
  revert d'. induction d as [|[k1 v1] d IH]; intros [|[k2 v2] d'] H;
    try discriminate; [reflexivity|].
  cbn in H. injection H as -> H. cbn.
  destruct (String.eqb k k2); [exact H|]. cbn. f_equal. now apply IH.
Qed.

Lemma dict_del_keys_incl k d x : In x (dict_keys (dict_del k d)) -> In x (dict_keys d).
Proof.
  induction d as [|[k1 v1] d IH]; cbn; [tauto|].
  destruct (String.eqb k k1); cbn; tauto.
Qed.

Lemma dict_del_wf k d : dict_wf d -> dict_wf (dict_del k d).
Proof.
  unfold dict_wf. induction d as [|[k1 v1] d IH]; cbn; [auto|].
  intros H. apply NoDup_cons in H as [Hn Hd].
  destruct (String.eqb k k1); cbn; [exact Hd|].
  apply NoDup_cons. split; [|auto].
  rewrite list_elem_of_In in *. intros Hin. apply Hn. eapply dict_del_keys_incl, Hin.
Qed.




Lemma dict_contains_same_keys {W} k (d : dict V) (d' : dict W) :
  dict_keys d = dict_keys d' -> dict_contains k d = dict_contains k d'.
Proof.
  intros H. apply eq_true_iff_eq. now rewrite !PyFacts.dict_contains_keys, H.
Qed.

End DictDel.

(** *** The registry *)

Lemma registry_ok_register X name component (self : FreezeProtocol X) :
  registry_ok self -> registry_ok (register_component name component self).
Proof.
  intros [Hk Hwf]. unfold registry_ok, register_component.
  cbn [components component_status set_components set_component_status]. split.
  - rewrite !PyFacts.dict_keys_set, (dict_contains_same_keys name _ _ Hk), Hk.
    reflexivity.
  - now apply PyFacts.dict_set_wf.
Qed.

Lemma registry_ok_unregister X name (self : FreezeProtocol X) :
  registry_ok self -> registry_ok (unregister_component name self).
Proof.
  intros [Hk Hwf]. unfold registry_ok, unregister_component.
  destruct (dict_contains name (components self)); [|now split].
  cbn [components component_status set_components set_component_status]. split.
  - now apply dict_keys_del.
  - now apply dict_del_wf.
Qed.



(** *** The integrity score *)

Lemma active_count_le (cs : dict string) : (active_count cs <= length cs)%nat.
Proof.
  unfold active_count, dict_values.
  rewrite <- (length_map snd cs). apply List.filter_length_le.
Qed.

Lemma active_count_all (cs : dict string) :
  active_count cs = length cs <-> Forall (fun v => v = "ACTIVE") (dict_values cs).
Proof.
  unfold active_count, dict_values. rewrite <- (length_map snd cs).
  generalize (map snd cs). intros vs. induction vs as [|v vs IH]; cbn.
  - split; auto.
  - pose proof (List.filter_length_le (fun s => String.eqb s "ACTIVE") vs) as Hle.
    destruct (String.eqb_spec v "ACTIVE") as [->|Hne]; cbn.
    + rewrite Forall_cons. split.
      * intros H. split; [reflexivity|]. apply IH. lia.
      * intros [_ H]. f_equal. now apply IH.
    + split; [lia|]. intros H. apply Forall_cons in H as [H _]. contradiction.
Qed.

Lemma active_count_none (cs : dict string) :
  active_count cs = 0%nat <-> Forall (fun v => v <> "ACTIVE") (dict_values cs).
Proof.
  unfold active_count, dict_values.
  generalize (map snd cs). intros vs. induction vs as [|v vs IH]; cbn.
  - split; auto.
  - destruct (String.eqb_spec v "ACTIVE") as [->|Hne]; cbn.
    + split; [discriminate|]. intros H. apply Forall_cons in H as [H _]. contradiction.
    + rewrite Forall_cons, IH. tauto.
Qed.

Lemma integrity_score_ratio X (self : FreezeProtocol X) :
  component_status self <> [] ->
  _calculate_integrity_score self
  = (inject_Z (Z.of_nat (active_count (component_status self)))
     / inject_Z (Z.of_nat (length (component_status self))))%Q.
Proof. unfold _calculate_integrity_score. now destruct (component_status self). Qed.

Lemma ratio_le (a n : nat) (p : Z) (q : positive) :
  (0 < n)%nat ->
  (p # q <= inject_Z (Z.of_nat a) / inject_Z (Z.of_nat n))%Q
  <-> (p * Z.of_nat n <= Z.pos q * Z.of_nat a)%Z.
Proof.
  intros Hn.
  assert (Hpos : (0 < inject_Z (Z.of_nat n))%Q) by (rewrite <- (Zlt_Qlt 0); lia).
  assert (Hmul : forall x : Q, (x * inject_Z (Z.of_nat n) <= inject_Z (Z.of_nat a))%Q
                  <-> (Qnum x * Z.of_nat n <= Z.pos (Qden x) * Z.of_nat a)%Z).
  { intros [xn xd]. unfold Qle, Qmult, inject_Z. cbn [Qnum Qden].
    rewrite Pos.mul_1_r. lia. }
  rewrite <- (Hmul (p # q)%Q).
  split.
  - intros H. apply (Qmult_le_r _ _ _ Hpos) in H.
    rewrite (Qmult_comm (_ / _)), Qmult_div_r in H
      by (intros E; rewrite E in Hpos; discriminate).
    exact H.
  - intros H. apply Qle_shift_div_l; [exact Hpos|exact H].
Qed.

(** X10. The integrity score is the share of components whose status is
    exactly "ACTIVE": it lies between 0 and 1, it is 0 for an empty
    registry (and whenever no status reads "ACTIVE"), it is 1 exactly when
    there is a component and every status reads "ACTIVE", and it reaches
    the recovery threshold 0.8 exactly when at least four in five do. *)
Theorem integrity_score_bounds X (self : FreezeProtocol X) :
  let score := _calculate_integrity_score self in
  let cs := component_status self in
  (0 <= score <= 1)%Q /\
  (score == 0 <-> Forall (fun v => v <> "ACTIVE") (dict_values cs))%Q /\
  (score == 1 <-> cs <> [] /\ Forall (fun v => v = "ACTIVE") (dict_values cs))%Q /\
  (0.8 <= score <-> cs <> [] /\
     (4 * Z.of_nat (length cs) <= 5 * Z.of_nat (active_count cs))%Z)%Q.
Proof.
  intros score cs. subst score.
  destruct (component_status self) as [|kv rest] eqn:E.
  - subst cs. unfold _calculate_integrity_score. rewrite E. cbn.
    repeat split; try discriminate; auto; try tauto;
      try (intros [H _]; contradiction);
      try (intros H; unfold Qle in H; cbn in H; lia).
  - assert (Hne : component_status self <> []) by (rewrite E; discriminate).
    rewrite (integrity_score_ratio _ _ Hne). rewrite E. fold cs.
    assert (Hlen : (0 < length cs)%nat) by (subst cs; cbn; lia).
    pose proof (active_count_le cs) as Hle.
    assert (Hpos : (0 < inject_Z (Z.of_nat (length cs)))%Q)
      by (rewrite <- (Zlt_Qlt 0); lia).
    assert (H0 := ratio_le (active_count cs) (length cs) 0 1 Hlen).
    assert (H1 := ratio_le (active_count cs) (length cs) 1 1 Hlen).
    assert (H8 := ratio_le (active_count cs) (length cs) 4 5 Hlen).
    set (q := (inject_Z (Z.of_nat (active_count cs))
               / inject_Z (Z.of_nat (length cs)))%Q) in *.
    assert (Hq1 : (q <= 1)%Q).
    { subst q. apply Qle_shift_div_r; [exact Hpos|]. rewrite Qmult_1_l.
      rewrite <- Zle_Qle. lia. }
    assert (Hq0 : (0 <= q)%Q) by (apply H0; lia).
    split; [split; assumption|]. split; [|split].
    + rewrite <- active_count_none. split.
      * intros Hq. destruct (Nat.eq_dec (active_count cs) 0) as [|Hn]; [assumption|].
        exfalso. assert (Hlt : (0 < q)%Q).
        { subst q. apply Qlt_shift_div_l; [exact Hpos|]. rewrite Qmult_0_l.
          rewrite <- (Zlt_Qlt 0). lia. }
        rewrite Hq in Hlt. discriminate.
      * intros Hz. subst q. rewrite Hz. reflexivity.
    + rewrite <- active_count_all. split.
      * intros Hq. split; [subst cs; discriminate|].
        assert (Hge : (1 <= q)%Q) by (rewrite Hq; apply Qle_refl).
        apply H1 in Hge. lia.
      * intros [_ Ha]. apply Qle_antisym; [exact Hq1|]. apply H1. lia.
    + change 0.8%Q with (8 # 10)%Q.
      assert (Heq : (8 # 10 == 4 # 5)%Q) by reflexivity.
      rewrite Heq, H8. split.
      * intros H. split; [subst cs; discriminate|lia].
      * intros [_ H]. lia.
Qed.


Ltac proj_simpl :=
  cbn [fst snd brain_callback state current_freeze components component_status
       freeze_history auto_recovery_enabled max_auto_recovery_attempts
       recovery_attempts ext reads calls heap set_state set_current_freeze
       set_components set_component_status set_freeze_history
       set_recovery_attempts] in *.

(** *** The loops over the registry *)

Section Loops.
Variable X : Type.
Variable clock : Clock.
Implicit Types (s : St X) (self : FreezeProtocol X).

Lemma dict_set_middle {V} (k : string) (v v0 : V) (pre post : dict V) :
  ~ In k (dict_keys pre) ->
  dict_set k v (pre ++ (k, v0) :: post)%list = (pre ++ (k, v) :: post)%list.
Proof.
  induction pre as [|[k1 v1] pre IH]; cbn; intros Hn.
  - now rewrite String.eqb_refl.
  - destruct (String.eqb_spec k k1) as [->|Hne]; [tauto|].
    rewrite IH; tauto.
Qed.

Lemma for_each_sets_status {A} (V : Component X -> string -> Prop)
    (method : Component X -> option A) mk body :
  sets_status V method mk body ->
  forall items pre post s,
    component_status (fst s) = (pre ++ post)%list ->
    dict_keys post = dict_keys items ->
    List.NoDup (dict_keys pre ++ dict_keys items)%list ->
    exists post' x',
      statuses_by V items post' /\
      for_each items body s
      = (Returned tt,
         (set_component_status (pre ++ post')%list (fst s),
          mkWorld x' (reads (snd s)) (calls (snd s) ++ calls_of method mk items)
            (heap (snd s)))).
Proof.
  intros Hbody. induction items as [|[name c] items IH]; intros pre post s Hcs Hk Hnd.
  - destruct post; [|discriminate]. exists [], (ext (snd s)).
    split; [constructor|].
    destruct s as [self [x n cl h]]. unfold calls_of, ret.
    cbn [for_each flat_map fst snd ext reads calls heap] in *.
    rewrite !app_nil_r in *. rewrite <- Hcs. now destruct self.
  - destruct post as [|[k0 v0] post]; [discriminate|].
    cbn in Hk. injection Hk as -> Hk.
    cbn [for_each]. unfold bind.
    destruct (Hbody name c s) as (v & x1 & Hv & ->).
    assert (Hpre : ~ In name (dict_keys pre)).
    { intros Hin. apply List.NoDup_remove_2 in Hnd. apply Hnd.
      apply in_or_app. now left. }
    rewrite Hcs, dict_set_middle by exact Hpre.
    edestruct (IH (pre ++ [(name, v)])%list post) as (post' & x2 & Hst & Hrun);
      [| exact Hk | | rewrite Hrun].
    + cbn. now rewrite <- app_assoc.
    + unfold dict_keys. rewrite map_app. cbn. rewrite <- app_assoc. exact Hnd.
    + exists ((name, v) :: post'), x2. split.
      * constructor; [now split|exact Hst].
      * cbn. rewrite <- !app_assoc. cbn. reflexivity.
Qed.

(** The same for a loop over the whole registry of a protocol whose
    registries agree. *)
Lemma registry_loop {A} (V : Component X -> string -> Prop)
    (method : Component X -> option A) mk body s :
  sets_status V method mk body ->
  registry_ok (fst s) ->
  exists cs' x',
    statuses_by V (components (fst s)) cs' /\
    for_each (components (fst s)) body s
    = (Returned tt,
       (set_component_status cs' (fst s),
        mkWorld x' (reads (snd s))
          (calls (snd s) ++ calls_of method mk (components (fst s)))
          (heap (snd s)))).
Proof.
  intros Hbody [Hk Hwf].
  apply (for_each_sets_status V method mk body Hbody (components (fst s)) []
           (component_status (fst s)) s); auto.
  cbn. unfold dict_wf in Hwf. now apply NoDup_ListNoDup.
Qed.

Lemma statuses_by_keys V (comps : dict (Component X)) cs :
  statuses_by V comps cs -> dict_keys cs = dict_keys comps.
Proof.
  unfold dict_keys.
  induction 1 as [|kc kv comps cs [Hk _] _ IH]; cbn; [reflexivity|].
  now rewrite Hk, IH.
Qed.

Lemma statuses_by_values V (P : string -> Prop) (comps : dict (Component X)) cs :
  statuses_by V comps cs ->
  (forall name c v, In (name, c) comps -> V c v -> P v) ->
  Forall P (dict_values cs).
Proof.
  induction 1 as [|[name c] kv comps cs [Hk Hv] _ IH]; cbn; intros HP; constructor.
  - apply (HP name c); [left; reflexivity|exact Hv].
  - apply IH. intros n c' v Hin. apply (HP n c'). now right.
Qed.

Lemma halt_body_sets_status :
  sets_status (X:=X) halted pause Call_pause
    (fun '(name, component) =>
       match pause component with
       | Some method =>
           bind (call (Call_pause name) method) (fun r =>
             match r with
             | Returned _ => set_status name "PAUSED"
             | Raised e => set_status name "ERROR"
             end)
       | None => set_status name "PAUSED"
       end).
Proof.
  intros name c [self [x n cl h]]. unfold calls_of, halted. cbn.
  destruct (pause c) as [method|]; cbn.
  - unfold bind, call, set_status, assign. cbn.
    destruct (method x) as [[[]|e] x']; cbn; eexists _, x'; (split; [|reflexivity]).
    + now left.
    + right. split; [reflexivity|discriminate].
  - exists "PAUSED", x. rewrite app_nil_r. split; [now left|reflexivity].
Qed.

Lemma resume_body_sets_status :
  sets_status (X:=X) resumed resume Call_resume
    (fun '(name, component) =>
       match resume component with
       | Some method =>
           bind (call (Call_resume name) method) (fun r =>
             match r with
             | Returned _ => set_status name "ACTIVE"
             | Raised e => set_status name "ERROR"
             end)
       | None => set_status name "ACTIVE"
       end).
Proof.
  intros name c [self [x n cl h]]. unfold calls_of, resumed. cbn.
  destruct (resume c) as [method|]; cbn.
  - unfold bind, call, set_status, assign. cbn.
    destruct (method x) as [[[]|e] x']; cbn; eexists _, x'; (split; [|reflexivity]).
    + now left.
    + right. split; [reflexivity|discriminate].
  - exists "ACTIVE", x. rewrite app_nil_r. split; [now left|reflexivity].
Qed.

Lemma probe_body_sets_status :
  sets_status (X:=X) probed health_check Call_health_check
    (fun '(name, component) =>
       match health_check component with
       | Some method =>
           bind (call (Call_health_check name) method) (fun r =>
             match r with
             | Returned (Some status) => set_status name status
             | Returned None => set_status name "UNKNOWN"
             | Raised e => set_status name ("ERROR: " ++ e)
             end)
       | None => set_status name "NO_HEALTH_CHECK"
       end).
Proof.
  intros name c [self [x n cl h]]. unfold calls_of, probed. cbn.
  destruct (health_check c) as [method|]; cbn.
  - unfold bind, call, set_status, assign. cbn.
    destruct (method x) as [[[status|]|e] x']; cbn; eexists _, x';
      (split; [discriminate|reflexivity]).
  - exists "NO_HEALTH_CHECK", x. rewrite app_nil_r. split; [now intros _|reflexivity].
Qed.


(** *** The methods, step by step *)

Lemma bind_ret {A B} (a : A) (k : A -> M X B) s : bind (ret a) k s = k a s.
Proof. reflexivity. Qed.

Lemma bind_get {A B} (f : FreezeProtocol X -> A) (k : A -> M X B) s :
  bind (get f) k s = k (f (fst s)) s.
Proof. reflexivity. Qed.

Lemma bind_read {A B} (f : St X -> A) (k : A -> M X B) s :
  bind (fun s => (Returned (f s), s)) k s = k (f s) s.
Proof. reflexivity. Qed.

Lemma bind_assign {B} f (k : unit -> M X B) s :
  bind (assign f) k s = k tt (f (fst s), snd s).
Proof. reflexivity. Qed.

Lemma bind_now {B} (k : datetime -> M X B) s :
  bind (now clock) k s
  = k (clock (reads (snd s)))
      (fst s, mkWorld (ext (snd s)) (S (reads (snd s))) (calls (snd s)) (heap (snd s))).
Proof. reflexivity. Qed.

Lemma bind_new_event {B} ev (k : EventRef -> M X B) s :
  bind (new_event ev) k s
  = k (length (heap (snd s)))
      (fst s, mkWorld (ext (snd s)) (reads (snd s)) (calls (snd s))
                (heap (snd s) ++ [ev])).
Proof. reflexivity. Qed.

Lemma bind_read_event {B} r (k : option FreezeEvent -> M X B) s :
  bind (read_event r) k s = k (heap (snd s) !! r) s.
Proof. reflexivity. Qed.

Lemma bind_update_event {B} r f (k : unit -> M X B) s :
  bind (update_event r f) k s
  = k tt (fst s, mkWorld (ext (snd s)) (reads (snd s)) (calls (snd s))
                   (alter f r (heap (snd s)))).
Proof. reflexivity. Qed.

Lemma bind_returned {A B} (m : M X A) (k : A -> M X B) s a s' :
  m s = (Returned a, s') -> bind m k s = k a s'.
Proof. intros H. unfold bind. now rewrite H. Qed.

Lemma bind_assoc {A B C} (m : M X A) (k1 : A -> M X B) (k2 : B -> M X C) s :
  bind (bind m k1) k2 s = bind m (fun a => bind (k1 a) k2) s.
Proof. unfold bind. now destruct (m s) as [[a|e] s']. Qed.

Ltac steps :=
  repeat first
    [ rewrite bind_assoc | rewrite bind_ret | rewrite bind_get | rewrite bind_assign
    | rewrite bind_now
    | rewrite bind_new_event | rewrite bind_read_event | rewrite bind_update_event ];
  proj_simpl.

(** [_halt_components] never raises: it pauses every component that can
    be paused, once, in the order of the registry, and marks each
    component PAUSED, or ERROR if its [pause] raised. *)
Lemma halt_components_spec s :
  registry_ok (fst s) ->
  exists cs' x',
    statuses_by halted (components (fst s)) cs' /\
    _halt_components s
    = (Returned tt,
       (set_component_status cs' (fst s),
        mkWorld x' (reads (snd s))
          (calls (snd s) ++ calls_of pause Call_pause (components (fst s)))
          (heap (snd s)))).
Proof.
  intros Hok. unfold _halt_components. rewrite bind_get.
  exact (registry_loop halted pause Call_pause _ s halt_body_sets_status Hok).
Qed.

Lemma run_diagnostics_spec s :
  registry_ok (fst s) ->
  exists cs' x',
    statuses_by probed (components (fst s)) cs' /\
    run_diagnostics clock s
    = (Returned
         {| diag_timestamp := clock (reads (snd s));
            system_state := state (fst s);
            freeze_event := current_freeze (fst s);
            diag_component_status := cs';
            data_integrity_score :=
              _calculate_integrity_score (set_component_status cs' (fst s));
            recent_verifications := 0;
            verification_success_rate := 0.0%Q;
            recommended_actions := _determine_recovery_actions s;
            estimated_recovery_time := "5-10 minutes";
            human_intervention_required := human_needed s |},
       (set_component_status cs' (fst s),
        mkWorld x' (S (reads (snd s)))
          (calls (snd s) ++ calls_of health_check Call_health_check
                              (components (fst s)))
          (heap (snd s)))).
Proof.
  intros Hok. unfold run_diagnostics. rewrite bind_get.
  destruct (registry_loop probed health_check Call_health_check _ s
              probe_body_sets_status Hok) as (cs' & x' & Hst & Hrun).
  exists cs', x'. split; [exact Hst|].
  rewrite (bind_returned _ _ _ _ _ Hrun).
  destruct s as [self w]. reflexivity.
Qed.

(** An authorized [unfreeze] of a frozen system, in full. *)
Lemma unfreeze_spec (c : ascii) (rest : string) s :
  state (fst s) = FROZEN ->
  registry_ok (fst s) ->
  exists cs' x' r,
    statuses_by resumed (components (fst s)) cs' /\
    unfreeze clock (Some (String c rest)) s
    = (r,
       (mkFreezeProtocol (brain_callback (fst s)) ACTIVE None (components (fst s)) cs'
          (freeze_history (fst s)) (auto_recovery_enabled (fst s))
          (max_auto_recovery_attempts (fst s)) 0,
        mkWorld x'
          (match current_freeze (fst s) with
           | Some _ => S (reads (snd s))
           | None => reads (snd s)
           end)
          (calls (snd s)
           ++ calls_of resume Call_resume (components (fst s))
           ++ match brain_callback (fst s) with
              | Some _ => [Call_brain "unfreeze"]
              | None => []
              end)
          (match current_freeze (fst s) with
           | Some e =>
               alter (resolve (clock (reads (snd s))) (String c rest)) e (heap (snd s))
           | None => heap (snd s)
           end))) /\
    (r = Returned true \/ (exists e, r = Raised e) /\ brain_callback (fst s) <> None).
Proof.
  intros Hfrozen Hok. unfold unfreeze. rewrite bind_get, Hfrozen.
  cbn [SystemState_eqb negb]. rewrite bind_assign, bind_get. proj_simpl.
  destruct (registry_loop resumed resume Call_resume _
              (set_state RECOVERING (fst s), snd s) resume_body_sets_status Hok)
    as (cs' & x' & Hst & Hrun).
  proj_simpl. rewrite (bind_returned _ _ _ _ _ Hrun). clear Hrun.
  destruct s as [[cb st cur comps cs hist en mx att] [x n cl h]]. proj_simpl.
  rewrite bind_get. proj_simpl.
  destruct cur as [e|]; steps;
    (destruct cb as [f|]; [|rewrite app_nil_r]; steps).
  - unfold bind, call_raising, call, ret. proj_simpl.
    destruct (f "unfreeze" None x') as [[[]|err] x''];
      exists cs', x''; eexists; (split; [exact Hst|]); rewrite <- app_assoc;
      (split; [reflexivity|]);
      first [now left|right; split; [eauto|discriminate]].
  - exists cs', x'. eexists. split; [exact Hst|]. split; [reflexivity|now left].
  - unfold bind, call_raising, call, ret. proj_simpl.
    destruct (f "unfreeze" None x') as [[[]|err] x''];
      exists cs', x''; eexists; (split; [exact Hst|]); rewrite <- app_assoc;
      (split; [reflexivity|]);
      first [now left|right; split; [eauto|discriminate]].
  - exists cs', x'. eexists. split; [exact Hst|]. split; [reflexivity|now left].
Qed.


(** *** Recovery actions only call into collaborators *)

Lemma only_calls_ret {A} P (a : A) : only_calls (X:=X) P (ret a).
Proof.
  intros [self [x n cl h]]. exists (Returned a), x, []. split; [constructor|].
  unfold ret. cbn. now rewrite app_nil_r.
Qed.

Lemma only_calls_read {A} P (f : St X -> A) :
  only_calls P (fun s => (Returned (f s), s)).
Proof.
  intros [self [x n cl h]]. exists (Returned (f (self, mkWorld x n cl h))), x, [].
  split; [constructor|]. cbn. now rewrite app_nil_r.
Qed.

Lemma only_calls_get {A} P (f : FreezeProtocol X -> A) : only_calls P (get f).
Proof. apply (only_calls_read P (fun s => f (fst s))). Qed.

Lemma only_calls_call_raising {A} (P : Call -> Prop) c (method : X -> Outcome A * X) :
  P c -> only_calls P (call_raising c method).
Proof.
  intros Hc [self [x n cl h]]. unfold call_raising, call. cbn.
  destruct (method x) as [r x']. exists r, x', [c]. split; [now repeat constructor|].
  now destruct r.
Qed.

Lemma only_calls_bind {A B} P (m : M X A) (k : A -> M X B) :
  only_calls P m -> (forall a, only_calls P (k a)) -> only_calls P (bind m k).
Proof.
  intros Hm Hk s. unfold bind.
  destruct (Hm s) as (r & x1 & tr1 & Hp1 & ->). destruct r as [a|e].
  - destruct (Hk a (fst s, mkWorld x1 (reads (snd s)) (calls (snd s) ++ tr1)
                              (heap (snd s)))) as (r & x2 & tr2 & Hp2 & ->).
    exists r, x2, (tr1 ++ tr2)%list. split; [now apply Forall_app|].
    cbn. now rewrite <- app_assoc.
  - now exists (Raised e), x1, tr1.
Qed.

Lemma only_calls_for_each {A} P (xs : list A) (body : A -> M X unit) :
  (forall x, only_calls P (body x)) -> only_calls P (for_each xs body).
Proof.
  intros Hb. induction xs as [|x xs IH]; cbn.
  - apply only_calls_ret.
  - apply only_calls_bind; auto.
Qed.

Lemma only_calls_try_except {A} P (body : M X A) handler :
  only_calls P body -> (forall e, only_calls P (handler e)) ->
  only_calls P (try_except body handler).
Proof.
  intros Hb Hh s. unfold try_except.
  destruct (Hb s) as (r & x1 & tr1 & Hp1 & ->). destruct r as [a|e].
  - now exists (Returned a), x1, tr1.
  - destruct (Hh e (fst s, mkWorld x1 (reads (snd s)) (calls (snd s) ++ tr1)
                              (heap (snd s)))) as (r & x2 & tr2 & Hp2 & ->).
    exists r, x2, (tr1 ++ tr2)%list. split; [now apply Forall_app|].
    cbn. now rewrite <- app_assoc.
Qed.

Lemma execute_recovery_action_only_calls action :
  only_calls (X:=X) recovery_call (_execute_recovery_action action).
Proof.
  unfold _execute_recovery_action. destruct action;
  repeat first
    [ progress intros
    | apply only_calls_ret | apply only_calls_get | apply only_calls_read
    | apply only_calls_call_raising; exact I
    | apply only_calls_bind | apply only_calls_for_each
    | apply only_calls_try_except
    | match goal with
      | |- only_calls _ (match ?x with _ => _ end) => destruct x
      | |- only_calls _ (let '(_, _) := ?x in _) => destruct x
      end ].
Qed.

(** A recovery action never raises and never touches the protocol, the
    clock or the events; HUMAN_REVIEW always fails. *)
Lemma execute_recovery_action_spec action s :
  exists ok x' tr,
    Forall recovery_call tr /\
    _execute_recovery_action action s
    = (Returned ok,
       (fst s, mkWorld x' (reads (snd s)) (calls (snd s) ++ tr) (heap (snd s)))) /\
    (action = HUMAN_REVIEW -> ok = false).
Proof.
  destruct (execute_recovery_action_only_calls action s) as (r & x' & tr & Hp & Hrun).
  destruct (FreezeFacts.execute_recovery_action_returns X action s) as [ok Hok].
  rewrite Hrun in Hok. cbn in Hok. subst r.
  exists ok, x', tr. split; [exact Hp|]. split; [exact Hrun|].
  intros ->. cbn in Hrun. now injection Hrun as <- _.
Qed.

Lemma recovery_loop_spec actions s :
  exists ok x' tr,
    Forall recovery_call tr /\
    recovery_loop actions s
    = (Returned ok,
       (fst s, mkWorld x' (reads (snd s)) (calls (snd s) ++ tr) (heap (snd s)))) /\
    (In HUMAN_REVIEW actions -> ok = false).
Proof.
  revert s. induction actions as [|action rest IH]; intros s.
  - destruct (only_calls_ret recovery_call true s) as (r & x' & tr & Hp & Hrun).
    exists true, x', tr. cbn [recovery_loop]. rewrite Hrun.
    unfold ret in Hrun. injection Hrun as <- Hs.
    split; [exact Hp|]. split; [reflexivity|]. intros [].
  - cbn [recovery_loop].
    destruct (execute_recovery_action_spec action s) as (ok & x1 & tr1 & Hp1 & Hrun & Hh).
    rewrite (bind_returned _ _ _ _ _ Hrun). destruct ok.
    + destruct (IH (fst s, mkWorld x1 (reads (snd s)) (calls (snd s) ++ tr1)
                             (heap (snd s)))) as (ok & x2 & tr2 & Hp2 & Hrun2 & Hh2).
      exists ok, x2, (tr1 ++ tr2)%list. split; [now apply Forall_app|].
      rewrite Hrun2. cbn. rewrite <- app_assoc. split; [reflexivity|].
      intros [->|Hin]; [now discriminate Hh|auto].
    + exists false, x1, tr1. split; [exact Hp1|]. split; [reflexivity|auto].
Qed.


(** *** Auto-recovery, in full *)

Lemma attempt_auto_recovery_spec d s :
  state (fst s) = FROZEN ->
  registry_ok (fst s) ->
  exists r s' tr,
    _attempt_auto_recovery clock d s = (r, s') /\
    calls (snd s') = (calls (snd s) ++ tr)%list /\
    ( (* skipped *)
      ((human_intervention_required d = true \/
        (max_auto_recovery_attempts (fst s) <= recovery_attempts (fst s))%Z) /\
       r = Returned false /\ s' = s /\ tr = [])
      \/
      (* attempted, and left frozen *)
      (human_intervention_required d = false /\
       (recovery_attempts (fst s) < max_auto_recovery_attempts (fst s))%Z /\
       r = Returned false /\
       (exists cs',
          fst s' = set_recovery_attempts (recovery_attempts (fst s) + 1)
                     (set_component_status cs' (fst s)) /\
          (cs' = component_status (fst s) \/
           statuses_by probed (components (fst s)) cs')) /\
       heap (snd s') = heap (snd s))
      \/
      (* attempted, and unfrozen *)
      (human_intervention_required d = false /\
       (recovery_attempts (fst s) < max_auto_recovery_attempts (fst s))%Z /\
       (r = Returned true \/
        (exists e, r = Raised e) /\ brain_callback (fst s) <> None) /\
       ~ In HUMAN_REVIEW (recommended_actions d) /\
       (exists cs_post,
          statuses_by probed (components (fst s)) cs_post /\
          (0.8 <= _calculate_integrity_score (set_component_status cs_post (fst s)))%Q) /\
       (exists cs',
          statuses_by resumed (components (fst s)) cs' /\
          fst s' = mkFreezeProtocol (brain_callback (fst s)) ACTIVE None
                     (components (fst s)) cs' (freeze_history (fst s))
                     (auto_recovery_enabled (fst s))
                     (max_auto_recovery_attempts (fst s)) 0) /\
       (exists t,
          heap (snd s')
          = match current_freeze (fst s) with
            | Some e => alter (resolve t "auto_recovery") e (heap (snd s))
            | None => heap (snd s)
            end)) ).
Proof.
  intros Hfrozen Hok. unfold _attempt_auto_recovery.
  destruct (human_intervention_required d) eqn:Hh.
  { exists (Returned false), s, []. rewrite app_nil_r.
    split; [reflexivity|]. split; [reflexivity|]. left. auto. }
  rewrite 2!bind_get.
  destruct (max_auto_recovery_attempts (fst s) <=? recovery_attempts (fst s))%Z eqn:Hmax.
  { exists (Returned false), s, []. rewrite app_nil_r.
    split; [reflexivity|]. split; [reflexivity|]. left.
    apply Z.leb_le in Hmax. auto. }
  apply Z.leb_gt in Hmax. rewrite bind_assign.
  destruct s as [[cb st cur comps cs hist en mx att] [x n cl h]]. proj_simpl.
  subst st.
  match goal with
  | |- context [bind (recovery_loop ?a) ?k ?s1] =>
      destruct (recovery_loop_spec a s1) as (ok & x1 & tr1 & _ & Hloop & Hhuman);
      rewrite (bind_returned _ _ _ _ _ Hloop); clear Hloop
  end.
  proj_simpl. destruct ok; cbn [negb].
  - match goal with
    | |- context [bind (run_diagnostics clock) ?k ?s2] =>
        destruct (run_diagnostics_spec s2 Hok) as (cs2 & x2 & Hst2 & Hdiag);
        rewrite (bind_returned _ _ _ _ _ Hdiag); clear Hdiag
    end.
    proj_simpl. cbn [data_integrity_score].
    match goal with
    | |- context [Qgeb ?q 0.8] => destruct (Qgeb q 0.8) eqn:Hq
    end.
    + apply Qle_bool_iff in Hq.
      assert (Hok3 : registry_ok
                (mkFreezeProtocol cb FROZEN cur comps cs2 hist en mx (att + 1))).
      { destruct Hok as [Hk Hwf]. split; [|exact Hwf].
        proj_simpl. symmetry. eapply statuses_by_keys, Hst2. }
      match goal with
      | |- context [bind (unfreeze clock ?a) ?k ?s3] =>
          destruct (unfreeze_spec "a" "uto_recovery" s3 eq_refl Hok3)
            as (cs3 & x3 & r & Hst3 & Hun & Hr)
      end.
      proj_simpl. unfold bind. rewrite Hun. clear Hun.
      assert (Hr' : match r with Returned _ => Returned true | Raised e => Raised e end
                    = Returned true \/
                    (exists e, match r with
                               | Returned _ => Returned true
                               | Raised e => Raised e
                               end = Raised e) /\
                    cb <> None).
      { destruct Hr as [->|[[e ->] Hcb]]; [now left|right; eauto]. }
      destruct r as [b|e];
        (eexists _, _, _; split; [reflexivity|]; proj_simpl;
         split; [rewrite <- !app_assoc; reflexivity|];
         right; right; split; [reflexivity|]; split; [exact Hmax|];
         split; [exact Hr'|];
         split; [intros Hin; now discriminate (Hhuman Hin)|];
         split; [exists cs2; split; [exact Hst2|exact Hq]|];
         split; [exists cs3; split; [exact Hst3|reflexivity]|];
         exists (clock (S n)); reflexivity).
    + eexists _, _, _. split; [reflexivity|]. proj_simpl.
      split; [rewrite <- !app_assoc; reflexivity|].
      right. left. repeat split; auto.
      exists cs2. split; [reflexivity|]. now right.
  - eexists _, _, _. split; [reflexivity|]. proj_simpl.
    split; [reflexivity|].
    right. left. repeat split; auto.
    exists cs. split; [reflexivity|]. now left.
Qed.


(** *** A freeze, in full *)

Lemma lookup_snoc {A} (l : list A) (x : A) : (l ++ [x])%list !! length l = Some x.
Proof. induction l as [|y l IH]; [reflexivity|exact IH]. Qed.

Lemma alter_snoc {A} (f : A -> A) (l : list A) (x : A) :
  alter f (length l) (l ++ [x])%list = (l ++ [f x])%list.
Proof. induction l as [|y l IH]; [reflexivity|]. cbn. f_equal. exact IH. Qed.

Lemma human_needed_false s ev :
  current_event s = Some ev ->
  human_needed s = false ->
  (recovery_attempts (fst s) < max_auto_recovery_attempts (fst s))%Z /\
  reason ev <> SECURITY_CONCERN /\ reason ev <> DATA_INTEGRITY.
Proof.
  unfold human_needed. intros -> H. apply orb_false_iff in H as [H1 H2].
  apply Z.leb_gt in H1. split; [exact H1|].
  destruct (reason ev); split; congruence.
Qed.

(** What follows the brain callback in [trigger_freeze]: diagnostics, and
    auto-recovery if it is enabled. *)
Lemma freeze_tail_spec (n : EventRef) ev s :
  state (fst s) = FROZEN ->
  current_freeze (fst s) = Some n ->
  heap (snd s) !! n = Some ev ->
  registry_ok (fst s) ->
  exists r s' tr,
    bind (run_diagnostics clock) (fun diagnostics =>
      bind (get auto_recovery_enabled) (fun enabled =>
        bind (if enabled
              then bind (_attempt_auto_recovery clock diagnostics) (fun _ => ret tt)
              else ret tt)
          (fun _ => ret (Some n)))) s = (r, s') /\
    calls (snd s') = (calls (snd s) ++ tr)%list /\
    ( (r = Returned (Some n) /\
       (exists cs' a,
          statuses_by probed (components (fst s)) cs' /\
          fst s' = set_recovery_attempts a (set_component_status cs' (fst s)) /\
          (a = recovery_attempts (fst s) /\
           tr = calls_of health_check Call_health_check (components (fst s)) \/
           a = (recovery_attempts (fst s) + 1)%Z /\
           auto_recovery_enabled (fst s) = true /\
           (recovery_attempts (fst s) < max_auto_recovery_attempts (fst s))%Z /\
           reason ev <> SECURITY_CONCERN /\ reason ev <> DATA_INTEGRITY)) /\
       heap (snd s') = heap (snd s))
      \/
      ((r = Returned (Some n) \/
        (exists e, r = Raised e) /\ brain_callback (fst s) <> None) /\
       auto_recovery_enabled (fst s) = true /\
       (recovery_attempts (fst s) < max_auto_recovery_attempts (fst s))%Z /\
       reason ev <> SECURITY_CONCERN /\ reason ev <> DATA_INTEGRITY /\
       (exists cs_post,
          statuses_by probed (components (fst s)) cs_post /\
          (0.8 <= _calculate_integrity_score
                    (set_component_status cs_post (fst s)))%Q) /\
       (exists cs',
          statuses_by resumed (components (fst s)) cs' /\
          fst s' = mkFreezeProtocol (brain_callback (fst s)) ACTIVE None
                     (components (fst s)) cs' (freeze_history (fst s))
                     (auto_recovery_enabled (fst s))
                     (max_auto_recovery_attempts (fst s)) 0) /\
       (exists t,
          heap (snd s') = alter (resolve t "auto_recovery") n (heap (snd s)))) ).
Proof.
  intros Hfrozen Hcur Hev Hok.
  assert (Hce : current_event s = Some ev) by (unfold current_event; now rewrite Hcur).
  destruct (run_diagnostics_spec s Hok) as (cs1 & x1 & Hst1 & Hdiag).
  rewrite (bind_returned _ _ _ _ _ Hdiag). clear Hdiag. rewrite bind_get.
  destruct s as [[cb st cur comps cs hist en mx att] [x rd cl h]]. proj_simpl.
  subst st cur.
  assert (Hok1 : registry_ok (mkFreezeProtocol cb FROZEN (Some n) comps cs1 hist en mx att)).
  { destruct Hok as [Hk Hwf]. split; [|exact Hwf].
    proj_simpl. symmetry. eapply statuses_by_keys, Hst1. }
  destruct en.
  - rewrite bind_assoc.
    match goal with
    | |- context [bind (_attempt_auto_recovery clock ?d) ?k ?s1] =>
        destruct (attempt_auto_recovery_spec d s1 eq_refl Hok1)
          as (r & s' & tr & Hrun & Hcalls & Hcases);
        unfold bind at 1; rewrite Hrun; clear Hrun
    end.
    proj_simpl. cbn [human_intervention_required recommended_actions] in Hcases.
    destruct Hcases as [(Hskip & -> & -> & ->)|[(Hh & Hlt & -> & (cs' & Hs' & Hcs') & Hheap)
                                         |(Hh & Hlt & Hr & _ & Hpost & Hres & Hheap)]].
    + eexists _, _, _. split; [reflexivity|]. proj_simpl.
      split; [etransitivity; [exact Hcalls|symmetry; apply app_assoc]|].
      left. split; [reflexivity|]. split; [|reflexivity].
      exists cs1, att. split; [exact Hst1|]. split; [reflexivity|].
      left. split; [reflexivity|apply app_nil_r].
    + destruct (human_needed_false _ _ Hce Hh) as (_ & Hr1 & Hr2).
      destruct s' as [self' w']. proj_simpl. subst self'.
      eexists _, _, _. split; [reflexivity|]. proj_simpl.
      split; [etransitivity; [exact Hcalls|symmetry; apply app_assoc]|].
      left. split; [reflexivity|]. split; [|exact Hheap].
      exists cs', (att + 1)%Z. split; [destruct Hcs' as [->|H]; assumption|].
      split; [reflexivity|]. right. auto.
    + destruct (human_needed_false _ _ Hce Hh) as (_ & Hr1 & Hr2).
      destruct r as [b|e];
        (eexists _, _, _; split; [reflexivity|];
         split; [etransitivity; [exact Hcalls|symmetry; apply app_assoc]|]; right;
         split; [first [left; reflexivity
                       |right; split;
                        [eauto|destruct Hr as [Hr|[_ Hr]]; [discriminate|exact Hr]]]|];
         split; [reflexivity|]; split; [exact Hlt|]; split; [exact Hr1|];
         split; [exact Hr2|]; split; [exact Hpost|]; split; [exact Hres|];
         exact Hheap).
  - steps. eexists _, _, _. split; [reflexivity|]. proj_simpl.
    split; [reflexivity|]. left. split; [reflexivity|]. split; [|reflexivity].
    exists cs1, att. split; [exact Hst1|]. split; [reflexivity|now left].
Qed.

Lemma trigger_freeze_spec reason source details affected s :
  state (fst s) <> FROZEN ->
  registry_ok (fst s) ->
  let n := length (heap (snd s)) in
  let ev := mkFreezeEvent ("freeze_" ++ strftime_Ymd_HMS (clock (reads (snd s))))
              (clock (S (reads (snd s)))) reason source details
              (affected_or_all affected (fst s)) false None None in
  let frozen cs' a :=
    mkFreezeProtocol (brain_callback (fst s)) FROZEN (Some n) (components (fst s)) cs'
      (freeze_history (fst s) ++ [n]) (auto_recovery_enabled (fst s))
      (max_auto_recovery_attempts (fst s)) a in
  exists r s' tr,
    trigger_freeze clock reason source details affected s = (r, s') /\
    calls (snd s')
    = (calls (snd s) ++ calls_of pause Call_pause (components (fst s)) ++ tr)%list /\
    ( (* the callback raised on "freeze" *)
      ((exists e, r = Raised e) /\ brain_callback (fst s) <> None /\
       tr = [Call_brain "freeze"] /\
       (exists cs',
          statuses_by halted (components (fst s)) cs' /\
          fst s' = frozen cs' (recovery_attempts (fst s))) /\
       heap (snd s') = (heap (snd s) ++ [ev])%list)
      \/
      (* left frozen *)
      (r = Returned (Some n) /\
       (exists cs' a,
          statuses_by probed (components (fst s)) cs' /\
          fst s' = frozen cs' a /\
          (a = recovery_attempts (fst s) /\
           tr = (match brain_callback (fst s) with
                 | Some _ => [Call_brain "freeze"]
                 | None => []
                 end
                 ++ calls_of health_check Call_health_check (components (fst s)))%list
           \/
           a = (recovery_attempts (fst s) + 1)%Z /\
           auto_recovery_enabled (fst s) = true /\
           (recovery_attempts (fst s) < max_auto_recovery_attempts (fst s))%Z /\
           reason <> SECURITY_CONCERN /\ reason <> DATA_INTEGRITY)) /\
       heap (snd s') = (heap (snd s) ++ [ev])%list)
      \/
      (* unfrozen by auto-recovery *)
      ((r = Returned (Some n) \/
        (exists e, r = Raised e) /\ brain_callback (fst s) <> None) /\
       auto_recovery_enabled (fst s) = true /\
       (recovery_attempts (fst s) < max_auto_recovery_attempts (fst s))%Z /\
       reason <> SECURITY_CONCERN /\ reason <> DATA_INTEGRITY /\
       (exists cs_post,
          statuses_by probed (components (fst s)) cs_post /\
          (0.8 <= _calculate_integrity_score
                    (set_component_status cs_post (fst s)))%Q) /\
       (exists cs',
          statuses_by resumed (components (fst s)) cs' /\
          fst s' = mkFreezeProtocol (brain_callback (fst s)) ACTIVE None
                     (components (fst s)) cs' (freeze_history (fst s) ++ [n])
                     (auto_recovery_enabled (fst s))
                     (max_auto_recovery_attempts (fst s)) 0) /\
       (exists t,
          heap (snd s') = (heap (snd s) ++ [resolve t "auto_recovery" ev])%list)) ).
Proof.
  intros Hstate Hok n ev frozen. subst n ev frozen.
  unfold trigger_freeze. rewrite bind_get.
  replace (SystemState_eqb (state (fst s)) FROZEN) with false
    by (destruct (state (fst s)); cbn; congruence).
  destruct s as [[cb st cur comps cs hist en mx att] [x rd cl h]]. proj_simpl.
  steps. unfold affected_or_all. proj_simpl.
  set (ev := mkFreezeEvent _ _ _ _ _ _ _ _ _).
  set (n := length h).
  match goal with
  | |- context [bind _halt_components ?k ?s1] =>
      destruct (halt_components_spec s1 Hok) as (cs1 & x1 & Hst1 & Hhalt);
      rewrite (bind_returned _ _ _ _ _ Hhalt); clear Hhalt
  end.
  steps. subst n. rewrite lookup_snoc. set (n := length h).
  assert (Hok1 : registry_ok
            (mkFreezeProtocol cb FROZEN (Some n) comps cs1 (hist ++ [n]) en mx att)).
  { destruct Hok as [Hk Hwf]. split; [|exact Hwf].
    proj_simpl. symmetry. eapply statuses_by_keys, Hst1. }
  pose proof (fun x2 cl2 =>
    freeze_tail_spec n ev
      (mkFreezeProtocol cb FROZEN (Some n) comps cs1 (hist ++ [n]) en mx att,
       mkWorld x2 (S (S rd)) cl2 (h ++ [ev]))
      eq_refl eq_refl (lookup_snoc h ev) Hok1) as Htail.
  proj_simpl.
  destruct cb as [f|].
  - unfold bind at 1. unfold call_raising, call. proj_simpl.
    destruct (f "freeze" (Some ev) x1) as [[[]|e] x2].
    + destruct (Htail x2 ((cl ++ calls_of pause Call_pause comps)
                          ++ [Call_brain "freeze"])%list)
        as (r & s' & tr & Hrun & Hcalls & Hcases).
      exists r, s', ([Call_brain "freeze"] ++ tr)%list.
      split; [exact Hrun|].
      split; [rewrite Hcalls; now rewrite <- !app_assoc|]. right.
      destruct Hcases as [(-> & (cs' & a & Hst & Hs' & Ha) & Hheap)
                         |(Hr & Hen & Hlt & Hr1 & Hr2 & Hpost & Hres & [t Hheap])].
      * left. split; [reflexivity|]. split; [|exact Hheap].
        exists cs', a. split; [exact Hst|]. split; [exact Hs'|].
        destruct Ha as [[-> ->]|Ha]; [now left|now right].
      * right. unfold n in Hheap. rewrite alter_snoc in Hheap.
        repeat (split; [assumption|]). now exists t.
    + eexists _, _, _. split; [reflexivity|]. proj_simpl.
      split; [now rewrite <- !app_assoc|]. left. split; [eauto|].
      split; [discriminate|].
      split; [reflexivity|]. split; [|reflexivity]. exists cs1. now split.
  - steps.
    destruct (Htail x1 (cl ++ calls_of pause Call_pause comps)%list)
      as (r & s' & tr & Hrun & Hcalls & Hcases).
    exists r, s', tr.
    split; [exact Hrun|].
    split; [rewrite Hcalls; now rewrite <- !app_assoc|]. right.
    destruct Hcases as [(-> & (cs' & a & Hst & Hs' & Ha) & Hheap)
                       |(Hr & Hen & Hlt & Hr1 & Hr2 & Hpost & Hres & [t Hheap])].
    + left. split; [reflexivity|]. split; [|exact Hheap].
      exists cs', a. split; [exact Hst|]. split; [exact Hs'|].
      destruct Ha as [[-> ->]|Ha]; [now left|now right].
    + right. unfold n in Hheap. rewrite alter_snoc in Hheap.
        repeat (split; [assumption|]). now exists t.
Qed.


(** *** What holds between calls *)

Lemma consistent_frozen s :
  consistent s -> state (fst s) = FROZEN ->
  exists e, current_freeze (fst s) = Some e /\ S e = length (heap (snd s)).
Proof.
  intros (_ & _ & Hcur & _) Hst. destruct (current_freeze (fst s)) as [e|].
  - exists e. split; [reflexivity|apply Hcur].
  - destruct Hcur as [Hact _]. congruence.
Qed.

Lemma consistent_not_frozen s :
  consistent s -> state (fst s) <> FROZEN ->
  current_freeze (fst s) = None /\ recovery_attempts (fst s) = 0%Z /\
  forall i ev, heap (snd s) !! i = Some ev -> closed ev.
Proof.
  intros (_ & _ & Hcur & Hev) Hst. destruct (current_freeze (fst s)) as [e|] eqn:E.
  - destruct Hcur as [Hf _]. contradiction.
  - split; [reflexivity|]. split; [apply Hcur|].
    intros i ev Hi. specialize (Hev i ev Hi).
    now rewrite bool_decide_eq_false_2 in Hev by discriminate.
Qed.

Lemma consistent_statuses s cs' w' :
  consistent s ->
  dict_keys cs' = dict_keys (components (fst s)) ->
  heap w' = heap (snd s) ->
  consistent (set_component_status cs' (fst s), w').
Proof.
  intros ([Hk Hwf] & Hhist & Hcur & Hev) Hkeys Hheap.
  unfold consistent, registry_ok. proj_simpl. rewrite Hheap.
  repeat split; auto.
Qed.

Lemma run_diagnostics_consistent s :
  consistent s ->
  consistent (snd (run_diagnostics clock s)) /\
  brain_callback (fst (snd (run_diagnostics clock s))) = brain_callback (fst s) /\
  auto_recovery_enabled (fst (snd (run_diagnostics clock s)))
  = auto_recovery_enabled (fst s) /\
  max_auto_recovery_attempts (fst (snd (run_diagnostics clock s)))
  = max_auto_recovery_attempts (fst s).
Proof.
  intros Hc. destruct (run_diagnostics_spec s (proj1 Hc)) as (cs' & x' & Hst & ->).
  cbn [snd]. split; [|now split].
  apply consistent_statuses; [exact Hc| |reflexivity].
  eapply statuses_by_keys, Hst.
Qed.

Lemma seq_snoc (n : nat) : (seq 0 n ++ [n])%list = seq 0 (S n).
Proof. now rewrite seq_S. Qed.

Lemma trigger_freeze_consistent reason source details affected s :
  consistent s ->
  let s' := snd (trigger_freeze clock reason source details affected s) in
  consistent s' /\
  brain_callback (fst s') = brain_callback (fst s) /\
  auto_recovery_enabled (fst s') = auto_recovery_enabled (fst s) /\
  max_auto_recovery_attempts (fst s') = max_auto_recovery_attempts (fst s).
Proof.
  intros Hc s'.
  destruct (SystemState_eqb (state (fst s)) FROZEN) eqn:Hfrozen.
  { assert (Hs' : s' = s).
    { subst s'. unfold trigger_freeze. rewrite bind_get, Hfrozen. reflexivity. }
    rewrite Hs'. now split. }
  assert (Hstate : state (fst s) <> FROZEN)
    by (intros E; rewrite E in Hfrozen; discriminate).
  destruct (consistent_not_frozen s Hc Hstate) as (Hcur & Hatt & Hclosed).
  destruct Hc as (Hok & Hhist & _ & _).
  destruct (trigger_freeze_spec reason source details affected s Hstate Hok)
    as (r & s1 & tr & Hrun & _ & Hcases).
  subst s'. rewrite Hrun. cbn [snd]. clear Hrun.
  set (n := length (heap (snd s))) in *.
  assert (Hopen : forall (ev : FreezeEvent) i ev',
            (heap (snd s) ++ [ev])%list !! i = Some ev' ->
            open ev ->
            if bool_decide (Some n = Some i) then open ev' else closed ev').
  { intros ev i ev' Hi Hev. destruct (decide (i = n)) as [->|Hne].
    - rewrite bool_decide_eq_true_2 by reflexivity.
      unfold n in Hi. rewrite lookup_snoc in Hi. now injection Hi as <-.
    - rewrite bool_decide_eq_false_2 by congruence.
      apply (Hclosed i). rewrite lookup_app_l in Hi; [exact Hi|].
      apply lookup_lt_Some in Hi. rewrite length_app in Hi. cbn in Hi. fold n in Hi.
      lia. }
  assert (Hfrozen' : forall cs' a w' ev,
            dict_keys cs' = dict_keys (components (fst s)) ->
            heap w' = (heap (snd s) ++ [ev])%list ->
            open ev ->
            (a = 0 \/ a = 1)%Z ->
            consistent
              (mkFreezeProtocol (brain_callback (fst s)) FROZEN (Some n)
                 (components (fst s)) cs' (freeze_history (fst s) ++ [n])
                 (auto_recovery_enabled (fst s)) (max_auto_recovery_attempts (fst s)) a,
               w')).
  { intros cs' a w' ev Hk Hheap Hev Ha. unfold consistent, registry_ok. proj_simpl.
    rewrite Hheap, length_app, Hhist. cbn [length]. fold n.
    rewrite Nat.add_1_r, seq_snoc.
    split; [split; [now symmetry|apply Hok]|]. split; [reflexivity|].
    split; [auto|]. intros i ev' Hi. now apply (Hopen ev). }
  destruct s1 as [self1 w1]. proj_simpl.
  destruct Hcases as [(_ & _ & _ & (cs' & Hst & ->) & Hheap)
                     |[(_ & (cs' & a & Hst & -> & Ha) & Hheap)
                      |(_ & _ & _ & _ & _ & _ & (cs' & Hst & ->) & (t & Hheap))]].
  - split; [|now split]. apply (Hfrozen' _ _ _ _ (statuses_by_keys _ _ _ Hst) Hheap).
    + now repeat split.
    + left. exact Hatt.
  - split; [|now split]. apply (Hfrozen' _ _ _ _ (statuses_by_keys _ _ _ Hst) Hheap).
    + now repeat split.
    + rewrite Hatt in Ha. destruct Ha as [[-> _]|[-> _]]; auto.
  - split; [|now split]. unfold consistent, registry_ok. proj_simpl.
    rewrite Hheap, length_app, Hhist. cbn [length]. fold n.
    rewrite Nat.add_1_r, seq_snoc.
    split; [split; [symmetry; eapply statuses_by_keys, Hst|apply Hok]|].
    split; [reflexivity|]. split; [now split|].
    intros i ev' Hi. rewrite bool_decide_eq_false_2 by discriminate.
    destruct (decide (i = n)) as [->|Hne].
    + unfold n in Hi. rewrite lookup_snoc in Hi. injection Hi as <-.
      repeat split; [discriminate|]. now exists "a"%char, "uto_recovery".
    + apply (Hclosed i). rewrite lookup_app_l in Hi; [exact Hi|].
      apply lookup_lt_Some in Hi. rewrite length_app in Hi. cbn in Hi. fold n in Hi.
      lia.
Qed.

Lemma unfreeze_consistent auth s :
  consistent s ->
  let s' := snd (unfreeze clock auth s) in
  consistent s' /\
  brain_callback (fst s') = brain_callback (fst s) /\
  auto_recovery_enabled (fst s') = auto_recovery_enabled (fst s) /\
  max_auto_recovery_attempts (fst s') = max_auto_recovery_attempts (fst s).
Proof.
  intros Hc s'.
  destruct (SystemState_eqb (state (fst s)) FROZEN) eqn:Hfrozen.
  2:{ assert (Hs' : s' = s).
      { subst s'. unfold unfreeze. rewrite bind_get, Hfrozen. reflexivity. }
      rewrite Hs'. now split. }
  assert (Hstate : state (fst s) = FROZEN) by (now destruct (state (fst s))).
  destruct auth as [[|c rest]|].
  1,3: assert (Hs' : s' = s)
         by (subst s'; unfold unfreeze; rewrite bind_get, Hfrozen; reflexivity);
       rewrite Hs'; now split.
  destruct (consistent_frozen s Hc Hstate) as (e & Hcur & He).
  destruct Hc as (Hok & Hhist & _ & Hev).
  destruct (unfreeze_spec c rest s Hstate Hok) as (cs' & x' & r & Hst & Hrun & _).
  subst s'. rewrite Hrun. cbn [snd]. clear Hrun. rewrite Hcur in *.
  split; [|now split]. unfold consistent, registry_ok. proj_simpl.
  rewrite length_alter.
  split; [split; [symmetry; eapply statuses_by_keys, Hst|apply Hok]|].
  split; [exact Hhist|]. split; [now split|].
  intros i ev' Hi. rewrite bool_decide_eq_false_2 by discriminate.
  destruct (decide (i = e)) as [->|Hne].
  - rewrite list_lookup_alter_eq in Hi.
    match type of Hi with
    | _ <$> ?o = _ => destruct o as [ev0|]; cbn in Hi; [|discriminate]
    end.
    injection Hi as <-. repeat split; [discriminate|]. now exists c, rest.
  - rewrite list_lookup_alter_ne in Hi by congruence.
    specialize (Hev i ev' Hi). now rewrite bool_decide_eq_false_2 in Hev by congruence.
Qed.

(** *** The loops, with what the collaborators did *)

Lemma swept_statuses_by (method : Component X -> option (X -> Outcome unit * X))
    ok err (V : Component X -> string -> Prop) comps x cs x' :
  (forall c, V c ok) ->
  (forall c, method c <> None -> V c err) ->
  swept method ok err comps x cs x' -> statuses_by V comps cs.
Proof.
  intros Hok Herr. induction 1; constructor; auto; split; auto.
  all: cbn; apply Herr; congruence.
Qed.

Lemma swept_all_ok (method : Component X -> option (X -> Outcome unit * X))
    ok err comps x cs x' :
  (forall name c f x0, In (name, c) comps -> method c = Some f ->
     exists x1, f x0 = (Returned tt, x1)) ->
  swept method ok err comps x cs x' -> Forall (fun v => v = ok) (dict_values cs).
Proof.
  intros Hret. induction 1 as [x|name c comps x cs x' Hm _ IH
                              |name c f comps x x1 cs x' Hm Hf _ IH
                              |name c f e comps x x1 cs x' Hm Hf _ IH]; cbn.
  - constructor.
  - constructor; [reflexivity|]. apply IH. intros n c0 f0 x0 Hin. apply (Hret n c0).
    now right.
  - constructor; [reflexivity|]. apply IH. intros n c0 f0 x0 Hin. apply (Hret n c0).
    now right.
  - destruct (Hret name c f x (or_introl eq_refl) Hm) as [x2 Hx]. congruence.
Qed.

Lemma for_each_swept (method : Component X -> option (X -> Outcome unit * X))
    (mk : string -> Call) (ok err : string) :
  forall items pre post s,
    component_status (fst s) = (pre ++ post)%list ->
    dict_keys post = dict_keys items ->
    List.NoDup (dict_keys pre ++ dict_keys items)%list ->
    exists post' x',
      swept method ok err items (ext (snd s)) post' x' /\
      for_each items
        (fun '(name, component) =>
           match method component with
           | Some m =>
               bind (call (mk name) m) (fun r =>
                 match r with
                 | Returned _ => set_status name ok
                 | Raised e => set_status name err
                 end)
           | None => set_status name ok
           end) s
      = (Returned tt,
         (set_component_status (pre ++ post')%list (fst s),
          mkWorld x' (reads (snd s)) (calls (snd s) ++ calls_of method mk items)
            (heap (snd s)))).
Proof.
  induction items as [|[name c] items IH]; intros pre post s Hcs Hk Hnd.
  - destruct post; [|discriminate]. exists [], (ext (snd s)).
    split; [constructor|].
    destruct s as [self [x n cl h]]. unfold calls_of, ret.
    cbn [for_each flat_map fst snd ext reads calls heap] in *.
    rewrite !app_nil_r in *. rewrite <- Hcs. now destruct self.
  - destruct post as [|[k0 v0] post]; [discriminate|].
    cbn in Hk. injection Hk as -> Hk.
    assert (Hpre : ~ In name (dict_keys pre)).
    { intros Hin. apply List.NoDup_remove_2 in Hnd. apply Hnd.
      apply in_or_app. now left. }
    cbn [for_each]. unfold bind at 1.
    assert (Hstep : exists v x1,
      match method c with
      | Some m =>
          bind (call (mk name) m) (fun r =>
            match r with
            | Returned _ => set_status name ok
            | Raised e => set_status name err
            end)
      | None => set_status name ok
      end s
      = (Returned tt,
         (set_component_status (dict_set name v (component_status (fst s))) (fst s),
          mkWorld x1 (reads (snd s)) (calls (snd s) ++ calls_of method mk [(name, c)])
            (heap (snd s)))) /\
      forall comps cs x',
        swept method ok err comps x1 cs x' ->
        swept method ok err ((name, c) :: comps) (ext (snd s)) ((name, v) :: cs) x').
    { destruct s as [self [x n cl h]]. unfold calls_of. cbn [flat_map snd fst].
      destruct (method c) as [m|] eqn:Em.
      - unfold bind, call, set_status, assign. cbn.
        destruct (m x) as [[[]|e] x1] eqn:Ef; cbn; eexists _, x1;
          (split; [reflexivity|]); intros comps cs x' Hs.
        + now apply (swept_returned method ok err name c m comps x x1).
        + now apply (swept_raised method ok err name c m e comps x x1).
      - exists ok, x. unfold set_status, assign. cbn. rewrite app_nil_r.
        split; [reflexivity|]. intros comps cs x' Hs. now apply swept_without. }
    destruct Hstep as (v & x1 & -> & Hswept).
    rewrite Hcs, dict_set_middle by exact Hpre.
    edestruct (IH (pre ++ [(name, v)])%list post) as (post' & x2 & Hst & Hrun);
      [| exact Hk | | rewrite Hrun].
    + cbn. now rewrite <- app_assoc.
    + unfold dict_keys. rewrite map_app. cbn. rewrite <- app_assoc. exact Hnd.
    + exists ((name, v) :: post'), x2. split.
      * apply Hswept. exact Hst.
      * cbn. rewrite <- !app_assoc. cbn. reflexivity.
Qed.

Lemma registry_swept (method : Component X -> option (X -> Outcome unit * X))
    (mk : string -> Call) (ok err : string) s :
  registry_ok (fst s) ->
  exists cs' x',
    swept method ok err (components (fst s)) (ext (snd s)) cs' x' /\
    for_each (components (fst s))
      (fun '(name, component) =>
         match method component with
         | Some m =>
             bind (call (mk name) m) (fun r =>
               match r with
               | Returned _ => set_status name ok
               | Raised e => set_status name err
               end)
         | None => set_status name ok
         end) s
    = (Returned tt,
       (set_component_status cs' (fst s),
        mkWorld x' (reads (snd s))
          (calls (snd s) ++ calls_of method mk (components (fst s)))
          (heap (snd s)))).
Proof.
  intros [Hk Hwf].
  apply (for_each_swept method mk ok err (components (fst s)) []
           (component_status (fst s)) s); auto.
  cbn. unfold dict_wf in Hwf. now apply NoDup_ListNoDup.
Qed.


Lemma halt_components_swept s :
  registry_ok (fst s) ->
  exists cs' x',
    swept pause "PAUSED" "ERROR" (components (fst s)) (ext (snd s)) cs' x' /\
    _halt_components s
    = (Returned tt,
       (set_component_status cs' (fst s),
        mkWorld x' (reads (snd s))
          (calls (snd s) ++ calls_of pause Call_pause (components (fst s)))
          (heap (snd s)))).
Proof.
  intros Hok. unfold _halt_components. rewrite bind_get.
  exact (registry_swept pause Call_pause "PAUSED" "ERROR" s Hok).
Qed.

(** An authorized [unfreeze] of a frozen system, with what the
    collaborators did. *)
Lemma unfreeze_swept (c : ascii) (rest : string) s :
  state (fst s) = FROZEN ->
  registry_ok (fst s) ->
  exists cs' x1 x' r,
    swept resume "ACTIVE" "ERROR" (components (fst s)) (ext (snd s)) cs' x1 /\
    unfreeze clock (Some (String c rest)) s
    = (r,
       (mkFreezeProtocol (brain_callback (fst s)) ACTIVE None (components (fst s)) cs'
          (freeze_history (fst s)) (auto_recovery_enabled (fst s))
          (max_auto_recovery_attempts (fst s)) 0,
        mkWorld x'
          (match current_freeze (fst s) with
           | Some _ => S (reads (snd s))
           | None => reads (snd s)
           end)
          (calls (snd s)
           ++ calls_of resume Call_resume (components (fst s))
           ++ match brain_callback (fst s) with
              | Some _ => [Call_brain "unfreeze"]
              | None => []
              end)
          (match current_freeze (fst s) with
           | Some e =>
               alter (resolve (clock (reads (snd s))) (String c rest)) e (heap (snd s))
           | None => heap (snd s)
           end))) /\
    match brain_callback (fst s) with
    | Some f =>
        r = match fst (f "unfreeze" None x1) with
            | Returned _ => Returned true
            | Raised e => Raised e
            end /\
        x' = snd (f "unfreeze" None x1)
    | None => r = Returned true /\ x' = x1
    end.
Proof.
  intros Hfrozen Hok. unfold unfreeze. rewrite bind_get, Hfrozen.
  cbn [SystemState_eqb negb]. rewrite bind_assign, bind_get. proj_simpl.
  destruct (registry_swept resume Call_resume "ACTIVE" "ERROR"
              (set_state RECOVERING (fst s), snd s) Hok)
    as (cs' & x1 & Hst & Hrun).
  proj_simpl. rewrite (bind_returned _ _ _ _ _ Hrun). clear Hrun.
  destruct s as [[cb st cur comps cs hist en mx att] [x n cl h]]. proj_simpl.
  rewrite bind_get. proj_simpl.
  destruct cur as [e|]; steps;
    (destruct cb as [f|]; [|rewrite app_nil_r]; steps).
  - unfold bind, call_raising, call, ret. proj_simpl.
    destruct (f "unfreeze" None x1) as [[[]|err] x''] eqn:Ef;
      exists cs', x1, x''; eexists; (split; [exact Hst|]); rewrite <- app_assoc;
      (split; [reflexivity|]); rewrite Ef; now split.
  - exists cs', x1, x1. eexists. split; [exact Hst|]. split; [reflexivity|now split].
  - unfold bind, call_raising, call, ret. proj_simpl.
    destruct (f "unfreeze" None x1) as [[[]|err] x''] eqn:Ef;
      exists cs', x1, x''; eexists; (split; [exact Hst|]); rewrite <- app_assoc;
      (split; [reflexivity|]); rewrite Ef; now split.
  - exists cs', x1, x1. eexists. split; [exact Hst|]. split; [reflexivity|now split].
Qed.

(** *** Loops outside a [try] *)

Lemma runs_calls (ms : list (Call * (X -> Outcome unit * X))) x tr r x' :
  runs_until_raise ms x tr r x' ->
  (exists rest, map fst ms = (tr ++ rest)%list) /\
  (r = Returned tt -> tr = map fst ms) /\
  ((exists e, r = Raised e) -> tr <> []) /\
  (tr = [] -> x' = x /\ r = Returned tt).
Proof.
  induction 1 as [x|c f ms x x1 tr r x' Hf _ (Hrest & Hret & Hraise & Hnil)
                 |c f ms x e x1 Hf]; cbn.
  - split; [now exists []|]. split; [reflexivity|].
    split; [intros [e He]; discriminate|now split].
  - destruct Hrest as [rest Hrest]. split; [exists rest; now rewrite Hrest|].
    split; [intros E; now rewrite (Hret E)|]. split; [discriminate|discriminate].
  - split; [now exists (map fst ms)|]. split; [discriminate|].
    split; discriminate.
Qed.

Lemma for_each_runs {A} self (xs : list A) (f : A -> M X unit)
    (m : A -> list (Call * (X -> Outcome unit * X))) :
  (forall a s, fst s = self ->
     (m a = [] /\ f a s = (Returned tt, s)) \/
     (exists c g, m a = [(c, g)] /\ f a s = call_raising c g s)) ->
  forall s, fst s = self -> exists r x' tr,
    runs_until_raise (flat_map m xs) (ext (snd s)) tr r x' /\
    for_each xs f s
    = (r, (fst s, mkWorld x' (reads (snd s)) (calls (snd s) ++ tr) (heap (snd s)))).
Proof.
  intros Hf. induction xs as [|a xs IH]; intros s Hs.
  - exists (Returned tt), (ext (snd s)), []. split; [constructor|].
    cbn. rewrite app_nil_r. now destruct s as [self0 []].
  - cbn [for_each flat_map]. unfold bind.
    destruct (Hf a s Hs) as [[Em ->]|(c & g & Em & ->)]; rewrite Em.
    + apply (IH s Hs).
    + unfold call_raising, call.
      destruct (g (ext (snd s))) as [[[]|e] x1] eqn:Eg.
      * destruct (IH (fst s, mkWorld x1 (reads (snd s)) (calls (snd s) ++ [c])
                               (heap (snd s))) Hs) as (r & x2 & tr & Hruns & Hrun).
        rewrite Hrun. proj_simpl. exists r, x2, (c :: tr). split.
        -- now apply (runs_returned c g _ _ x1).
        -- now rewrite <- app_assoc.
      * exists (Raised e), x1, [c]. split; [|reflexivity].
        now apply runs_raised.
Qed.

Lemma recovery_calls_methods action s :
  recovery_calls action s = map fst (recovery_methods action s).
Proof.
  unfold recovery_calls, recovery_methods, calls_of, methods_of.
  destruct action; try reflexivity.
  - destruct (current_event s) as [ev|]; [|reflexivity].
    induction (affected_components ev) as [|name l IH]; [reflexivity|].
    cbn [flat_map]. rewrite map_app, <- IH. f_equal.
    destruct (dict_get name (components (fst s))) as [c|]; [|reflexivity].
    now destruct (resume c).
  - induction (components (fst s)) as [|[name c] l IH]; [reflexivity|].
    cbn [flat_map]. rewrite map_app, <- IH. f_equal. cbn [snd fst].
    now destruct (clear_cache c).
Qed.

Lemma execute_recovery_action_runs action s :
  exists ok x' tr r,
    _execute_recovery_action action s
    = (Returned ok,
       (fst s, mkWorld x' (reads (snd s)) (calls (snd s) ++ tr) (heap (snd s)))) /\
    runs_until_raise (recovery_methods action s) (ext (snd s)) tr r x' /\
    ok = match action, r with
         | HUMAN_REVIEW, _ | _, Raised _ => false
         | _, Returned _ => true
         end.
Proof.
  assert (Hloop : forall {A} (xs : list A) f m,
    (forall a s0, fst s0 = fst s ->
       (m a = [] /\ f a s0 = (Returned tt, s0)) \/
       (exists c g, m a = [(c, g)] /\ f a s0 = call_raising c g s0)) ->
    exists ok x' tr r,
      try_except (bind (for_each xs f) (fun _ => ret true)) (fun _ => ret false) s
      = (Returned ok,
         (fst s, mkWorld x' (reads (snd s)) (calls (snd s) ++ tr) (heap (snd s)))) /\
      runs_until_raise (flat_map m xs) (ext (snd s)) tr r x' /\
      ok = match r with Returned _ => true | Raised _ => false end).
  { intros A xs f m Hf.
    destruct (for_each_runs (fst s) xs f m Hf s eq_refl) as (r & x' & tr & Hruns & Hrun).
    unfold try_except, bind. rewrite Hrun.
    exists (match r with Returned _ => true | Raised _ => false end), x', tr, r.
    split; [now destruct r|]. now split. }
  assert (Hnone : forall ok : bool,
    (Returned ok, s)
    = (Returned ok,
       (fst s, mkWorld (ext (snd s)) (reads (snd s)) (calls (snd s) ++ [])
                 (heap (snd s))))).
  { intros ok. rewrite app_nil_r. now destruct s as [self []]. }
  unfold _execute_recovery_action, recovery_methods. destruct action.
  - (* RESTART_ARM *)
    destruct (current_event s) as [ev|] eqn:Ecur.
    + edestruct (Hloop _ (affected_components ev)
                   (fun comp_name =>
                      bind (get components) (fun comps =>
                        match dict_get comp_name comps with
                        | Some comp =>
                            match resume comp with
                            | Some method => call_raising (Call_resume comp_name) method
                            | None => ret tt
                            end
                        | None => ret tt
                        end))
                   (fun name =>
                      match dict_get name (components (fst s)) with
                      | Some c =>
                          match resume c with
                          | Some f => [(Call_resume name, f)]
                          | None => []
                          end
                      | None => []
                      end))
        as (ok & x' & tr & r & Hrun & Hruns & Hok);
        [|exists ok, x', tr, r; split;
          [unfold try_except, bind in *; rewrite Ecur; exact Hrun|]].
      * intros name s0 Hs0. rewrite bind_get, <- Hs0.
        destruct (dict_get name (components (fst s0))) as [comp|]; [|now left].
        destruct (resume comp) as [g|]; [right|now left].
        now exists (Call_resume name), g.
      * split; [exact Hruns|]. exact Hok.
    + exists true, (ext (snd s)), [], (Returned tt).
      split; [unfold try_except, bind; rewrite Ecur; apply (Hnone true)|].
      split; [constructor|reflexivity].
  - (* CLEAR_CACHE *)
    edestruct (Hloop _ (components (fst s))
                 (fun '(name, comp) =>
                    match clear_cache comp with
                    | Some method => call_raising (Call_clear_cache name) method
                    | None => ret tt
                    end)
                 (fun kc => match clear_cache (snd kc) with
                            | Some f => [(Call_clear_cache (fst kc), f)]
                            | None => []
                            end))
      as (ok & x' & tr & r & Hrun & Hruns & Hok);
      [|exists ok, x', tr, r; split; [exact Hrun|]].
    + intros [name comp] s0 _. cbn [snd fst].
      destruct (clear_cache comp) as [g|]; [right|now left].
      now exists (Call_clear_cache name), g.
    + split; [exact Hruns|exact Hok].
  - exists true, (ext (snd s)), [], (Returned tt). split; [apply (Hnone true)|].
    split; [constructor|reflexivity].
  - exists false, (ext (snd s)), [], (Returned tt). split; [apply (Hnone false)|].
    split; [constructor|reflexivity].
  - exists true, (ext (snd s)), [], (Returned tt). split; [apply (Hnone true)|].
    split; [constructor|reflexivity].
Qed.

End Loops.

(** Every reachable state is consistent, and the configuration of a
    protocol never changes. *)
Lemma reachable_consistent X clock cb (s : St X) :
  Reachable clock cb s ->
  consistent s /\
  brain_callback (fst s) = cb /\
  auto_recovery_enabled (fst s) = true /\
  max_auto_recovery_attempts (fst s) = 3%Z.
Proof.
  induction 1 as [w Hw|name component s _ (Hc & Hcfg)|name s _ (Hc & Hcfg)
                 |reason source details affected s _ (Hc & Hcb & Hen & Hmx)
                 |auth s _ (Hc & Hcb & Hen & Hmx)
                 |s _ (Hc & Hcb & Hen & Hmx)
                 |x n s _ (Hc & Hcfg)].
  - split; [|now repeat split]. unfold consistent, registry_ok. cbn. rewrite Hw.
    split; [split; [reflexivity|apply NoDup_nil_2]|].
    split; [reflexivity|]. split; [now split|]. intros i ev Hi. discriminate.
  - split; [|exact Hcfg]. destruct Hc as (Hok & Hrest).
    split; [now apply registry_ok_register|exact Hrest].
  - split.
    + destruct Hc as (Hok & Hrest).
      split; [now apply registry_ok_unregister|].
      unfold unregister_component.
      now destruct (dict_contains name (components (fst s))).
    + unfold unregister_component. cbn [fst].
      now destruct (dict_contains name (components (fst s))).
  - destruct (trigger_freeze_consistent X clock reason source details affected s Hc)
      as (Hc' & -> & -> & ->). auto.
  - destruct (unfreeze_consistent X clock auth s Hc) as (Hc' & -> & -> & ->). auto.
  - destruct (run_diagnostics_consistent X clock s Hc) as (Hc' & -> & -> & ->). auto.
  - split; [|exact Hcfg]. exact Hc.
Qed.


Lemma demo_start_registry_ok : registry_ok (fst demo_start).
Proof.
  split; [reflexivity|]. unfold dict_wf.
  apply (bool_decide_unpack _). vm_compute. exact I.
Qed.

Lemma demo_frozen_registry_ok : registry_ok (fst demo_frozen).
Proof.
  split; [reflexivity|]. unfold dict_wf.
  apply (bool_decide_unpack _). vm_compute. exact I.
Qed.

Lemma integrity_score_no_active X (self : FreezeProtocol X) :
  Forall (fun v => v <> "ACTIVE") (dict_values (component_status self)) ->
  (_calculate_integrity_score self == 0)%Q.
Proof.
  intros H. apply active_count_none in H. unfold _calculate_integrity_score.
  destruct (component_status self) as [|kv rest] eqn:E; [reflexivity|].
  unfold active_count in H. rewrite H. reflexivity.
Qed.

(** X11. [_halt_components] never raises, whatever the components do: it
    calls [pause] once on every registered component that has it, in the
    order of the registry, each on what the calls before it left of the
    collaborators, and leaves every registered component with the status
    PAUSED when it has no [pause] or its [pause] returned, and ERROR when
    its [pause] raised; so all are PAUSED when no [pause] raises. Nothing
    else of the protocol changes, no event and no clock reading. *)
Theorem halt_components_halts_everything X (s : St X) :
  registry_ok (fst s) ->
  exists cs' x',
    _halt_components s
    = (Returned tt,
       (set_component_status cs' (fst s),
        mkWorld x' (reads (snd s))
          (calls (snd s) ++ calls_of pause Call_pause (components (fst s)))
          (heap (snd s)))) /\
    swept pause "PAUSED" "ERROR" (components (fst s)) (ext (snd s)) cs' x' /\
    statuses_by halted (components (fst s)) cs' /\
    dict_keys cs' = dict_keys (components (fst s)) /\
    Forall (fun v => v = "PAUSED" \/ v = "ERROR") (dict_values cs') /\
    (Forall (fun kc => pause (snd kc) = None) (components (fst s)) ->
     Forall (fun v => v = "PAUSED") (dict_values cs')) /\
    ((forall name c f x, In (name, c) (components (fst s)) -> pause c = Some f ->
        exists x1, f x = (Returned tt, x1)) ->
     Forall (fun v => v = "PAUSED") (dict_values cs')).
Proof.
  intros Hok. destruct (halt_components_swept X s Hok) as (cs' & x' & Hsw & Hrun).
  assert (Hst : statuses_by halted (components (fst s)) cs').
  { eapply swept_statuses_by; [| |exact Hsw].
    - intros c. now left.
    - intros c Hp. now right. }
  exists cs', x'. split; [exact Hrun|]. split; [exact Hsw|]. split; [exact Hst|].
  split; [eapply statuses_by_keys, Hst|]. split; [|split].
  - eapply statuses_by_values; [exact Hst|].
    intros name c v _ [->|[-> _]]; auto.
  - intros Hnone. eapply statuses_by_values; [exact Hst|].
    intros name c v Hin [->|[_ Hp]]; [reflexivity|].
    rewrite List.Forall_forall in Hnone. now specialize (Hnone _ Hin).
  - intros Hret. eapply swept_all_ok; [exact Hret|exact Hsw].
Qed.

Lemma halt_components_halts_everything_witness :
  exists cs' x',
    _halt_components demo_start
    = (Returned tt,
       (set_component_status cs' (fst demo_start),
        mkWorld x' 0 [Call_pause "hansard"; Call_pause "veritas"] [])) /\
    Forall (fun v => v = "PAUSED") (dict_values cs').
Proof.
  destruct (halt_components_halts_everything (dict bool) demo_start
              demo_start_registry_ok) as (cs' & x' & Hrun & _ & _ & _ & _ & _ & Hall).
  exists cs', x'. split; [exact Hrun|]. apply Hall.
  intros name c f x Hin Hp. cbn in Hin.
  destruct Hin as [E|[E|[]]]; injection E as <- <-; injection Hp as <-;
    eexists; reflexivity.
Defined.

(** X12. [run_diagnostics] never raises, whatever the health checks do:
    it probes every registered component that has a health check, once, in
    the order of the registry, and replaces every status; a component with
    no health check reads NO_HEALTH_CHECK afterwards. The report is taken
    at the first clock reading after the probes, copies the new statuses,
    and scores them; the state, the current event, the history, the
    counters and the events are as before. With no current freeze it
    recommends no action. When no component has a health check (also when
    none is registered) the integrity score is 0. *)
Theorem run_diagnostics_probes_everything X clock (s : St X) :
  registry_ok (fst s) ->
  exists d cs' x',
    run_diagnostics clock s
    = (Returned d,
       (set_component_status cs' (fst s),
        mkWorld x' (S (reads (snd s)))
          (calls (snd s)
           ++ calls_of health_check Call_health_check (components (fst s)))
          (heap (snd s)))) /\
    statuses_by probed (components (fst s)) cs' /\
    dict_keys cs' = dict_keys (components (fst s)) /\
    diag_timestamp d = clock (reads (snd s)) /\
    system_state d = state (fst s) /\
    freeze_event d = current_freeze (fst s) /\
    diag_component_status d = cs' /\
    data_integrity_score d
    = _calculate_integrity_score (set_component_status cs' (fst s)) /\
    human_intervention_required d = human_needed s /\
    recommended_actions d = _determine_recovery_actions s /\
    (current_freeze (fst s) = None -> recommended_actions d = []) /\
    (Forall (fun kc => health_check (snd kc) = None) (components (fst s)) ->
     Forall (fun v => v = "NO_HEALTH_CHECK") (dict_values cs') /\
     (data_integrity_score d == 0)%Q).
Proof.
  intros Hok. destruct (run_diagnostics_spec X clock s Hok) as (cs' & x' & Hst & Hrun).
  eexists _, cs', x'. split; [exact Hrun|]. split; [exact Hst|].
  split; [eapply statuses_by_keys, Hst|].
  cbn [diag_timestamp system_state freeze_event diag_component_status
       data_integrity_score human_intervention_required recommended_actions].
  do 7 (split; [reflexivity|]). split.
  - intros Hcur. unfold _determine_recovery_actions, current_event. now rewrite Hcur.
  - intros Hnone.
    assert (Hall : Forall (fun v => v = "NO_HEALTH_CHECK") (dict_values cs')).
    { eapply statuses_by_values; [exact Hst|]. intros name c v Hin Hv. apply Hv.
      rewrite List.Forall_forall in Hnone. now specialize (Hnone _ Hin). }
    split; [exact Hall|]. apply integrity_score_no_active. proj_simpl.
    eapply List.Forall_impl; [|exact Hall]. intros v ->. discriminate.
Qed.

Lemma run_diagnostics_probes_everything_witness :
  exists d cs' x',
    run_diagnostics same_second_clock demo_frozen
    = (Returned d,
       (set_component_status cs' (fst demo_frozen),
        mkWorld x' (S (reads (snd demo_frozen)))
          (calls (snd demo_frozen)
           ++ [Call_health_check "hansard"; Call_health_check "veritas"])
          (heap (snd demo_frozen)))).
Proof.
  destruct (run_diagnostics_probes_everything (dict bool) same_second_clock demo_frozen
              demo_frozen_registry_ok) as (d & cs' & x' & Hrun & _).
  exists d, cs', x'. exact Hrun.
Defined.

(** X13. An authorized [unfreeze] of a frozen system calls [resume] once
    on every registered component that has it, in the order of the
    registry, whatever the freeze affected, each on what the calls before
    it left of the collaborators, and marks a component ACTIVE when it has
    no [resume] or its [resume] returned, and ERROR when its [resume]
    raised; it closes the current event with the first clock reading of
    the call and the authorization, leaves all other events as they are,
    and ends ACTIVE with no current event and the attempt counter at 0.
    Then it calls the brain callback, if there is one: it returns true when
    there is none or the callback returned, and raises what the callback
    raised, the system being already unfrozen. *)
Theorem unfreeze_resumes_everything X clock (c : ascii) (rest : string) (s : St X) :
  state (fst s) = FROZEN ->
  registry_ok (fst s) ->
  let out := unfreeze clock (Some (String c rest)) s in
  let s' := snd out in
  (fst out = Returned true \/
   (exists e, fst out = Raised e) /\ brain_callback (fst s) <> None) /\
  state (fst s') = ACTIVE /\
  current_freeze (fst s') = None /\
  recovery_attempts (fst s') = 0%Z /\
  statuses_by resumed (components (fst s)) (component_status (fst s')) /\
  Forall (fun v => v = "ACTIVE" \/ v = "ERROR") (dict_values (component_status (fst s'))) /\
  (Forall (fun kc => resume (snd kc) = None) (components (fst s)) ->
   Forall (fun v => v = "ACTIVE") (dict_values (component_status (fst s')))) /\
  calls (snd s')
  = (calls (snd s)
     ++ calls_of resume Call_resume (components (fst s))
     ++ match brain_callback (fst s) with
        | Some _ => [Call_brain "unfreeze"]
        | None => []
        end)%list /\
  (forall i,
     heap (snd s') !! i
     = if bool_decide (current_freeze (fst s) = Some i)
       then resolve (clock (reads (snd s))) (String c rest) <$> heap (snd s) !! i
       else heap (snd s) !! i) /\
  components (fst s') = components (fst s) /\
  freeze_history (fst s') = freeze_history (fst s) /\
  brain_callback (fst s') = brain_callback (fst s) /\
  auto_recovery_enabled (fst s') = auto_recovery_enabled (fst s) /\
  max_auto_recovery_attempts (fst s') = max_auto_recovery_attempts (fst s) /\
  (exists x1,
     swept resume "ACTIVE" "ERROR" (components (fst s)) (ext (snd s))
       (component_status (fst s')) x1 /\
     match brain_callback (fst s) with
     | Some f =>
         fst out = match fst (f "unfreeze" None x1) with
                   | Returned _ => Returned true
                   | Raised e => Raised e
                   end /\
         ext (snd s') = snd (f "unfreeze" None x1)
     | None => fst out = Returned true /\ ext (snd s') = x1
     end) /\
  ((forall name c0 f x, In (name, c0) (components (fst s)) -> resume c0 = Some f ->
      exists x1, f x = (Returned tt, x1)) ->
   Forall (fun v => v = "ACTIVE") (dict_values (component_status (fst s')))).
Proof.
  intros Hfrozen Hok out s'.
  destruct (unfreeze_swept X clock c rest s Hfrozen Hok)
    as (cs' & x1 & x' & r & Hsw & Hrun & Hr).
  assert (Hst : statuses_by resumed (components (fst s)) cs').
  { eapply swept_statuses_by; [| |exact Hsw].
    - intros c0. now left.
    - intros c0 Hp. now right. }
  subst s' out. rewrite Hrun. proj_simpl.
  split.
  { destruct (brain_callback (fst s)) as [f|]; [|now left].
    destruct Hr as [-> _]. destruct (fst (f "unfreeze" None x1)) as [u|e]; [now left|].
    right. split; [now exists e|discriminate]. }
  do 3 (split; [reflexivity|]). split; [exact Hst|].
  assert (Hvals : Forall (fun v => v = "ACTIVE" \/ v = "ERROR") (dict_values cs')).
  { eapply statuses_by_values; [exact Hst|]. intros name c0 v _ [->|[-> _]]; auto. }
  split; [exact Hvals|]. split.
  { intros Hnone. eapply statuses_by_values; [exact Hst|].
    intros name c0 v Hin [->|[_ Hp]]; [reflexivity|].
    rewrite List.Forall_forall in Hnone. now specialize (Hnone _ Hin). }
  split; [reflexivity|]. split.
  { intros i. destruct (current_freeze (fst s)) as [e|].
    - destruct (decide (e = i)) as [->|Hne].
      + rewrite bool_decide_eq_true_2 by reflexivity. apply list_lookup_alter_eq.
      + rewrite bool_decide_eq_false_2 by congruence. now apply list_lookup_alter_ne.
    - now rewrite bool_decide_eq_false_2 by discriminate. }
  do 5 (split; [reflexivity|]). split.
  - exists x1. split; [exact Hsw|exact Hr].
  - intros Hret. eapply swept_all_ok; [exact Hret|exact Hsw].
Qed.

Lemma unfreeze_resumes_everything_witness :
  state (fst (snd (unfreeze same_second_clock (Some "admin_authorization")
                     demo_frozen))) = ACTIVE.
Proof.
  refine (proj1 (proj2 (unfreeze_resumes_everything (dict bool) same_second_clock
                          "a" "dmin_authorization" demo_frozen _ _))).
  - reflexivity.
  - exact demo_frozen_registry_ok.
Defined.




(** X15. When human review is needed, no recovery is attempted. A freeze
    with reason SECURITY_CONCERN or DATA_INTEGRITY, or with auto-recovery
    switched off, or with the attempt counter at its maximum, leaves the
    system FROZEN with the new event current and the attempt counter
    unchanged, and makes no call into the components beyond pausing and
    probing them: no [resume], no [clear_cache]. *)
Theorem freeze_needing_human_stays_frozen X clock reason source details affected
    (s : St X) :
  state (fst s) <> FROZEN ->
  registry_ok (fst s) ->
  (reason = SECURITY_CONCERN \/ reason = DATA_INTEGRITY \/
   auto_recovery_enabled (fst s) = false \/
   (max_auto_recovery_attempts (fst s) <= recovery_attempts (fst s))%Z) ->
  let out := trigger_freeze clock reason source details affected s in
  let s' := snd out in
  state (fst s') = FROZEN /\
  current_freeze (fst s') = Some (length (heap (snd s))) /\
  recovery_attempts (fst s') = recovery_attempts (fst s) /\
  ((fst out = Returned (Some (length (heap (snd s)))) /\
    calls (snd s')
    = (calls (snd s)
       ++ calls_of pause Call_pause (components (fst s))
       ++ match brain_callback (fst s) with
          | Some _ => [Call_brain "freeze"]
          | None => []
          end
       ++ calls_of health_check Call_health_check (components (fst s)))%list)
   \/
   ((exists e, fst out = Raised e) /\ brain_callback (fst s) <> None /\
    calls (snd s')
    = (calls (snd s)
       ++ calls_of pause Call_pause (components (fst s))
       ++ [Call_brain "freeze"])%list)).
Proof.
  intros Hstate Hok Hhuman out s'.
  destruct (trigger_freeze_spec X clock reason source details affected s Hstate Hok)
    as (r & s1 & tr & Hrun & Hcalls & Hcases).
  subst out s'. rewrite Hrun. cbn [fst snd].
  destruct Hcases as [(Hr & Hcb & -> & (cs' & Hst & Hs') & Hheap)
                     |[(Hr & (cs' & a & Hst & Hs' & Ha) & Hheap)
                      |(_ & Hen & Hlt & Hr1 & Hr2 & _)]].
  - rewrite Hs'. proj_simpl. do 3 (split; [reflexivity|]). right. auto.
  - assert (Ha' : a = recovery_attempts (fst s) /\
                  tr = (match brain_callback (fst s) with
                        | Some _ => [Call_brain "freeze"]
                        | None => []
                        end
                        ++ calls_of health_check Call_health_check
                             (components (fst s)))%list).
    { destruct Ha as [Ha|(_ & Hen & Hlt & Hr1 & Hr2)]; [exact Ha|].
      exfalso. destruct Hhuman as [->|[->|[Hd|Hmax]]];
        [now apply Hr1|now apply Hr2|congruence|lia]. }
    destruct Ha' as [-> ->]. rewrite Hs'. proj_simpl.
    do 3 (split; [reflexivity|]). left. split; [exact Hr|exact Hcalls].
  - exfalso. destruct Hhuman as [->|[->|[Hd|Hmax]]];
      [now apply Hr1|now apply Hr2|congruence|lia].
Qed.

Lemma freeze_needing_human_stays_frozen_witness :
  state (fst (snd (trigger_freeze same_second_clock SECURITY_CONCERN "veritas"
                     "tampering" None demo_start))) = FROZEN.
Proof.
  refine (proj1 (freeze_needing_human_stays_frozen (dict bool) same_second_clock
                   SECURITY_CONCERN "veritas" "tampering" None demo_start _ _ _)).
  - discriminate.
  - exact demo_start_registry_ok.
  - left. reflexivity.
Defined.

(** X16. A system none of whose components has a health check cannot
    recover by itself, and neither can a system with no component at all:
    diagnostics then mark every component NO_HEALTH_CHECK, which scores 0
    against the threshold 0.8. Every freeze of such a system, whatever its
    reason, leaves it FROZEN until someone unfreezes it. *)
Theorem freeze_without_health_checks_stays_frozen X clock reason source details
    affected (s : St X) :
  state (fst s) <> FROZEN ->
  registry_ok (fst s) ->
  Forall (fun kc => health_check (snd kc) = None) (components (fst s)) ->
  let out := trigger_freeze clock reason source details affected s in
  let s' := snd out in
  state (fst s') = FROZEN /\
  current_freeze (fst s') = Some (length (heap (snd s))) /\
  (fst out = Returned (Some (length (heap (snd s)))) ->
   Forall (fun v => v = "NO_HEALTH_CHECK") (dict_values (component_status (fst s')))).
Proof.
  intros Hstate Hok Hnone out s'.
  assert (Hall : forall cs', statuses_by probed (components (fst s)) cs' ->
                 Forall (fun v => v = "NO_HEALTH_CHECK") (dict_values cs')).
  { intros cs' Hst. eapply statuses_by_values; [exact Hst|].
    intros name c v Hin Hv. apply Hv.
    rewrite List.Forall_forall in Hnone. now specialize (Hnone _ Hin). }
  destruct (trigger_freeze_spec X clock reason source details affected s Hstate Hok)
    as (r & s1 & tr & Hrun & Hcalls & Hcases).
  subst out s'. rewrite Hrun. cbn [fst snd].
  destruct Hcases as [([e ->] & Hcb & _ & (cs' & Hst & Hs') & Hheap)
                     |[(Hr & (cs' & a & Hst & Hs' & Ha) & Hheap)
                      |(_ & _ & _ & _ & _ & (cs_post & Hst & Hscore) & _)]].
  - rewrite Hs'. proj_simpl. do 2 (split; [reflexivity|]). discriminate.
  - rewrite Hs'. proj_simpl. do 2 (split; [reflexivity|]). intros _. now apply Hall.
  - exfalso.
    assert (Hzero : (_calculate_integrity_score (set_component_status cs_post (fst s))
                     == 0)%Q).
    { apply integrity_score_no_active. proj_simpl.
      eapply List.Forall_impl; [|exact (Hall _ Hst)]. intros v ->. discriminate. }
    rewrite Hzero in Hscore. now apply Hscore.
Qed.

Lemma freeze_without_health_checks_stays_frozen_witness :
  state (fst (snd (trigger_freeze same_second_clock ARM_FAILURE "hansard" "timeout"
                     None (init None, mkWorld tt 0 [] [])))) = FROZEN.
Proof.
  refine (proj1 (freeze_without_health_checks_stays_frozen unit same_second_clock
                   ARM_FAILURE "hansard" "timeout" None
                   (init None, mkWorld tt 0 [] []) _ _ _)).
  - discriminate.
  - split; [reflexivity|]. apply NoDup_nil_2.
  - constructor.
Defined.

(** X17. Between any two calls of its public methods a protocol is in a
    consistent state, whatever its components and its callback do, raise
    included. The state is ACTIVE or FROZEN, never RECOVERING or
    MAINTENANCE; it is FROZEN exactly when there is a current event, which
    is then the latest event and the only open one; every other event is
    closed with a time and a non-empty authorization; the history holds
    every event ever created, in order; the two registries hold the same
    names; and the attempt counter is 0 or 1, so it never reaches the
    maximum of 3 and is 0 whenever the system is ACTIVE. [get_status]
    reports accordingly. *)
Theorem reachable_states_are_consistent X clock cb (s : St X) :
  Reachable clock cb s ->
  consistent s /\
  brain_callback (fst s) = cb /\
  auto_recovery_enabled (fst s) = true /\
  max_auto_recovery_attempts (fst s) = 3%Z /\
  (status_system_state (get_status s) = "ACTIVE" \/
   status_system_state (get_status s) = "FROZEN") /\
  (is_frozen (get_status s) = true <-> status_current_freeze (get_status s) <> None) /\
  freeze_history_count (get_status s) = Z.of_nat (length (heap (snd s))) /\
  (0 <= status_recovery_attempts (get_status s) <= 1)%Z /\
  (is_frozen (get_status s) = false -> status_recovery_attempts (get_status s) = 0%Z) /\
  dict_keys (status_component_status (get_status s)) = dict_keys (components (fst s)).
Proof.
  intros Hreach. destruct (reachable_consistent X clock cb s Hreach)
    as (Hc & Hcb & Hen & Hmx).
  split; [exact Hc|]. do 3 (split; [assumption|]).
  destruct Hc as ([Hk Hwf] & Hhist & Hcur & Hev).
  unfold get_status, current_event. cbn.
  destruct (current_freeze (fst s)) as [e|] eqn:E.
  - destruct Hcur as (Hst & He & Ha). rewrite Hst. cbn.
    assert (Hlook : exists ev, heap (snd s) !! e = Some ev).
    { apply lookup_lt_is_Some. lia. }
    destruct Hlook as [ev ->].
    split; [now right|]. split; [split; [discriminate|reflexivity]|].
    split; [now rewrite Hhist, length_seq|].
    split; [lia|]. split; [discriminate|now symmetry].
  - destruct Hcur as (Hst & Ha). rewrite Hst. cbn.
    split; [now left|]. split; [split; [discriminate|congruence]|].
    split; [now rewrite Hhist, length_seq|].
    split; [lia|]. split; [auto|now symmetry].
Qed.

Lemma demo_frozen_reachable : Reachable same_second_clock None demo_frozen.
Proof.
  apply (Reach_trigger_freeze same_second_clock None API_ERROR "hansard"
           "Parliament API returned 503 - Service Unavailable" (Some ["hansard"])
           demo_start).
  apply (Reach_register same_second_clock None "veritas" (MockArm "veritas")
           (register_component "hansard" (MockArm "hansard") (init None),
            mkWorld [("hansard", true); ("veritas", true)] 0 [] [])).
  apply (Reach_register same_second_clock None "hansard" (MockArm "hansard")
           (init None, mkWorld [("hansard", true); ("veritas", true)] 0 [] [])).
  now apply Reach_init.
Qed.

Lemma reachable_states_are_consistent_witness :
  consistent demo_frozen /\ is_frozen (get_status demo_frozen) = true.
Proof.
  split.
  - exact (proj1 (reachable_states_are_consistent (dict bool) same_second_clock None
                    demo_frozen demo_frozen_reachable)).
  - reflexivity.
Defined.

(** A loop of calls outside any [try]: it makes the calls of its items in
    order, up to and including the first that raises. *)
(** X18. A recovery action never raises and never changes the protocol:
    not the state, not the statuses (a restarted component keeps the
    status it had until the next diagnostics), not the events, not the
    clock. RESTART_ARM calls [resume] on the affected components of the
    current event that are registered and have it, in the order of that
    list; CLEAR_CACHE calls [clear_cache] on every component that has it;
    each call is made on what the calls before it left of the
    collaborators, the first call that raises is the last one made, and the
    action then reports failure; when every call returns it reports
    success. ROLLBACK_DATA and FULL_DIAGNOSTIC call nothing and succeed;
    HUMAN_REVIEW calls nothing and fails. *)
Theorem recovery_action_effects X action (s : St X) :
  exists ok x' tr r,
    _execute_recovery_action action s
    = (Returned ok,
       (fst s, mkWorld x' (reads (snd s)) (calls (snd s) ++ tr) (heap (snd s)))) /\
    runs_until_raise (recovery_methods action s) (ext (snd s)) tr r x' /\
    ok = match action, r with
         | HUMAN_REVIEW, _ | _, Raised _ => false
         | _, Returned _ => true
         end /\
    (action = ROLLBACK_DATA \/ action = FULL_DIAGNOSTIC \/ action = HUMAN_REVIEW ->
     tr = [] /\ x' = ext (snd s)) /\
    (exists rest, recovery_calls action s = (tr ++ rest)%list) /\
    (ok = true -> action <> HUMAN_REVIEW /\ tr = recovery_calls action s) /\
    (ok = false -> action = HUMAN_REVIEW \/ tr <> []) /\
    (tr = [] -> x' = ext (snd s)).
Proof.
  destruct (execute_recovery_action_runs X action s)
    as (ok & x' & tr & r & Hrun & Hruns & Hok).
  destruct (runs_calls X _ _ _ _ _ Hruns) as (Hrest & Hret & Hraise & Hnil).
  rewrite <- recovery_calls_methods in Hrest, Hret.
  exists ok, x', tr, r. split; [exact Hrun|]. split; [exact Hruns|].
  split; [exact Hok|]. split.
  { intros Hact.
    assert (Hms : recovery_methods action s = [])
      by (destruct Hact as [->|[->| ->]]; reflexivity).
    rewrite Hms in Hruns. inversion Hruns. now split. }
  split; [exact Hrest|]. split; [|split].
  - intros ->. destruct action, r as [[]|e]; try discriminate;
      (split; [discriminate|now apply Hret]).
  - intros ->. destruct action, r as [[]|e]; try discriminate;
      first [now left|right; apply Hraise; now exists e].
  - intros E. now apply Hnil.
Qed.

End FreezeMore.

(** ** The freeze protocol with the arms of its demo *)

Module MockArmFacts.
Import Py Freeze FreezeMore.

Ltac steps :=
  repeat first
    [ rewrite bind_assoc | rewrite bind_ret | rewrite bind_get | rewrite bind_assign
    | rewrite bind_now
    | rewrite bind_new_event | rewrite bind_read_event | rewrite bind_update_event ];
  proj_simpl.

Section SetAll.
Context {V : Type}.
Implicit Types (d : dict V) (f : string -> V).

Lemma set_all_get_in names f d n :
  In n names -> dict_get n (set_all names f d) = Some (f n).
Proof.
  unfold set_all. revert d. induction names as [|k names IH] using rev_ind; intros d.
  - intros [].
  - rewrite in_app_iff, fold_left_app. cbn.
    destruct (String.eqb_spec k n) as [->|Hne].
    + intros _. apply PyFacts.dict_get_set_eq.
    + intros [Hin|[E|[]]]; [|contradiction].
      rewrite PyFacts.dict_get_set_ne by exact Hne. now apply IH.
Qed.

Lemma set_all_get_out names f d n :
  ~ In n names -> dict_get n (set_all names f d) = dict_get n d.
Proof.
  unfold set_all. revert d. induction names as [|k names IH]; intros d Hn; cbn.
  - reflexivity.
  - cbn in Hn. rewrite IH by tauto. apply PyFacts.dict_get_set_ne. tauto.
Qed.

Lemma set_all_keys names f d :
  incl names (dict_keys d) -> dict_keys (set_all names f d) = dict_keys d.
Proof.
  unfold set_all. revert d.
  induction names as [|k names IH]; intros d Hincl; cbn [fold_left].
  - reflexivity.
  - assert (Hk : dict_keys (dict_set k (f k) d) = dict_keys d).
    { rewrite PyFacts.dict_keys_set.
      replace (dict_contains k d) with true; [reflexivity|].
      symmetry. apply PyFacts.dict_contains_keys. apply Hincl. now left. }
    rewrite IH; [exact Hk|]. rewrite Hk. intros x Hx. apply Hincl. now right.
Qed.

(** A dict is determined by its keys and what [get] finds under them. *)
Lemma dict_ext d d' :
  List.NoDup (dict_keys d) ->
  dict_keys d = dict_keys d' ->
  (forall k, In k (dict_keys d) -> dict_get k d = dict_get k d') ->
  d = d'.
Proof.
  revert d'. induction d as [|[k v] d IH]; intros [|[k' v'] d'] Hnd Hk Hget;
    try discriminate; [reflexivity|].
  cbn in Hk. injection Hk as <- Hk. apply List.NoDup_cons_iff in Hnd as [Hn Hnd].
  assert (Hv : v = v').
  { specialize (Hget k (or_introl eq_refl)). cbn in Hget.
    rewrite String.eqb_refl in Hget. now injection Hget. }
  subst v'. f_equal. apply IH; [exact Hnd|exact Hk|].
  intros n Hin. specialize (Hget n (or_intror Hin)). cbn in Hget.
  destruct (String.eqb_spec n k) as [E|Hne]; [|exact Hget].
  subst n. exfalso. apply Hn. exact Hin.
Qed.

Lemma dict_get_map f names n :
  dict_get n (map (fun k => (k, f k)) names) = if existsb (String.eqb n) names
                                               then Some (f n) else None.
Proof.
  induction names as [|k names IH]; cbn; [reflexivity|].
  destruct (String.eqb_spec n k) as [->|Hne]; [reflexivity|exact IH].
Qed.

Lemma existsb_eqb_In (n : string) (names : list string) :
  existsb (String.eqb n) names = true <-> In n names.
Proof.
  rewrite existsb_exists. split.
  - intros (k & Hin & E). apply String.eqb_eq in E. now subst.
  - intros Hin. exists n. split; [exact Hin|apply String.eqb_refl].
Qed.

(** Assigning to every key rewrites the whole dict. *)
Lemma set_all_whole names f d :
  List.NoDup names -> dict_keys d = names ->
  set_all names f d = map (fun k => (k, f k)) names.
Proof.
  intros Hnd Hk. apply dict_ext.
  - rewrite set_all_keys; [now rewrite Hk|]. rewrite Hk. apply incl_refl.
  - rewrite set_all_keys; [|rewrite Hk; apply incl_refl].
    unfold dict_keys. rewrite map_map. cbn. rewrite map_id. exact Hk.
  - intros k Hin. rewrite set_all_keys in Hin by (rewrite Hk; apply incl_refl).
    rewrite Hk in Hin. rewrite set_all_get_in by exact Hin.
    rewrite dict_get_map. now rewrite (proj2 (existsb_eqb_In k names) Hin).
Qed.

End SetAll.


Implicit Types (s : St (dict bool)) (x : dict bool) (names : list string).

(** A loop over the demo's arms whose body calls a method that acts on
    the flags as [g] says and then sets the status of the arm by [v]. *)
Lemma mock_loop (g : string -> dict bool -> dict bool)
    (v : string -> dict bool -> string) (mk : string -> Call)
    (body : string * Component (dict bool) -> M (dict bool) unit) :
  (forall n s,
     body (n, MockArm n) s
     = (Returned tt,
        (set_component_status
           (dict_set n (v n (g n (ext (snd s)))) (component_status (fst s))) (fst s),
         mkWorld (g n (ext (snd s))) (reads (snd s)) (calls (snd s) ++ [mk n])
           (heap (snd s))))) ->
  forall names s,
    let step := fun (p : dict string * dict bool) n =>
                  (dict_set n (v n (g n (snd p))) (fst p), g n (snd p)) in
    let p := fold_left step names (component_status (fst s), ext (snd s)) in
    for_each (mock_arms names) body s
    = (Returned tt,
       (set_component_status (fst p) (fst s),
        mkWorld (snd p) (reads (snd s)) (calls (snd s) ++ map mk names)
          (heap (snd s)))).
Proof.
  intros Hbody names. induction names as [|n names IH]; intros s step p.
  - subst p. cbn. rewrite app_nil_r. destruct s as [self []]. now destruct self.
  - subst p. cbn [mock_arms map for_each fold_left]. unfold bind. rewrite Hbody.
    fold (mock_arms names). rewrite IH. proj_simpl.
    rewrite <- app_assoc. reflexivity.
Qed.

Lemma fold_set_both {V} names (a : V) (b : bool) (cs : dict V) x :
  fold_left (fun (p : dict V * dict bool) n => (dict_set n a (fst p), dict_set n b (snd p)))
    names (cs, x)
  = (set_all names (fun _ => a) cs, set_all names (fun _ => b) x).
Proof.
  unfold set_all. revert cs x. induction names as [|n names IH]; intros cs x; cbn.
  - reflexivity.
  - apply IH.
Qed.

Lemma fold_set_status names (f : dict bool -> string -> string) (cs : dict string) x :
  fold_left (fun (p : dict string * dict bool) n =>
               (dict_set n (f (snd p) n) (fst p), snd p))
    names (cs, x)
  = (set_all names (f x) cs, x).
Proof.
  unfold set_all. revert cs. induction names as [|n names IH]; intros cs; cbn.
  - reflexivity.
  - apply IH.
Qed.

Lemma mock_halt names s :
  components (fst s) = mock_arms names ->
  _halt_components s
  = (Returned tt,
     (set_component_status
        (set_all names (fun _ => "PAUSED") (component_status (fst s))) (fst s),
      mkWorld (set_all names (fun _ => false) (ext (snd s))) (reads (snd s))
        (calls (snd s) ++ map Call_pause names) (heap (snd s)))).
Proof.
  intros Hc. unfold _halt_components. rewrite bind_get, Hc.
  rewrite (mock_loop (fun n x => dict_set n false x) (fun _ _ => "PAUSED") Call_pause).
  - cbv zeta. now rewrite fold_set_both.
  - intros n [self [x rd cl h]]. reflexivity.
Qed.

Lemma mock_diagnostics clock names s :
  components (fst s) = mock_arms names ->
  exists d,
    run_diagnostics clock s
    = (Returned d,
       (set_component_status
          (set_all names (fun n => if flag (ext (snd s)) n then "ACTIVE" else "PAUSED")
             (component_status (fst s))) (fst s),
        mkWorld (ext (snd s)) (S (reads (snd s)))
          (calls (snd s) ++ map Call_health_check names) (heap (snd s)))) /\
    human_intervention_required d = human_needed s /\
    recommended_actions d = _determine_recovery_actions s /\
    data_integrity_score d
    = _calculate_integrity_score
        (set_component_status
           (set_all names (fun n => if flag (ext (snd s)) n then "ACTIVE" else "PAUSED")
              (component_status (fst s))) (fst s)).
Proof.
  intros Hc. unfold run_diagnostics. rewrite bind_get, Hc.
  eexists. split; [|split; [|split]].
  - unfold bind at 1.
    rewrite (mock_loop (fun n x => x)
               (fun n x => if flag x n then "ACTIVE" else "PAUSED") Call_health_check).
    + cbv zeta.
      rewrite (fold_set_status names
                 (fun x n => if flag x n then "ACTIVE" else "PAUSED")).
      destruct s as [self w]. reflexivity.
    + intros n [self [x rd cl h]]. unfold flag. cbn.
      unfold bind, call, set_status, assign. cbn.
      now destruct (dict_get n x) as [[|]|].
  - reflexivity.
  - reflexivity.
  - reflexivity.
Qed.


Lemma mock_unfreeze clock names (e : EventRef) s :
  components (fst s) = mock_arms names ->
  state (fst s) = FROZEN ->
  current_freeze (fst s) = Some e ->
  brain_callback (fst s) = None ->
  unfreeze clock (Some "auto_recovery") s
  = (Returned true,
     (mkFreezeProtocol None ACTIVE None (components (fst s))
        (set_all names (fun _ => "ACTIVE") (component_status (fst s)))
        (freeze_history (fst s)) (auto_recovery_enabled (fst s))
        (max_auto_recovery_attempts (fst s)) 0,
      mkWorld (set_all names (fun _ => true) (ext (snd s))) (S (reads (snd s)))
        (calls (snd s) ++ map Call_resume names)
        (alter (resolve (clock (reads (snd s))) "auto_recovery") e (heap (snd s))))).
Proof.
  intros Hc Hst Hcur Hcb. unfold unfreeze. rewrite bind_get, Hst.
  cbn [SystemState_eqb negb]. rewrite bind_assign, bind_get. proj_simpl. rewrite Hc.
  unfold bind at 1.
  rewrite (mock_loop (fun n x => dict_set n true x) (fun _ _ => "ACTIVE") Call_resume).
  - cbv zeta. rewrite fold_set_both. proj_simpl.
    destruct s as [[cb st cur comps cs hist en mx att] [x rd cl h]]. proj_simpl.
    subst. steps. reflexivity.
  - intros n [self [x rd cl h]]. reflexivity.
Qed.

Lemma mock_get names n :
  dict_get n (mock_arms names)
  = if existsb (String.eqb n) names then Some (MockArm n) else None.
Proof. apply (dict_get_map MockArm). Qed.

Lemma mock_restart_loop names aff s :
  components (fst s) = mock_arms names ->
  exists cl',
    for_each aff (fun comp_name =>
      bind (get components) (fun comps =>
        match dict_get comp_name comps with
        | Some comp =>
            match resume comp with
            | Some method => call_raising (Call_resume comp_name) method
            | None => ret tt
            end
        | None => ret tt
        end)) s
    = (Returned tt,
       (fst s,
        mkWorld (set_all (List.filter (fun n => existsb (String.eqb n) names) aff)
                   (fun _ => true) (ext (snd s)))
          (reads (snd s)) cl' (heap (snd s)))).
Proof.
  intros Hc. revert s Hc. induction aff as [|n aff IH]; intros s Hc.
  - exists (calls (snd s)). cbn. destruct s as [self []]. reflexivity.
  - cbn [for_each List.filter]. unfold bind at 1. rewrite bind_get, Hc, mock_get.
    destruct (existsb (String.eqb n) names).
    + cbn [resume MockArm].
      assert (Hstep : call_raising (Call_resume n)
                        (fun x : dict bool => (Returned tt, dict_set n true x)) s
                      = (Returned tt,
                         (fst s, mkWorld (dict_set n true (ext (snd s))) (reads (snd s))
                                   (calls (snd s) ++ [Call_resume n]) (heap (snd s)))))
        by reflexivity.
      rewrite Hstep.
      destruct (IH (fst s, mkWorld (dict_set n true (ext (snd s))) (reads (snd s))
                             (calls (snd s) ++ [Call_resume n]) (heap (snd s))) Hc)
        as (cl' & Hrun).
      exists cl'. rewrite Hrun. reflexivity.
    + destruct (IH s Hc) as (cl' & Hrun). exists cl'.
      unfold ret at 1. rewrite Hrun. reflexivity.
Qed.

(** The recovery actions of a freeze that needs no human, on the demo's
    arms: they all succeed, and resume the affected arms when the reason
    has a restart among its actions. *)
Lemma mock_recovery names ev s :
  components (fst s) = mock_arms names ->
  current_event s = Some ev ->
  reason ev <> SECURITY_CONCERN -> reason ev <> DATA_INTEGRITY ->
  exists cl',
    recovery_loop (_determine_recovery_actions s) s
    = (Returned true,
       (fst s,
        mkWorld (if restarts (reason ev)
                 then set_all (List.filter (fun n => existsb (String.eqb n) names)
                                 (affected_components ev))
                        (fun _ => true) (ext (snd s))
                 else ext (snd s))
          (reads (snd s)) cl' (heap (snd s)))).
Proof.
  intros Hc Hev H1 H2.
  assert (Hrestart : forall s0 : St (dict bool),
            components (fst s0) = mock_arms names ->
            current_event s0 = Some ev ->
            exists cl',
              _execute_recovery_action RESTART_ARM s0
              = (Returned true,
                 (fst s0,
                  mkWorld (set_all (List.filter (fun n => existsb (String.eqb n) names)
                                      (affected_components ev))
                             (fun _ => true) (ext (snd s0)))
                    (reads (snd s0)) cl' (heap (snd s0))))).
  { intros s0 Hc0 Hev0.
    destruct (mock_restart_loop names (affected_components ev) s0 Hc0) as (cl' & Hrun).
    exists cl'. unfold _execute_recovery_action, try_except.
    unfold bind at 1. unfold bind at 1. cbv beta iota. rewrite Hev0, Hrun.
    reflexivity. }
  assert (Hclear : forall s0 : St (dict bool),
            components (fst s0) = mock_arms names ->
            _execute_recovery_action CLEAR_CACHE s0
            = (Returned true, s0)).
  { intros s0 Hc0. unfold _execute_recovery_action, try_except. rewrite bind_get, Hc0.
    assert (Hloop : forall ns, for_each (mock_arms ns)
              (fun '(name, comp) =>
                 match clear_cache comp with
                 | Some method => call_raising (Call_clear_cache name) method
                 | None => ret tt
                 end) s0 = (Returned tt, s0)).
    { induction ns as [|n ns IHn]; [reflexivity|].
      cbn [mock_arms map for_each]. unfold bind. cbn. exact IHn. }
    unfold bind. now rewrite Hloop. }
  unfold _determine_recovery_actions. rewrite Hev.
  destruct (reason ev) eqn:Er; try contradiction; cbn [restarts recovery_loop].
  - destruct (Hrestart s Hc Hev) as (cl' & Hrun). exists cl'.
    unfold bind. rewrite Hrun. reflexivity.
  - exists (calls (snd s)). unfold bind. destruct s as [self []]. reflexivity.
  - destruct (Hrestart s Hc Hev) as (cl' & Hrun). exists cl'.
    unfold bind at 1. rewrite (Hclear s Hc). unfold bind. rewrite Hrun. reflexivity.
  - exists (calls (snd s)). unfold bind. destruct s as [self []]. reflexivity.
  - exists (calls (snd s)). unfold bind. destruct s as [self []]. reflexivity.
Qed.


Lemma flag_set_all_in names (b : bool) x n :
  In n names -> flag (set_all names (fun _ => b) x) n = b.
Proof.
  intros Hin. unfold flag. rewrite set_all_get_in by exact Hin. now destruct b.
Qed.

Lemma flag_set_all_out names (b : bool) x n :
  ~ In n names -> flag (set_all names (fun _ => b) x) n = flag x n.
Proof. intros Hn. unfold flag. now rewrite set_all_get_out. Qed.

Lemma probe_statuses names (r : string -> bool) (cs : dict string) x :
  List.NoDup names -> dict_keys cs = names ->
  (forall n, In n names -> flag x n = r n) ->
  set_all names (fun n => if flag x n then "ACTIVE" else "PAUSED") cs
  = map (fun n => (n, if r n then "ACTIVE" else "PAUSED")) names.
Proof.
  intros Hnd Hk Hr. rewrite (set_all_whole _ _ _ Hnd Hk).
  apply map_ext_in. intros n Hin. now rewrite Hr.
Qed.

Lemma keys_of_map {V} (f : string -> V) names :
  dict_keys (map (fun n => (n, f n)) names) = names.
Proof. unfold dict_keys. rewrite map_map. cbn. apply map_id. Qed.

Lemma active_count_map (r : string -> bool) names :
  active_count (map (fun n => (n, if r n then "ACTIVE" else "PAUSED")) names)
  = length (List.filter r names).
Proof.
  unfold active_count, dict_values. rewrite map_map. cbn [snd].
  induction names as [|n names IH]; cbn; [reflexivity|].
  destruct (r n); cbn; now rewrite IH.
Qed.

Lemma score_threshold X (self : FreezeProtocol X) (r : string -> bool) names :
  Qgeb (_calculate_integrity_score
          (set_component_status
             (map (fun n => (n, if r n then "ACTIVE" else "PAUSED")) names) self)) 0.8
  = negb (Nat.eqb (length names) 0)
    && (4 * Z.of_nat (length names) <=? 5 * Z.of_nat (length (List.filter r names)))%Z.
Proof.
  destruct names as [|n0 names0] eqn:E; [reflexivity|]. rewrite <- E.
  assert (Hlen : (0 < length names)%nat) by (rewrite E; cbn; lia).
  replace (Nat.eqb (length names) 0) with false
    by (symmetry; apply Nat.eqb_neq; lia).
  cbn [negb andb].
  rewrite integrity_score_ratio by (proj_simpl; rewrite E; discriminate).
  proj_simpl. rewrite active_count_map, length_map.
  unfold Qgeb. apply eq_true_iff_eq. rewrite Qle_bool_iff, Z.leb_le.
  change 0.8%Q with (8 # 10)%Q. rewrite ratio_le by exact Hlen. lia.
Qed.

Lemma threshold_none (r : string -> bool) names :
  (forall n, In n names -> r n = false) ->
  negb (Nat.eqb (length names) 0)
  && (4 * Z.of_nat (length names) <=? 5 * Z.of_nat (length (List.filter r names)))%Z
  = false.
Proof.
  intros Hr.
  assert (Hnil : List.filter r names = []).
  { induction names as [|n names IH]; [reflexivity|]. cbn.
    rewrite (Hr n (or_introl eq_refl)). apply IH. intros k Hk. apply Hr. now right. }
  rewrite Hnil. destruct names as [|n names]; [reflexivity|].
  cbn [length negb Nat.eqb andb]. apply Z.leb_gt. cbn [length]. lia.
Qed.

(** Auto-recovery on the demo's arms, all paused, after the first
    diagnostics. *)
Lemma mock_attempt clock names (e : EventRef) ev d s :
  components (fst s) = mock_arms names ->
  List.NoDup names ->
  component_status (fst s) = map (fun n => (n, "PAUSED")) names ->
  (forall n, In n names -> flag (ext (snd s)) n = false) ->
  state (fst s) = FROZEN ->
  current_freeze (fst s) = Some e ->
  heap (snd s) !! e = Some ev ->
  brain_callback (fst s) = None ->
  (recovery_attempts (fst s) < max_auto_recovery_attempts (fst s))%Z ->
  human_intervention_required d = human_needed s ->
  recommended_actions d = _determine_recovery_actions s ->
  let r := restarted (reason ev) (affected_components ev) in
  exists b s',
    _attempt_auto_recovery clock d s = (Returned b, s') /\
    components (fst s') = components (fst s) /\
    freeze_history (fst s') = freeze_history (fst s) /\
    if negb (Nat.eqb (length names) 0)
       && (4 * Z.of_nat (length names)
           <=? 5 * Z.of_nat (length (List.filter r names)))%Z
    then
      state (fst s') = ACTIVE /\
      current_freeze (fst s') = None /\
      recovery_attempts (fst s') = 0%Z /\
      component_status (fst s') = map (fun n => (n, "ACTIVE")) names /\
      (forall n, In n names -> flag (ext (snd s')) n = true)
    else
      state (fst s') = FROZEN /\
      current_freeze (fst s') = Some e /\
      recovery_attempts (fst s')
      = match reason ev with
        | SECURITY_CONCERN | DATA_INTEGRITY => recovery_attempts (fst s)
        | _ => (recovery_attempts (fst s) + 1)%Z
        end /\
      component_status (fst s')
      = map (fun n => (n, if r n then "ACTIVE" else "PAUSED")) names /\
      (forall n, In n names -> flag (ext (snd s')) n = r n).
Proof.
  intros Hc Hnd Hcs Hflags Hst Hcur Hlook Hcb Hatt Hhuman Hact r.
  assert (Hev : current_event s = Some ev)
    by (unfold current_event; now rewrite Hcur).
  unfold _attempt_auto_recovery. rewrite Hhuman. unfold human_needed at 1.
  rewrite Hev.
  replace (max_auto_recovery_attempts (fst s) <=? recovery_attempts (fst s))%Z
    with false by (symmetry; apply Z.leb_gt; exact Hatt).
  cbn [orb].
  set (hum := match reason ev with
              | SECURITY_CONCERN | DATA_INTEGRITY => true
              | _ => false
              end).
  destruct hum eqn:Ehum.
  - (* human review *)
    assert (Hr : forall n, In n names -> r n = false).
    { intros n _. subst r hum. unfold restarted.
      now destruct (reason ev). }
    exists false, s. split; [reflexivity|]. do 2 (split; [reflexivity|]).
    rewrite (threshold_none r names Hr).
    split; [exact Hst|]. split; [exact Hcur|]. split.
    { subst hum. now destruct (reason ev). }
    split.
    { rewrite Hcs. apply map_ext_in. intros n Hin. now rewrite Hr. }
    intros n Hin. rewrite Hr by exact Hin. now apply Hflags.
  - assert (Hr1 : reason ev <> SECURITY_CONCERN)
      by (intros E; subst hum; rewrite E in Ehum; discriminate).
    assert (Hr2 : reason ev <> DATA_INTEGRITY)
      by (intros E; subst hum; rewrite E in Ehum; discriminate).
    assert (Hatt' : match reason ev with
                    | SECURITY_CONCERN | DATA_INTEGRITY => recovery_attempts (fst s)
                    | _ => (recovery_attempts (fst s) + 1)%Z
                    end = (recovery_attempts (fst s) + 1)%Z)
      by (destruct (reason ev); congruence).
    rewrite Hatt'. clear Ehum hum.
    rewrite 2!bind_get.
    replace (max_auto_recovery_attempts (fst s) <=? recovery_attempts (fst s))%Z
      with false by (symmetry; apply Z.leb_gt; exact Hatt).
    rewrite bind_assign, Hact.
    destruct s as [[cb st cur comps cs hist en mx att] [x rd cl h]]. proj_simpl.
    subst cb st cur comps cs.
    (* the recovery actions *)
    match goal with
    | |- context [bind (recovery_loop _) ?k ?s1] =>
        destruct (mock_recovery names ev s1 eq_refl) as (cl1 & Hloop);
        [unfold current_event; proj_simpl; exact Hlook|exact Hr1|exact Hr2|]
    end.
    assert (Hsame : _determine_recovery_actions
                      (mkFreezeProtocol None FROZEN (Some e) (mock_arms names)
                         (map (fun n => (n, "PAUSED")) names) hist en mx att,
                       mkWorld x rd cl h)
                    = _determine_recovery_actions
                        (mkFreezeProtocol None FROZEN (Some e) (mock_arms names)
                           (map (fun n => (n, "PAUSED")) names) hist en mx (att + 1),
                         mkWorld x rd cl h)) by reflexivity.
    rewrite Hsame, (bind_returned _ _ _ _ _ _ Hloop). clear Hloop Hsame.
    cbn [negb]. proj_simpl.
    set (x2 := if restarts (reason ev)
               then set_all (List.filter (fun n => existsb (String.eqb n) names)
                               (affected_components ev)) (fun _ => true) x
               else x).
    assert (Hx2 : forall n, In n names -> flag x2 n = r n).
    { intros n Hin. subst x2 r. unfold restarted.
      destruct (restarts (reason ev)); cbn [andb]; [|now apply Hflags].
      destruct (existsb (String.eqb n) (affected_components ev)) eqn:Ea.
      - apply flag_set_all_in. apply filter_In. split.
        + now apply existsb_eqb_In.
        + now apply existsb_eqb_In.
      - rewrite flag_set_all_out; [now apply Hflags|].
        intros Hf. apply filter_In in Hf as [Hf _].
        apply existsb_eqb_In in Hf. congruence. }
    (* the second diagnostics *)
    match goal with
    | |- context [bind (run_diagnostics clock) ?k ?s2] =>
        destruct (mock_diagnostics clock names s2 eq_refl)
          as (post & Hdiag & _ & _ & Hscore);
        rewrite (bind_returned _ _ _ _ _ _ Hdiag); clear Hdiag
    end.
    proj_simpl. rewrite Hscore. clear Hscore post.
    rewrite (probe_statuses names r _ x2 Hnd (keys_of_map _ names) Hx2).
    rewrite score_threshold.
    destruct (negb (Nat.eqb (length names) 0)
              && (4 * Z.of_nat (length names)
                  <=? 5 * Z.of_nat (length (List.filter r names)))%Z).
    + (* unfrozen *)
      unfold bind at 1.
      match goal with
      | |- context [unfreeze clock _ ?s3] =>
          rewrite (mock_unfreeze clock names e s3 eq_refl eq_refl eq_refl eq_refl)
      end.
      proj_simpl. eexists _, _. split; [reflexivity|]. proj_simpl.
      do 2 (split; [reflexivity|]). do 3 (split; [reflexivity|]). split.
      * apply set_all_whole; [exact Hnd|apply keys_of_map].
      * intros n Hin. now apply flag_set_all_in.
    + eexists _, _. split; [reflexivity|]. proj_simpl.
      do 2 (split; [reflexivity|]). do 4 (split; [reflexivity|]). exact Hx2.
Qed.


(** X23. The demo's arms, any number of them, under a protocol without
    callback and with attempts left. Every freeze pauses all arms; whether
    the system then unfreezes itself depends on the reason and on how many
    of the registered arms the freeze names as affected. ARM_FAILURE and
    API_ERROR restart the affected arms, and the system unfreezes itself
    exactly when these are at least four in five of the registered arms
    (so always when no list is given and an arm is registered): it ends
    ACTIVE with every arm resumed. For every other reason, and with fewer
    arms restarted, it stays FROZEN: the restarted arms run and read
    ACTIVE, the others stay paused and read PAUSED. The attempt counter
    goes up by one unless the reason asks for human review. *)
Theorem mock_arms_recover_by_restart clock reason source details affected names s :
  state (fst s) <> FROZEN ->
  brain_callback (fst s) = None ->
  auto_recovery_enabled (fst s) = true ->
  (recovery_attempts (fst s) < max_auto_recovery_attempts (fst s))%Z ->
  components (fst s) = mock_arms names ->
  dict_keys (component_status (fst s)) = names ->
  List.NoDup names ->
  let out := trigger_freeze clock reason source details affected s in
  let s' := snd out in
  let r := restarted reason (affected_or_all affected (fst s)) in
  fst out = Returned (Some (length (heap (snd s)))) /\
  if negb (Nat.eqb (length names) 0)
     && (4 * Z.of_nat (length names) <=? 5 * Z.of_nat (length (List.filter r names)))%Z
  then
    state (fst s') = ACTIVE /\
    current_freeze (fst s') = None /\
    recovery_attempts (fst s') = 0%Z /\
    component_status (fst s') = map (fun n => (n, "ACTIVE")) names /\
    (forall n, In n names -> flag (ext (snd s')) n = true)
  else
    state (fst s') = FROZEN /\
    current_freeze (fst s') = Some (length (heap (snd s))) /\
    recovery_attempts (fst s')
    = match reason with
      | SECURITY_CONCERN | DATA_INTEGRITY => recovery_attempts (fst s)
      | _ => (recovery_attempts (fst s) + 1)%Z
      end /\
    component_status (fst s')
    = map (fun n => (n, if r n then "ACTIVE" else "PAUSED")) names /\
    (forall n, In n names -> flag (ext (snd s')) n = r n).
Proof.
  intros Hstate Hcb Hen Hatt Hc Hk Hnd out s' r.
  destruct s as [[cb st cur comps cs hist en mx att] [x rd cl h]]. proj_simpl.
  subst cb en comps.
  set (P := fun s1 : St (dict bool) =>
    if negb (Nat.eqb (length names) 0)
       && (4 * Z.of_nat (length names)
           <=? 5 * Z.of_nat (length (List.filter r names)))%Z
    then
      state (fst s1) = ACTIVE /\
      current_freeze (fst s1) = None /\
      recovery_attempts (fst s1) = 0%Z /\
      component_status (fst s1) = map (fun n => (n, "ACTIVE")) names /\
      (forall n, In n names -> flag (ext (snd s1)) n = true)
    else
      state (fst s1) = FROZEN /\
      current_freeze (fst s1) = Some (length h) /\
      recovery_attempts (fst s1)
      = match reason with
        | SECURITY_CONCERN | DATA_INTEGRITY => att
        | _ => (att + 1)%Z
        end /\
      component_status (fst s1)
      = map (fun n => (n, if r n then "ACTIVE" else "PAUSED")) names /\
      (forall n, In n names -> flag (ext (snd s1)) n = r n)).
  assert (Hout : exists s1, out = (Returned (Some (length h)), s1) /\ P s1).
  { subst out. unfold trigger_freeze. rewrite bind_get. proj_simpl.
    replace (SystemState_eqb st FROZEN) with false
      by (destruct st; cbn; congruence).
    steps.
    match goal with
    | |- context [bind _halt_components ?k ?s1] =>
        rewrite (bind_returned _ _ _ _ _ _ (mock_halt names s1 eq_refl))
    end.
    steps. steps.
    set (x1 := set_all names (fun _ => false) x).
    set (cs1 := set_all names (fun _ => "PAUSED") cs).
    assert (Hk1 : dict_keys cs1 = names).
    { subst cs1. rewrite set_all_keys; [exact Hk|]. rewrite Hk. apply incl_refl. }
    assert (Hx1 : forall n, In n names -> flag x1 n = false)
      by (intros n Hin; now apply flag_set_all_in).
    match goal with
    | |- context [bind (run_diagnostics clock) ?k ?s2] =>
        destruct (mock_diagnostics clock names s2 eq_refl)
          as (d & Hdiag & Hhuman & Hact & _);
        rewrite (bind_returned _ _ _ _ _ _ Hdiag); clear Hdiag
    end.
    proj_simpl. rewrite bind_get. proj_simpl. rewrite bind_assoc.
    rewrite (probe_statuses names (fun _ => false) cs1 x1 Hnd Hk1 Hx1) in *.
    match goal with
    | |- context [bind (_attempt_auto_recovery clock d) ?k ?s3] =>
        destruct (mock_attempt clock names (length h)
                    (mkFreezeEvent ("freeze_" ++ strftime_Ymd_HMS (clock rd))
                       (clock (S rd)) reason source details
                       (affected_or_all affected
                          (mkFreezeProtocol None st cur (mock_arms names) cs hist
                             true mx att))
                       false None None)
                    d s3 eq_refl Hnd eq_refl Hx1 eq_refl eq_refl (lookup_snoc _ _)
                    eq_refl Hatt Hhuman Hact)
          as (b & s1 & Hrun & _ & _ & Hcases)
    end.
    rewrite (bind_returned _ _ _ _ _ _ Hrun). steps.
    exists s1. split; [reflexivity|exact Hcases]. }
  destruct Hout as (s1 & Hout & Hcases). subst s'. rewrite Hout.
  split; [reflexivity|exact Hcases].
Qed.

Lemma demo_start_names :
  List.NoDup ["hansard"; "veritas"].
Proof.
  repeat constructor; cbn; intuition discriminate.
Qed.

Lemma mock_arms_recover_by_restart_witness :
  state (fst demo_frozen) = FROZEN /\
  component_status (fst demo_frozen) = [("hansard", "ACTIVE"); ("veritas", "PAUSED")].
Proof.
  pose proof (mock_arms_recover_by_restart same_second_clock API_ERROR "hansard"
                "Parliament API returned 503 - Service Unavailable" (Some ["hansard"])
                ["hansard"; "veritas"] demo_start) as H.
  destruct H as (_ & Hst & _ & _ & Hcs & _).
  - discriminate.
  - reflexivity.
  - reflexivity.
  - cbn. lia.
  - reflexivity.
  - reflexivity.
  - exact demo_start_names.
  - split; [exact Hst|exact Hcs].
Defined.

End MockArmFacts.

(** ** The brain orchestrator: verification, freezing and the health score *)

Module BrainMore.
Import Py Brain.

Ltac brain_simpl :=
  cbn [fst snd designation registry laws arms arm_status frozen freeze_reason
       verifications_total verifications_passed ext reads calls set_arms
       set_arm_status set_frozen set_metrics] in *.

Lemma mark_get_in X (done : list (string * Arm X)) st cs name :
  In name (dict_keys done) -> dict_get name (mark done st cs) = Some st.
Proof.
  unfold mark. revert cs. induction done as [|[k a] done IH] using rev_ind; intros cs.
  - intros [].
  - unfold dict_keys. rewrite map_app, in_app_iff, fold_left_app. cbn.
    destruct (String.eqb_spec k name) as [->|Hne].
    + intros _. apply PyFacts.dict_get_set_eq.
    + intros [Hin|[E|[]]]; [|contradiction].
      rewrite PyFacts.dict_get_set_ne by exact Hne. now apply IH.
Qed.

Lemma mark_get_out X (done : list (string * Arm X)) st cs name :
  ~ In name (dict_keys done) -> dict_get name (mark done st cs) = dict_get name cs.
Proof.
  unfold mark. revert cs. induction done as [|[k a] done IH]; intros cs Hn; cbn.
  - reflexivity.
  - cbn in Hn. rewrite IH by tauto. apply PyFacts.dict_get_set_ne. tauto.
Qed.

Lemma mark_keys X (done : list (string * Arm X)) st cs :
  incl (dict_keys done) (dict_keys cs) -> dict_keys (mark done st cs) = dict_keys cs.
Proof.
  unfold mark. revert cs.
  induction done as [|[k a] done IH]; intros cs Hincl; cbn [fold_left fst].
  - reflexivity.
  - assert (Hk : dict_keys (dict_set k st cs) = dict_keys cs).
    { rewrite PyFacts.dict_keys_set.
      replace (dict_contains k cs) with true; [reflexivity|].
      symmetry. apply PyFacts.dict_contains_keys. apply Hincl. now left. }
    rewrite IH; [exact Hk|]. rewrite Hk. intros x Hx. apply Hincl. now right.
Qed.



Lemma arm_calls_methods X (method : Arm X -> option (X -> Outcome unit * X)) mk items :
  arm_calls method mk items = map fst (Freeze.methods_of method mk items).
Proof.
  unfold arm_calls, Freeze.methods_of.
  induction items as [|[name arm] items IH]; [reflexivity|].
  cbn [flat_map snd fst]. rewrite map_app, <- IH. now destruct (method arm).
Qed.

(** The loop of [freeze] and [unfreeze], with what the arms did: the
    arms [done] were passed, those of them that have the method returning
    one after the other; the loop ends there when no arm is left, and
    otherwise the next arm raised on what they left. *)
Lemma for_arms_runs X (items : list (string * Arm X)) method mk st
    (self : WestminsterWatch X) (w : World X) :
  exists r done rest x1 x',
    items = (done ++ rest)%list /\
    Freeze.runs_until_raise (Freeze.methods_of method mk done) (ext w)
      (arm_calls method mk done) (Returned tt) x1 /\
    for_arms items method mk st (self, w)
    = (r, (set_arm_status (mark done st (arm_status self)) self,
           mkWorld x' (reads w)
             (calls w ++ arm_calls method mk done
              ++ match r, rest with
                 | Raised _, (name, _) :: _ => [mk name]
                 | _, _ => []
                 end))) /\
    ((r = Returned tt /\ rest = [] /\ x' = x1) \/
     (exists e name arm rest' f,
        r = Raised e /\ rest = (name, arm) :: rest' /\ method arm = Some f /\
        f x1 = (Raised e, x'))).
Proof.
  revert self w. induction items as [|[name arm] items IH]; intros self w.
  - exists (Returned tt), [], [], (ext w), (ext w). split; [reflexivity|].
    split; [constructor|].
    cbn. rewrite app_nil_r. split; [now destruct self, w|now left].
  - cbn [for_arms].
    destruct (method arm) as [f|] eqn:Em.
    + destruct (f (ext w)) as [[[]|e] x0] eqn:Ef.
      * destruct (IH (set_arm_status (dict_set name st (arm_status self)) self)
                     (mkWorld x0 (reads w) (calls w ++ [mk name])))
          as (r & done & rest & x1 & x2 & -> & Hruns & Hrun & Hcases).
        exists r, ((name, arm) :: done), rest, x1, x2. split; [reflexivity|].
        rewrite Hrun. brain_simpl. unfold arm_calls, Freeze.methods_of in *.
        cbn [flat_map snd fst]. rewrite Em. cbn [app].
        split; [now apply (Freeze.runs_returned _ _ _ _ x0)|].
        split; [now rewrite <- !app_assoc|exact Hcases].
      * exists (Raised e), [], ((name, arm) :: items), (ext w), x0.
        split; [reflexivity|]. split; [constructor|].
        cbn. split; [now destruct self|]. right.
        now exists e, name, arm, items, f.
    + destruct (IH (set_arm_status (dict_set name st (arm_status self)) self) w)
        as (r & done & rest & x1 & x2 & -> & Hruns & Hrun & Hcases).
      exists r, ((name, arm) :: done), rest, x1, x2. split; [reflexivity|].
      rewrite Hrun. brain_simpl. unfold arm_calls, Freeze.methods_of in *.
      cbn [flat_map snd fst]. rewrite Em. cbn [app].
      split; [exact Hruns|]. split; [reflexivity|exact Hcases].
Qed.

(** When no call raises, the loop passes every arm. *)
Lemma for_arms_all_return X (method : Arm X -> option (X -> Outcome unit * X))
    (items done rest : list (string * Arm X)) e name arm f x1 x' :
  (forall n a g x, In (n, a) items -> method a = Some g ->
     exists x2, g x = (Returned tt, x2)) ->
  items = (done ++ (name, arm) :: rest)%list ->
  method arm = Some f -> f x1 = (Raised e, x') -> False.
Proof.
  intros Hret -> Hm Hf.
  destruct (Hret name arm f x1) as [x2 Hx]; [|exact Hm|congruence].
  apply in_or_app. right. now left.
Qed.


(** X19. The brain's [triple_check] on a brain that is not frozen accepts
    every fact, whatever the fact and the sources, the empty lists
    included: all three checks pass, the status is VERIFIED and the
    confidence is 1. The result carries the fact's own id, or the hash of
    its text when it has none, the two source lists one after the other,
    and the clock reading. Both verification counters go up by one; no
    arm is called and nothing else changes. *)
Theorem triple_check_verifies_everything X clock py_hash (data : dict PyVal)
    (primary_sources secondary_sources : list string) (s : St X) :
  frozen (fst s) = false ->
  exists r,
    triple_check clock py_hash data primary_sources secondary_sources s
    = (Returned r,
       (set_metrics (verifications_total (fst s) + 1)
          (verifications_passed (fst s) + 1) (fst s),
        mkWorld (ext (snd s)) (S (reads (snd s))) (calls (snd s)))) /\
    status r = VerificationStatus.VERIFIED /\
    primary_check r = true /\ secondary_check r = true /\ pattern_check r = true /\
    (confidence r == 1)%Q /\
    sources r = (primary_sources ++ secondary_sources)%list /\
    timestamp r = clock (reads (snd s)) /\
    data_id r = match dict_get "id" data with
                | Some v => v
                | None => VStr (str_int (py_hash (repr (VDict data))))
                end.
Proof.
  intros Hfrozen. destruct s as [self w]. cbn [fst snd] in *.
  unfold triple_check. rewrite Hfrozen.
  eexists. split; [reflexivity|]. cbn. repeat split; reflexivity.
Qed.

Lemma triple_check_verifies_everything_witness :
  exists r,
    fst (triple_check TripleCheck.demo_clock (fun _ => 0%Z) TripleCheck.demo_data
           [] [] demo_start) = Returned r /\
    status r = VerificationStatus.VERIFIED.
Proof.
  destruct (triple_check_verifies_everything (dict bool) TripleCheck.demo_clock
              (fun _ => 0%Z) TripleCheck.demo_data [] [] demo_start eq_refl)
    as (r & Hrun & Hst & _).
  exists r. rewrite Hrun. split; [reflexivity|exact Hst].
Defined.


(** X20. The brain's [freeze] on a brain that is not frozen sets the
    flag and the reason first and then pauses the arms in the order of
    the registry, each on what the pauses before it left of the arms,
    marking each PAUSED once its [pause] has returned (or when it has
    none). When every [pause] returns, [freeze] returns, every arm is
    PAUSED and the clock is read once. When a [pause] raises, that
    exception leaves [freeze]: the brain stays frozen, the arms before the
    failing one are PAUSED, and the failing arm and all arms after it are
    neither marked nor, the later ones, paused. In both cases a later
    [freeze] does nothing, so the arms not reached stay as they are. *)
Theorem freeze_pauses_arms X reason (s : St X) :
  frozen (fst s) = false ->
  let out := freeze reason s in
  let s' := snd out in
  exists done rest,
    arms (fst s) = (done ++ rest)%list /\
    fst s' = set_arm_status (mark done ArmStatus.PAUSED (arm_status (fst s)))
               (set_frozen true (Some reason) (fst s)) /\
    (forall name, In name (dict_keys done) ->
       dict_get name (arm_status (fst s')) = Some ArmStatus.PAUSED) /\
    (forall name, ~ In name (dict_keys done) ->
       dict_get name (arm_status (fst s')) = dict_get name (arm_status (fst s))) /\
    ((fst out = Returned tt /\ rest = [] /\
      calls (snd s')
      = (calls (snd s) ++ arm_calls pause Freeze.Call_pause (arms (fst s)))%list /\
      reads (snd s') = S (reads (snd s)))
     \/
     (exists e name arm rest',
        fst out = Raised e /\ rest = (name, arm) :: rest' /\ pause arm <> None /\
        calls (snd s')
        = (calls (snd s) ++ arm_calls pause Freeze.Call_pause done
           ++ [Freeze.Call_pause name])%list /\
        reads (snd s') = reads (snd s))) /\
    (forall reason', freeze reason' s' = (Returned tt, s')) /\
    (exists x1,
       Freeze.runs_until_raise (Freeze.methods_of pause Freeze.Call_pause done)
         (ext (snd s)) (arm_calls pause Freeze.Call_pause done) (Returned tt) x1 /\
       match rest with
       | [] => fst out = Returned tt /\ ext (snd s') = x1
       | (name, arm) :: _ =>
           exists f e,
             pause arm = Some f /\ f x1 = (Raised e, ext (snd s')) /\
             fst out = Raised e
       end) /\
    ((forall name arm f x, In (name, arm) (arms (fst s)) -> pause arm = Some f ->
        exists x1, f x = (Returned tt, x1)) ->
     fst out = Returned tt /\ rest = []).
Proof.
  intros Hfrozen out s'. destruct s as [self w]. cbn [fst snd] in *.
  destruct (for_arms_runs X (arms self) pause Freeze.Call_pause ArmStatus.PAUSED
              (set_frozen true (Some reason) self) w)
    as (r & done & rest & x1 & x' & Harms & Hruns & Hrun & Hcases).
  assert (Hout : out
    = (r,
       (set_arm_status (mark done ArmStatus.PAUSED (arm_status self))
          (set_frozen true (Some reason) self),
        mkWorld x' (match r with Returned _ => S (reads w) | Raised _ => reads w end)
          (calls w ++ arm_calls pause Freeze.Call_pause done
           ++ match r, rest with
              | Raised _, (name, _) :: _ => [Freeze.Call_pause name]
              | _, _ => []
              end)))).
  { subst out. unfold freeze. rewrite Hfrozen.
    change (arms (set_frozen true (Some reason) self)) with (arms self).
    rewrite Hrun. now destruct r as [[]|e]. }
  exists done, rest. split; [exact Harms|].
  assert (Hself : fst s' = set_arm_status (mark done ArmStatus.PAUSED (arm_status self))
                             (set_frozen true (Some reason) self)).
  { subst s'. now rewrite Hout. }
  split; [exact Hself|]. rewrite Hself. brain_simpl.
  split; [intros name Hin; now apply mark_get_in|].
  split; [intros name Hin; now apply mark_get_out|].
  assert (Hret : (forall name arm f x, In (name, arm) (arms self) -> pause arm = Some f ->
                    exists x2, f x = (Returned tt, x2)) ->
                 r = Returned tt /\ rest = []).
  { intros Hall. destruct Hcases as [(-> & -> & _)|(e & name & arm & rest' & f & _ & -> & Hm & Hf)];
      [now split|].
    exfalso. exact (for_arms_all_return X pause _ _ _ _ _ _ _ _ _ Hall Harms Hm Hf). }
  split; [|split; [|split]].
  - subst s'. rewrite Hout.
    destruct Hcases as [(-> & -> & _)|(e & name & arm & rest' & f & -> & -> & Hm & _)].
    + left. cbn [fst snd]. brain_simpl. rewrite !app_nil_r in *. subst done.
      now repeat split.
    + right. exists e, name, arm, rest'. cbn [fst snd]. brain_simpl.
      repeat split. congruence.
  - intros reason'. unfold freeze. destruct s' as [self' w']. cbn [fst] in Hself.
    rewrite Hself. reflexivity.
  - exists x1. split; [exact Hruns|]. subst s'. rewrite Hout. cbn [fst snd]. brain_simpl.
    destruct Hcases as [(-> & -> & ->)|(e & name & arm & rest' & f & -> & -> & Hm & Hf)].
    + now split.
    + now exists f, e.
  - intros Hall. subst out. rewrite Hout. cbn [fst]. exact (Hret Hall).
Qed.

Lemma freeze_pauses_arms_witness :
  exists done rest,
    arms (fst demo_start) = (done ++ rest)%list /\
    fst demo_frozen
    = set_arm_status (mark done ArmStatus.PAUSED (arm_status (fst demo_start)))
        (set_frozen true (Some "Arm hansard health check failed") (fst demo_start)).
Proof.
  destruct (freeze_pauses_arms (dict bool) "Arm hansard health check failed"
              demo_start eq_refl) as (done & rest & H1 & H2 & _).
  exists done, rest. split; [exact H1|exact H2].
Defined.

(** X21. The brain's [unfreeze] with a non-empty authorization does not
    ask whether the brain is frozen: it clears the flag and the reason and
    resumes the arms in the order of the registry, each on what the
    resumes before it left of the arms, marking each ACTIVE once its
    [resume] has returned (or when it has none), whatever its status was
    (INITIALIZING and FAILED included). When every [resume] returns it
    returns true. When a [resume] raises, that exception leaves [unfreeze]
    with the brain already unfrozen and the failing arm and all arms after
    it not marked, the later ones not resumed. With an empty or absent
    authorization it returns false and changes nothing. *)
Theorem unfreeze_activates_arms X (c : ascii) (rest_auth : string) (s : St X) :
  let out := unfreeze (Some (String c rest_auth)) s in
  let s' := snd out in
  (exists done rest,
     arms (fst s) = (done ++ rest)%list /\
     fst s' = set_arm_status (mark done ArmStatus.ACTIVE (arm_status (fst s)))
                (set_frozen false None (fst s)) /\
     (forall name, In name (dict_keys done) ->
        dict_get name (arm_status (fst s')) = Some ArmStatus.ACTIVE) /\
     (forall name, ~ In name (dict_keys done) ->
        dict_get name (arm_status (fst s')) = dict_get name (arm_status (fst s))) /\
     reads (snd s') = reads (snd s) /\
     ((fst out = Returned true /\ rest = [] /\
       calls (snd s')
       = (calls (snd s) ++ arm_calls resume Freeze.Call_resume (arms (fst s)))%list)
      \/
      (exists e name arm rest',
         fst out = Raised e /\ rest = (name, arm) :: rest' /\ resume arm <> None /\
         calls (snd s')
         = (calls (snd s) ++ arm_calls resume Freeze.Call_resume done
            ++ [Freeze.Call_resume name])%list)) /\
     (exists x1,
        Freeze.runs_until_raise (Freeze.methods_of resume Freeze.Call_resume done)
          (ext (snd s)) (arm_calls resume Freeze.Call_resume done) (Returned tt) x1 /\
        match rest with
        | [] => fst out = Returned true /\ ext (snd s') = x1
        | (name, arm) :: _ =>
            exists f e,
              resume arm = Some f /\ f x1 = (Raised e, ext (snd s')) /\
              fst out = Raised e
        end) /\
     ((forall name arm f x, In (name, arm) (arms (fst s)) -> resume arm = Some f ->
         exists x1, f x = (Returned tt, x1)) ->
      fst out = Returned true /\ rest = [])) /\
  unfreeze None s = (Returned false, s) /\
  unfreeze (Some "") s = (Returned false, s).
Proof.
  intros out s'. destruct s as [self w]. cbn [fst snd] in *.
  split; [|split; reflexivity].
  destruct (for_arms_runs X (arms self) resume Freeze.Call_resume ArmStatus.ACTIVE
              (set_frozen false None self) w)
    as (r & done & rest & x1 & x' & Harms & Hruns & Hrun & Hcases).
  assert (Hout : out
    = (match r with Returned _ => Returned true | Raised e => Raised e end,
       (set_arm_status (mark done ArmStatus.ACTIVE (arm_status self))
          (set_frozen false None self),
        mkWorld x' (reads w)
          (calls w ++ arm_calls resume Freeze.Call_resume done
           ++ match r, rest with
              | Raised _, (name, _) :: _ => [Freeze.Call_resume name]
              | _, _ => []
              end)))).
  { subst out. unfold unfreeze.
    change (arms (set_frozen false None self)) with (arms self).
    rewrite Hrun. now destruct r. }
  exists done, rest. split; [exact Harms|].
  subst s'. rewrite Hout. cbn [fst snd]. brain_simpl.
  split; [reflexivity|].
  split; [intros name Hin; now apply mark_get_in|].
  split; [intros name Hin; now apply mark_get_out|].
  split; [reflexivity|].
  split; [|split].
  - destruct Hcases as [(-> & -> & _)|(e & name & arm & rest' & f & -> & -> & Hm & _)].
    + left. rewrite !app_nil_r in *. subst done. now repeat split.
    + right. exists e, name, arm, rest'. repeat split. congruence.
  - exists x1. split; [exact Hruns|].
    destruct Hcases as [(-> & -> & ->)|(e & name & arm & rest' & f & -> & -> & Hm & Hf)].
    + now split.
    + now exists f, e.
  - intros Hall.
    destruct Hcases as [(-> & -> & _)|(e & name & arm & rest' & f & _ & -> & Hm & Hf)];
      [now split|].
    exfalso. exact (for_arms_all_return X resume _ _ _ _ _ _ _ _ _ Hall Harms Hm Hf).
Qed.


(** *** The health score *)

Lemma py_round_comp (x y : Q) : (x == y)%Q -> py_round x = py_round y.
Proof.
  intros H. unfold py_round. rewrite (Qfloor_comp _ _ H).
  assert (Hc : (x - inject_Z (Qfloor y) ?= 1 # 2)%Q
               = (y - inject_Z (Qfloor y) ?= 1 # 2)%Q).
  { apply Qcompare_comp; [|reflexivity]. now rewrite H. }
  now rewrite Hc.
Qed.

Lemma py_round_bounds (x : Q) (a b : Z) :
  (inject_Z a <= x <= inject_Z b)%Q -> (a <= py_round x <= b)%Z.
Proof.
  intros [Ha Hb].
  assert (Hfa : (a <= Qfloor x)%Z).
  { rewrite <- (Qfloor_Z a). now apply Qfloor_resp_le. }
  assert (Hfb : (Qfloor x <= b)%Z).
  { rewrite <- (Qfloor_Z b). now apply Qfloor_resp_le. }
  assert (Hfx := Qfloor_le x).
  assert (Hup : (0 < x - inject_Z (Qfloor x))%Q -> (Qfloor x + 1 <= b)%Z).
  { intros Hpos. assert (Hlt : (inject_Z (Qfloor x) < inject_Z b)%Q) by lra.
    rewrite <- Zlt_Qlt in Hlt. lia. }
  unfold py_round.
  destruct (x - inject_Z (Qfloor x) ?= 1 # 2)%Q eqn:E.
  - apply Qeq_alt in E. destruct (Z.even (Qfloor x)); [lia|].
    split; [lia|]. apply Hup. rewrite E. reflexivity.
  - lia.
  - apply Qgt_alt in E. split; [lia|]. apply Hup.
    eapply Qlt_trans; [|exact E]. reflexivity.
Qed.

Lemma percent_bounds (a n : Z) :
  (0 <= a <= n)%Z -> (0 < n)%Z ->
  (inject_Z 0 <= inject_Z a / inject_Z n * 100 <= inject_Z 100)%Q.
Proof.
  intros Ha Hn.
  assert (Hpos : (0 < inject_Z n)%Q) by (rewrite <- (Zlt_Qlt 0); lia).
  assert (H0 : (0 <= inject_Z a / inject_Z n)%Q).
  { apply Qle_shift_div_l; [exact Hpos|]. rewrite Qmult_0_l.
    rewrite <- (Zle_Qle 0). lia. }
  assert (H1 : (inject_Z a / inject_Z n <= 1)%Q).
  { apply Qle_shift_div_r; [exact Hpos|]. rewrite Qmult_1_l.
    rewrite <- Zle_Qle. lia. }
  change (inject_Z 0) with 0%Q. change (inject_Z 100) with 100%Q. split; lra.
Qed.

Lemma percent_full (n : Z) : (0 < n)%Z -> (inject_Z n / inject_Z n * 100 == 100)%Q.
Proof.
  intros Hn. assert (Hne : ~ (inject_Z n == 0)%Q).
  { intros E. assert (Hpos : (0 < inject_Z n)%Q) by (rewrite <- (Zlt_Qlt 0); lia).
    rewrite E in Hpos. discriminate. }
  unfold Qdiv. rewrite Qmult_inv_r by exact Hne. reflexivity.
Qed.

Lemma active_arms_all (cs : dict ArmStatus.t) :
  Forall (fun st => st = ArmStatus.ACTIVE) (dict_values cs) ->
  length (List.filter (fun s => ArmStatus_eqb s ArmStatus.ACTIVE) (dict_values cs))
  = length cs.
Proof.
  unfold dict_values. rewrite <- (length_map snd cs).
  generalize (map snd cs). intros vs. induction 1 as [|v vs -> _ IH]; cbn; [reflexivity|].
  now rewrite IH.
Qed.

(** X22. The democracy health score and its two factors are whole numbers
    between 0 and 100, as long as the passed verifications do not exceed
    the total. The system health factor is 0 for a brain with no arm and
    100 when there is an arm and every arm is ACTIVE; the verification
    factor is 0 before the first verification and 100 when every
    verification passed; with both factors at their best the score is
    100, and a new brain scores 0. The brain reads FROZEN exactly when the
    flag is set. *)
Theorem health_score_bounds X (self : WestminsterWatch X) :
  (0 <= verifications_passed self <= verifications_total self)%Z ->
  let h := get_democracy_health_score self in
  (0 <= score_value h <= 100)%Z /\
  score_max h = 100%Z /\
  (0 <= system_health_score h <= 100)%Z /\
  (0 <= verification_rate_score h <= 100)%Z /\
  (arm_status self = [] -> system_health_score h = 0%Z) /\
  (arm_status self <> [] ->
   Forall (fun st => st = ArmStatus.ACTIVE) (dict_values (arm_status self)) ->
   system_health_score h = 100%Z) /\
  (verifications_total self = 0%Z -> verification_rate_score h = 0%Z) /\
  ((0 < verifications_total self)%Z ->
   verifications_passed self = verifications_total self ->
   verification_rate_score h = 100%Z) /\
  (arm_status self <> [] ->
   Forall (fun st => st = ArmStatus.ACTIVE) (dict_values (arm_status self)) ->
   (0 < verifications_total self)%Z ->
   verifications_passed self = verifications_total self ->
   score_value h = 100%Z) /\
  (arm_status self = [] -> verifications_total self = 0%Z -> score_value h = 0%Z) /\
  (status_brain h = "FROZEN" <-> frozen self = true).
Proof.
  intros Hv h. subst h. unfold get_democracy_health_score.
  cbn [score_value score_max system_health_score verification_rate_score
       status_brain].
  set (active := Z.of_nat (length (List.filter _ (dict_values (arm_status self))))).
  set (total := match length (arm_status self) with O => 1%Z | n => Z.of_nat n end).
  set (system_health := (inject_Z active / inject_Z total * 100)%Q).
  set (verification_rate := if (0 <? verifications_total self)%Z then _ else 0%Q).
  assert (Hactive : (0 <= active <= total)%Z).
  { subst active total.
    pose proof (List.filter_length_le (fun s => ArmStatus_eqb s ArmStatus.ACTIVE)
                  (dict_values (arm_status self))) as Hle.
    unfold dict_values in Hle at 2. rewrite length_map in Hle.
    destruct (length (arm_status self)); lia. }
  assert (Htotal : (0 < total)%Z).
  { subst total. destruct (length (arm_status self)); lia. }
  assert (Hsys : (inject_Z 0 <= system_health <= inject_Z 100)%Q)
    by now apply percent_bounds.
  assert (Hver : (inject_Z 0 <= verification_rate <= inject_Z 100)%Q).
  { subst verification_rate. destruct (0 <? verifications_total self)%Z eqn:E.
    - apply Z.ltb_lt in E. now apply percent_bounds.
    - split; discriminate. }
  assert (Hall : (inject_Z 0 <= (system_health + verification_rate) / 2
                  <= inject_Z 100)%Q).
  { change (inject_Z 0) with 0%Q in *. change (inject_Z 100) with 100%Q in *.
    split; [apply Qle_shift_div_l|apply Qle_shift_div_r]; lra. }
  split; [now apply py_round_bounds|]. split; [reflexivity|].
  split; [now apply py_round_bounds|]. split; [now apply py_round_bounds|].
  split.
  { intros Hnil. subst system_health active. rewrite Hnil. reflexivity. }
  split.
  { intros Hne Hact. subst system_health active total.
    rewrite (active_arms_all _ Hact).
    destruct (arm_status self) as [|kv rest]; [contradiction|].
    cbn [length]. rewrite (py_round_comp _ 100); [reflexivity|].
    apply percent_full. lia. }
  split.
  { intros Hz. subst verification_rate. rewrite Hz. reflexivity. }
  split.
  { intros Hpos Heq. subst verification_rate.
    rewrite (proj2 (Z.ltb_lt _ _) Hpos), Heq.
    rewrite (py_round_comp _ 100); [reflexivity|]. now apply percent_full. }
  assert (Hsys_full : arm_status self <> [] ->
            Forall (fun st => st = ArmStatus.ACTIVE) (dict_values (arm_status self)) ->
            (system_health == 100)%Q).
  { intros Hne Hact. subst system_health active total.
    rewrite (active_arms_all _ Hact).
    destruct (arm_status self) as [|kv rest]; [contradiction|].
    cbn [length]. apply percent_full. lia. }
  assert (Hver_full : (0 < verifications_total self)%Z ->
            verifications_passed self = verifications_total self ->
            (verification_rate == 100)%Q).
  { intros Hpos Heq. subst verification_rate.
    rewrite (proj2 (Z.ltb_lt _ _) Hpos), Heq. now apply percent_full. }
  split.
  { intros Hne Hact Hpos Heq.
    rewrite (py_round_comp _ 100); [reflexivity|].
    rewrite (Hsys_full Hne Hact), (Hver_full Hpos Heq). reflexivity. }
  split.
  { intros Hnil Hz. subst system_health verification_rate active.
    rewrite Hnil, Hz. reflexivity. }
  destruct (frozen self); split; intros; congruence.
Qed.

Lemma health_score_bounds_witness :
  (0 <= score_value (get_democracy_health_score (fst demo_start)) <= 100)%Z.
Proof.
  refine (proj1 (health_score_bounds (dict bool) (fst demo_start) _)).
  cbn. lia.
Defined.

End BrainMore.

(** ** The brain's health checks *)

Module HealthFacts.
Import Py Brain BrainMore.








(** *** When every arm is well *)

Lemma health_check_loop_all_well X clock (health : HealthChecks X) items reports
    (s : St X) :
  all_well health items (arm_status (fst s)) ->
  List.NoDup (dict_keys items) ->
  exists reports' cs' x' n',
    health_check_loop clock health items reports s
    = (Returned reports',
       (set_arm_status cs' (fst s),
        mkWorld x' n' (calls (snd s) ++ health_calls health items))) /\
    (forall name, In name (dict_keys items) ->
       exists st r,
         st <> ArmStatus.FAILED /\
         dict_get name cs' = Some st /\
         dict_get name reports' = Some r /\
         report_status_of r = Returned st) /\
    (forall name, ~ In name (dict_keys items) ->
       dict_get name cs' = dict_get name (arm_status (fst s)) /\
       dict_get name reports' = dict_get name reports).
Proof.
  revert reports s. induction items as [|[name arm] items IH]; intros reports s Hwell Hnd.
  - exists reports, (arm_status (fst s)), (ext (snd s)), (reads (snd s)).
    cbn [health_check_loop health_calls flat_map]. rewrite app_nil_r.
    split; [destruct s as [self []]; now destruct self|].
    split; [intros name []|auto].
  - cbn [dict_keys map fst] in Hnd. apply List.NoDup_cons_iff in Hnd as [Hnotin Hnd].
    destruct s as [self w]. cbn [fst snd] in *.
    assert (Hstep : exists st report x1 n1,
      st <> ArmStatus.FAILED /\
      report_status_of report = Returned st /\
      health_check_try clock health name reports (self, w)
      = (Returned tt, dict_set name report reports,
         (set_arm_status (dict_set name st (arm_status self)) self,
          mkWorld x1 n1
            (calls w ++ match health name with
                        | Some _ => [Freeze.Call_health_check name]
                        | None => []
                        end)))).
    { specialize (Hwell name arm (or_introl eq_refl)). unfold health_check_try.
      destruct (health name) as [f|].
      - destruct (Hwell (ext w)) as (st & Hf & Hst).
        destruct (f (ext w)) as [r x1]. cbn in Hf. subst r.
        exists st, (ArmReport (HasStatus st)), x1, (reads w).
        split; [exact Hst|]. split; [reflexivity|].
        cbn. now destruct st.
      - set (st := match dict_get name (arm_status self) with
                   | Some st => st
                   | None => ArmStatus.INITIALIZING
                   end).
        assert (Hst : st <> ArmStatus.FAILED).
        { subst st. destruct (dict_get name (arm_status self)) as [st0|];
            [congruence|discriminate]. }
        exists st, (BrainReport (mkArmHealthReport name st (clock (reads w)) None 1.0%Q)),
          (ext w), (S (reads w)).
        split; [exact Hst|]. split; [reflexivity|].
        cbn. rewrite app_nil_r. now destruct st. }
    destruct Hstep as (st & report & x1 & n1 & Hst & Hrep & Htry).
    cbn [health_check_loop]. rewrite Htry.
    edestruct (IH (dict_set name report reports)
                 (set_arm_status (dict_set name st (arm_status self)) self,
                  mkWorld x1 n1
                    (calls w ++ match health name with
                                | Some _ => [Freeze.Call_health_check name]
                                | None => []
                                end)))
      as (reports' & cs' & x' & n' & Hrun & Hin & Hout); [|exact Hnd|].
    { intros n a Hna. specialize (Hwell n a (or_intror Hna)). brain_simpl.
      destruct (health n); [exact Hwell|].
      rewrite PyFacts.dict_get_set_ne; [exact Hwell|].
      intros ->. apply Hnotin. apply (in_map fst) in Hna. exact Hna. }
    exists reports', cs', x', n'. rewrite Hrun. brain_simpl.
    split.
    { unfold health_calls. cbn [flat_map fst]. now rewrite <- app_assoc. }
    split.
    + cbn [dict_keys map fst]. intros n [<-|Hn]; [|now apply Hin].
      destruct (Hout name Hnotin) as [Hc Hr].
      exists st, report. rewrite Hc, Hr, !PyFacts.dict_get_set_eq. now repeat split.
    + intros n Hn.
      assert (Hne : name <> n) by (intros E; apply Hn; now left).
      assert (Hni : ~ In n (dict_keys items)) by (intros E; apply Hn; now right).
      destruct (Hout n Hni) as [Hc Hr].
      rewrite Hc, Hr, !PyFacts.dict_get_set_ne by exact Hne. now split.
Qed.

(** X25. When every registered arm is well, [health_check_all] only
    looks: it calls the health check of every arm that has one, once, in
    the order of the registry, returns one report per arm and records the
    reported status for it; an arm without a health check is reported with
    the status already recorded for it (INITIALIZING if none). No arm is
    paused, the brain is not frozen by the call, and nothing else of the
    brain changes. *)
Theorem health_check_all_when_well X clock (health : HealthChecks X) (s : St X) :
  all_well health (arms (fst s)) (arm_status (fst s)) ->
  dict_wf (arms (fst s)) ->
  exists reports s',
    health_check_all clock health s = (Returned reports, s') /\
    frozen (fst s') = frozen (fst s) /\
    freeze_reason (fst s') = freeze_reason (fst s) /\
    arms (fst s') = arms (fst s) /\
    verifications_total (fst s') = verifications_total (fst s) /\
    verifications_passed (fst s') = verifications_passed (fst s) /\
    calls (snd s') = (calls (snd s) ++ health_calls health (arms (fst s)))%list /\
    (forall name, In name (dict_keys (arms (fst s))) ->
       exists st r,
         st <> ArmStatus.FAILED /\
         dict_get name (arm_status (fst s')) = Some st /\
         dict_get name reports = Some r /\
         report_status_of r = Returned st) /\
    (forall name, ~ In name (dict_keys (arms (fst s))) ->
       dict_get name (arm_status (fst s')) = dict_get name (arm_status (fst s)) /\
       dict_get name reports = None).
Proof.
  intros Hwell Hwf.
  destruct (health_check_loop_all_well X clock health (arms (fst s)) [] s Hwell)
    as (reports & cs' & x' & n' & Hrun & Hin & Hout).
  { unfold dict_wf in Hwf. now apply NoDup_ListNoDup. }
  exists reports, (set_arm_status cs' (fst s),
                   mkWorld x' n' (calls (snd s) ++ health_calls health (arms (fst s)))).
  split; [exact Hrun|]. brain_simpl. do 6 (split; [reflexivity|]).
  split; [exact Hin|exact Hout].
Qed.

Lemma health_check_all_when_well_witness :
  exists reports s',
    health_check_all TripleCheck.demo_clock
      (fun _ => Some (fun x => (Returned (HasStatus ArmStatus.ACTIVE), x))) demo_start
    = (Returned reports, s') /\
    frozen (fst s') = false.
Proof.
  destruct (health_check_all_when_well (dict bool) TripleCheck.demo_clock
              (fun _ => Some (fun x => (Returned (HasStatus ArmStatus.ACTIVE), x)))
              demo_start) as (reports & s' & Hrun & Hf & _).
  - intros name arm _ x. exists ArmStatus.ACTIVE. split; [reflexivity|discriminate].
  - unfold dict_wf. apply (bool_decide_unpack _). vm_compute. exact I.
  - exists reports, s'. split; [exact Hrun|exact Hf].
Defined.

End HealthFacts.
